(** * Trace-to-test converters of the framework-migration tool

    A shallow embedding of [src/converters/cypress-converter.js] and
    [src/converters/playwright-converter.js], and the properties of the
    locator parser, the action mapper, the statistics bookkeeping and the
    code emitter that the specification states about them.

    Conventions of the embedding.
    - A JavaScript string is a [string]: a sequence of code units below 256.
    - A function that can throw returns an [option]; [None] is the throw.
    - The counters of the statistics record are integers ([Z]); a JavaScript
      number loses integer precision only beyond 2^53, far more events than
      a trace held in one string can have.
    - The runtime services the converters call but do not define (the JSON
      decoder and the URL parser) are the fields of the class [Runtime]. *)

From Stdlib Require Import Ascii ZArith Bool Lia.
From Stdlib Require String.
From stdpp Require Import gmap strings list.

Local Open Scope Z_scope.

(** ** JavaScript strings *)

Module JS.

Definition dquote : ascii := "034"%char.
Definition backslash : ascii := "092"%char.
Definition LF : ascii := "010"%char.
Definition CR : ascii := "013"%char.

(** The one-character strings used when a template is spliced together. *)
Definition DQ : string := String dquote EmptyString.
Definition NL : string := String LF EmptyString.

(** LineTerminator: the characters a regular expression dot refuses. *)
Definition is_line_terminator (c : ascii) : bool :=
  Ascii.eqb c LF || Ascii.eqb c CR.

(** WhiteSpace and LineTerminator, as [String.prototype.trim] strips them:
    TAB, LF, VT, FF, CR, SP and NBSP. *)
Definition is_white_space (c : ascii) : bool :=
  let n := N_of_ascii c in
  ((9 <=? n) && (n <=? 13) || (n =? 32) || (n =? 160))%N.

(** [s.startsWith(p)]; on a match [strip_prefix] also gives what follows. *)
Fixpoint strip_prefix (p s : string) : option string :=
  match p, s with
  | EmptyString, _ => Some s
  | String a p', String b s' =>
      if Ascii.eqb a b then strip_prefix p' s' else None
  | String _ _, EmptyString => None
  end.

Definition startsWith (s p : string) : bool :=
  match strip_prefix p s with Some _ => true | None => false end.

(** [s.includes(sub)] *)
Fixpoint includes (s sub : string) : bool :=
  startsWith s sub ||
  match s with
  | EmptyString => false
  | String _ s' => includes s' sub
  end.

(** [s.replace(pat, rep)] with a string pattern: the first occurrence only. *)
Fixpoint replace (s pat rep : string) : string :=
  match strip_prefix pat s with
  | Some rest => rep +:+ rest
  | None =>
      match s with
      | EmptyString => EmptyString
      | String c s' => String c (replace s' pat rep)
      end
  end.

(** [s.replace(/[...]/g, rep)] for a class of single characters. *)
Fixpoint replace_all (cls : ascii -> bool) (rep : string) (s : string) : string :=
  match s with
  | EmptyString => EmptyString
  | String c s' =>
      (if cls c then rep else String c EmptyString) +:+ replace_all cls rep s'
  end.

(** [s.split('\n')]: never empty, the empty string gives one empty piece. *)
Fixpoint split_lines (s : string) : list string :=
  match s with
  | EmptyString => [EmptyString]
  | String c s' =>
      if Ascii.eqb c LF then EmptyString :: split_lines s'
      else match split_lines s' with
           | l :: ls => String c l :: ls
           | [] => [String c EmptyString]
           end
  end.

Fixpoint trimStart (s : string) : string :=
  match s with
  | EmptyString => EmptyString
  | String c s' => if is_white_space c then trimStart s' else s
  end.

Fixpoint trimEnd (s : string) : string :=
  match s with
  | EmptyString => EmptyString
  | String c s' =>
      match trimEnd s' with
      | EmptyString => if is_white_space c then EmptyString else String c EmptyString
      | t => String c t
      end
  end.

Definition trim (s : string) : string := trimEnd (trimStart s).

(** Truthiness of a string: it is not empty. *)
Definition nonempty (s : string) : bool :=
  match s with EmptyString => false | String _ _ => true end.

(** [pieces.join(sep)] *)
Fixpoint join (sep : string) (pieces : list string) : string :=
  match pieces with
  | [] => EmptyString
  | [p] => p
  | p :: rest => p +:+ sep +:+ join sep rest
  end.

(** *** Regular expressions

    The converters use three patterns, all built from literal text, the lazy
    [.*?] and a captured lazy [(.+?)].  [exec_here] is the backtracking match
    of a pattern at the start of its input, as the ECMAScript semantics runs
    it: a lazy quantifier tries the continuation first and takes one more
    character only when the continuation fails.  The result is the list of
    captured groups. *)

Inductive atom : Type :=
  | Lit (text : string)
  | LazyStarDot
  | CaptureLazyPlusDot.

(** [.*?] before the continuation [k]. *)
Fixpoint lazy_star (k : string -> option (list string)) (s : string)
  : option (list string) :=
  match k s with
  | Some groups => Some groups
  | None =>
      match s with
      | String c s' => if is_line_terminator c then None else lazy_star k s'
      | EmptyString => None
      end
  end.

(** [(.+?)] before the continuation [k]; the capture is the first group. *)
Fixpoint lazy_plus (k : string -> option (list string)) (s : string)
  : option (list string) :=
  match s with
  | String c s' =>
      if is_line_terminator c then None
      else match k s' with
           | Some groups => Some (String c EmptyString :: groups)
           | None =>
               match lazy_plus k s' with
               | Some (g :: groups) => Some (String c g :: groups)
               | _ => None
               end
           end
  | EmptyString => None
  end.

Fixpoint exec_here (re : list atom) (s : string) {struct re} : option (list string) :=
  match re with
  | [] => Some []
  | Lit text :: re' =>
      match strip_prefix text s with
      | Some rest => exec_here re' rest
      | None => None
      end
  | LazyStarDot :: re' => lazy_star (exec_here re') s
  | CaptureLazyPlusDot :: re' => lazy_plus (exec_here re') s
  end.

(** [s.match(re)] without the [g] flag: the leftmost start that matches.
    [anchored] is a leading [^]. *)
Fixpoint exec_from (re : list atom) (s : string) : option (list string) :=
  match exec_here re s with
  | Some groups => Some groups
  | None =>
      match s with
      | String _ s' => exec_from re s'
      | EmptyString => None
      end
  end.

Definition match_ (anchored : bool) (re : list atom) (s : string) : option (list string) :=
  if anchored then exec_here re s else exec_from re s.

End JS.

(** ** JavaScript values, as a decoded trace line holds them *)

(** A number is kept as its canonical rendering [Number::toString], which
    determines a finite double up to the sign of zero; the converters only
    render numbers and test them for truthiness.  An object is the table of
    its own properties, one entry per key. *)
#[warning="-register-all"]
Inductive value : Type :=
  | Undefined
  | Null
  | Bool (b : bool)
  | Number (rendering : string)
  | Str (s : string)
  | Array (elements : list value)
  | Object (props : list (string * value)).

Module Value.

Definition truthy (v : value) : bool :=
  match v with
  | Undefined | Null => false
  | Bool b => b
  | Number r => negb (String.eqb r "0")
  | Str s => JS.nonempty s
  | Array _ | Object _ => true
  end.

Fixpoint own (props : list (string * value)) (key : string) : option value :=
  match props with
  | [] => None
  | (k, v) :: rest => if String.eqb k key then Some v else own rest key
  end.

(** [v.key] for a key that no built-in prototype defines ([evt], [kind],
    [target], [durationMs]): the own property of an object, [undefined] on
    any other value, and a TypeError on [null] and [undefined]. *)
Definition get (v : value) (key : string) : option value :=
  match v with
  | Undefined | Null => None
  | Object props => Some (default Undefined (own props key))
  | _ => Some Undefined
  end.

(** [ToString], as a template literal and a property key apply it.  A
    decoded object converts through [Object.prototype.toString] unless it
    has an own [toString] property, which is then not callable and leaves
    [OrdinaryToPrimitive] with nothing to return: a TypeError.  An array
    joins its elements with commas, [null] elements rendering empty. *)
Fixpoint toString (v : value) : option string :=
  match v with
  | Undefined => Some "undefined"
  | Null => Some "null"
  | Bool true => Some "true"
  | Bool false => Some "false"
  | Number r => Some r
  | Str s => Some s
  | Array elements =>
      (fix joined (l : list value) : option string :=
         match l with
         | [] => Some EmptyString
         | e :: rest =>
             let head := match e with
                         | Undefined | Null => Some EmptyString
                         | _ => toString e
                         end in
             let tail := joined rest in
             match head, tail with
             | Some s, Some t =>
                 Some (match rest with [] => s | _ :: _ => s +:+ "," +:+ t end)
             | _, _ => None
             end
         end) elements
  | Object props =>
      match own props "toString" with
      | Some _ => None
      | None => Some "[object Object]"
      end
  end.

(** [v === s] against a string. *)
Definition is_string (v : value) (s : string) : bool :=
  match v with Str t => String.eqb t s | _ => false end.

(** [set.has(v)] for a [Set] of strings. *)
Definition in_set (set : list string) (v : value) : bool :=
  match v with
  | Str t => existsb (String.eqb t) set
  | _ => false
  end.

End Value.

(** ** The runtime *)

(** [JSON_parse line] is [JSON.parse(line)], [None] when it throws a
    SyntaxError.  [URL_parse url] is [new URL(url)], giving the [protocol]
    and [host] of the parsed URL, [None] when the constructor throws. *)
Class Runtime : Type := {
  JSON_parse : string -> option value;
  URL_parse : string -> option (string * string)
}.

(** ** The statistics record *)

(** A property of [stats.actionBreakdown] holds a number or, after an
    addition that concatenated, a string. *)
Inductive slot : Type :=
  | Count (n : Z)
  | Text (s : string).

Record stats : Type := mkStats {
  totalActions : Z;
  convertedActions : Z;
  skippedActions : Z;
  actionBreakdown : gmap string slot
}.

Definition new_stats : stats :=
  {| totalActions := 0; convertedActions := 0; skippedActions := 0;
     actionBreakdown := ∅ |}.

Module Breakdown.

(** [actionBreakdown] is an object literal, so a key it does not own is
    looked up on [Object.prototype].  These are its members: built-in
    functions, named as [Function.prototype.toString] prints them, and the
    [__proto__] accessor. *)
Inductive member : Type :=
  | BuiltinFunction (name : string)
  | ProtoAccessor.

Definition Object_prototype (key : string) : option member :=
  if String.eqb key "constructor" then Some (BuiltinFunction "Object")
  else if existsb (String.eqb key)
            ["__defineGetter__"; "__defineSetter__"; "hasOwnProperty";
             "__lookupGetter__"; "__lookupSetter__"; "isPrototypeOf";
             "propertyIsEnumerable"; "toString"; "valueOf"; "toLocaleString"]
       then Some (BuiltinFunction key)
  else if String.eqb key "__proto__" then Some ProtoAccessor
  else None.

Definition function_source (name : string) : string :=
  "function " +:+ name +:+ "() { [native code] }".

(** [(breakdown[key] || 0) + 1]: the sum is a number when the operand is
    one, and a concatenation when the operand is a string or an object. *)
Definition successor (breakdown : gmap string slot) (key : string) : slot :=
  match breakdown !! key with
  | Some (Count n) => if n =? 0 then Count (0 + 1) else Count (n + 1)
  | Some (Text s) => if JS.nonempty s then Text (s +:+ "1") else Count (0 + 1)
  | None =>
      match Object_prototype key with
      | Some (BuiltinFunction name) => Text (function_source name +:+ "1")
      | Some ProtoAccessor => Text ("[object Object]" +:+ "1")
      | None => Count (0 + 1)
      end
  end.

(** [breakdown[key] = v]: an own property, except through the [__proto__]
    setter, which ignores a value that is neither an object nor [null]. *)
Definition assign (breakdown : gmap string slot) (key : string) (v : slot)
  : gmap string slot :=
  if String.eqb key "__proto__" then breakdown else <[key := v]> breakdown.

(** [breakdown[key] = (breakdown[key] || 0) + 1] *)
Definition increment (breakdown : gmap string slot) (key : string) : gmap string slot :=
  assign breakdown key (successor breakdown key).

End Breakdown.

(** The statements on [stats], as record updates. *)
Definition count_kind (key : string) (s : stats) : stats :=
  {| totalActions := totalActions s;
     convertedActions := convertedActions s;
     skippedActions := skippedActions s;
     actionBreakdown := Breakdown.increment (actionBreakdown s) key |}.

Definition incr_total (s : stats) : stats :=
  {| totalActions := totalActions s + 1;
     convertedActions := convertedActions s;
     skippedActions := skippedActions s;
     actionBreakdown := actionBreakdown s |}.

Definition incr_converted (s : stats) : stats :=
  {| totalActions := totalActions s;
     convertedActions := convertedActions s + 1;
     skippedActions := skippedActions s;
     actionBreakdown := actionBreakdown s |}.

Definition incr_skipped (s : stats) : stats :=
  {| totalActions := totalActions s;
     convertedActions := convertedActions s;
     skippedActions := skippedActions s + 1;
     actionBreakdown := actionBreakdown s |}.

(** A generated fragment.  The Cypress converter also records on the
    fragment of a [get] the visited URL and its origin; [None] is a fragment
    without the field, and for [origin] also the [null] of a URL that does
    not parse. *)
Record fragment : Type := mkFragment {
  action : string;
  comment : string;
  url : option string;
  origin : option string
}.

(** What [convert] resolves to. *)
Record result : Type := mkResult {
  content : string;
  filename : string;
  result_stats : stats
}.

Import JS (DQ, NL).

(** [s.replace(re, rep)] where [re] is the global pattern of one double
    quote and [rep] a backslash and a double quote. *)
Definition escape_quotes (s : string) : string :=
  JS.replace_all (Ascii.eqb JS.dquote) (String JS.backslash DQ) s.

(** [s.replace(/[\[\]]/g, '')]: the square brackets removed. *)
Definition strip_brackets (s : string) : string :=
  JS.replace_all (fun c => Ascii.eqb c "[" || Ascii.eqb c "]") EmptyString s.

(** [/\[\[.*?\] -> (.+?)\]/], the diagnostic format of a located element. *)
Definition locator_re : list JS.atom :=
  [JS.Lit "[["; JS.LazyStarDot; JS.Lit "] -> "; JS.CaptureLazyPlusDot; JS.Lit "]"].

(** [/^(.+?) option/], matched from the start of the selector. *)
Definition parent_re : list JS.atom :=
  [JS.CaptureLazyPlusDot; JS.Lit " option"].

(** The pattern for [:has-text(], a double quote, the captured lazy text,
    a double quote and a closing parenthesis. *)
Definition has_text_re : list JS.atom :=
  [JS.Lit (":has-text(" +:+ DQ); JS.CaptureLazyPlusDot; JS.Lit (DQ +:+ ")")].

(** [m[1]] of a successful match: every pattern above has one group. *)
Definition group1 (m : list string) : string := default EmptyString (m !! 0%nat).

(** ** The Cypress converter *)

Module Cypress.

Record instance : Type := { supportedActions : list string }.

(** [constructor()] *)
Definition new : instance :=
  {| supportedActions :=
       ["get"; "click"; "sendKeys"; "clear"; "getTagName";
        "Navigation.refresh"; "Navigation.back"; "Navigation.forward"] |}.

(** Actions that are automatically handled by modern frameworks. *)
Definition autoHandledActions : list string :=
  ["findElement"; "findElements"; "ImplicitWait.set"; "Navigation.to"].

(** The part of [extractCleanSelector] that runs on a non-empty string. *)
Definition cleanSelector (target : string) : string :=
  match JS.match_ false locator_re target with
  | Some cleanLocatorMatch =>
      let locatorPart := group1 cleanLocatorMatch in
      if JS.startsWith locatorPart "name: " then
        let name := JS.replace locatorPart "name: " EmptyString in
        "[name=" +:+ DQ +:+ name +:+ DQ +:+ "]"
      else if JS.startsWith locatorPart "css selector: " then
        JS.replace locatorPart "css selector: " EmptyString
      else if JS.startsWith locatorPart "xpath: " then
        let xpath := JS.replace locatorPart "xpath: " EmptyString in
        "xpath=" +:+ xpath
      else if JS.startsWith locatorPart "tag name: " then
        let tagName := JS.replace locatorPart "tag name: " EmptyString in
        tagName
      else if JS.startsWith locatorPart "id: " then
        let id := JS.replace locatorPart "id: " EmptyString in
        "#" +:+ id
      else if JS.startsWith locatorPart "class: " then
        let className := JS.replace locatorPart "class: " EmptyString in
        "." +:+ className
      else locatorPart
  | None =>
      (* Handle URLs *)
      if JS.startsWith target "http" || JS.startsWith target "[http" then
        strip_brackets target
      else target
  end.

(** [extractCleanSelector(target)]: a falsy target gives the empty
    selector; a truthy target that is not a string has no [match] method,
    and the call throws. *)
Definition extractCleanSelector (target : value) : option string :=
  if negb (Value.truthy target) then Some EmptyString
  else match target with
       | Str t => Some (cleanSelector t)
       | _ => None
       end.

Definition generateComment (text language : string) : string := "// " +:+ text.

Definition guessInputValue (selector : string) : string :=
  if JS.includes selector "password" then "testPassword123"
  else if JS.includes selector "email" then "test@example.com"
  else if JS.includes selector "text" then "Sample text input"
  else if JS.includes selector "textarea" then "This is sample textarea content"
  else if JS.includes selector "name" then "John Doe"
  else "test-value".

(** The two fragments of [Navigation.back]. *)
Definition back_skipped : fragment :=
  {| action := "// cy.go('back') - Skipped due to cross-origin navigation";
     comment := "Navigate back (skipped - cross-origin)";
     url := None; origin := None |}.

Definition back_real : fragment :=
  {| action := "cy.go('back')"; comment := "Navigate back"; url := None; origin := None |}.

Section Converter.
Context {rt : Runtime}.

(** [extractOrigin(url)]; [None] is [null]. *)
Definition extractOrigin (url : string) : option string :=
  if negb (JS.nonempty url) then None
  else match URL_parse url with
       | Some (protocol, host) => Some (protocol +:+ "//" +:+ host)
       | None => None
       end.

(** [convertStep(event, language, currentOrigin, navigationHistory)].  An
    entry of the history is an origin or [null]. *)
Definition convertStep (event : value) (language : string)
    (currentOrigin : option string) (navigationHistory : list (option string))
  : option fragment :=
  kind ← Value.get event "kind";
  target ← Value.get event "target";
  durationMs ← Value.get event "durationMs";
  selector ← extractCleanSelector target;
  let escapedSelector :=
    if JS.nonempty selector then escape_quotes selector else EmptyString in
  if Value.is_string kind "get" then
    let url := escapedSelector in
    let targetOrigin := extractOrigin url in
    Some {| action := "cy.visit(" +:+ DQ +:+ escapedSelector +:+ DQ +:+ ")";
            comment := "Navigate to " +:+ selector;
            url := Some url; origin := targetOrigin |}
  else if Value.is_string kind "click" then
    let click :=
      duration ← Value.toString durationMs;
      Some {| action := "cy.get(" +:+ DQ +:+ escapedSelector +:+ DQ +:+ ").click()";
              comment := "Click element (" +:+ duration +:+ "ms)";
              url := None; origin := None |} in
    if JS.includes selector "option" then
      (* Handle dropdown selection *)
      match JS.match_ true parent_re selector with
      | Some parentMatch =>
          let parentSelector := group1 parentMatch in
          let escapedParentSelector := escape_quotes parentSelector in
          if JS.includes selector ":has-text(" then
            textMatch ← JS.match_ false has_text_re selector;
            let text := group1 textMatch in
            let escapedText := escape_quotes text in
            Some {| action := "cy.get(" +:+ DQ +:+ escapedParentSelector +:+ DQ
                                +:+ ").select(" +:+ DQ +:+ escapedText +:+ DQ +:+ ")";
                    comment := "Select option by text";
                    url := None; origin := None |}
          else click
      | None => click
      end
    else click
  else if Value.is_string kind "sendKeys" then
    let inputValue := guessInputValue selector in
    let escapedValue :=
      if JS.nonempty inputValue then escape_quotes inputValue else EmptyString in
    Some {| action := "cy.get(" +:+ DQ +:+ escapedSelector +:+ DQ
                        +:+ ").type(" +:+ DQ +:+ escapedValue +:+ DQ +:+ ")";
            comment := "Type into input field";
            url := None; origin := None |}
  else if Value.is_string kind "clear" then
    Some {| action := "cy.get(" +:+ DQ +:+ escapedSelector +:+ DQ +:+ ").clear()";
            comment := "Clear input field";
            url := None; origin := None |}
  else if Value.is_string kind "getTagName" then
    Some {| action := "cy.get(" +:+ DQ +:+ escapedSelector +:+ DQ +:+ ").should('be.visible')";
            comment := "Verify element is visible";
            url := None; origin := None |}
  else if Value.is_string kind "Navigation.refresh" then
    Some {| action := "cy.reload()"; comment := "Refresh page"; url := None; origin := None |}
  else if Value.is_string kind "Navigation.back" then
    (* Check if we can safely navigate back without cross-origin issues *)
    if (1 <? length navigationHistory)%nat then
      match navigationHistory !! (length navigationHistory - 2)%nat with
      | Some (Some previousOrigin) =>
          if JS.nonempty previousOrigin
             && negb (bool_decide (Some previousOrigin = currentOrigin))
          then Some back_skipped
          else Some back_real
      | _ => Some back_real
      end
    else Some back_real
  else if Value.is_string kind "Navigation.forward" then
    Some {| action := "// cy.go('forward') - Skipped due to potential cross-origin navigation";
            comment := "Navigate forward (skipped - cross-origin)";
            url := None; origin := None |}
  else
    kind_text ← Value.toString kind;
    Some {| action := generateComment ("TODO: Implement " +:+ kind_text +:+ " action") language;
            comment := "Unsupported action: " +:+ kind_text;
            url := None; origin := None |}.


End Converter.

(** *** The code emitter *)

(** The text of [generateJavaScriptTest] up to the test body. *)
Definition JavaScript_head : string :=
  JS.join NL
    ["describe('Migrated Selenium Test', () => {";
     "  it('should execute migrated test steps', () => {";
     "    // This test was automatically migrated from Selenium trace";
     "    ";
     EmptyString].

(** The text of [generateJavaScriptTest] after the test body. *)
Definition JavaScript_tail : string :=
  JS.join NL
    [EmptyString;
     "  });";
     EmptyString;
     "  it('should handle form interactions', () => {";
     "    // Simplified form interaction test";
     "    cy.visit('https://www.selenium.dev/selenium/web/web-form.html');";
     "    ";
     "    cy.get('[name=" +:+ DQ +:+ "my-text" +:+ DQ +:+ "]').type('Sample text input');";
     "    cy.get('[name=" +:+ DQ +:+ "my-password" +:+ DQ +:+ "]').type('testPassword123');";
     "    cy.get('[name=" +:+ DQ +:+ "my-select" +:+ DQ +:+ "]').select('Two');";
     "    cy.get('input[type=" +:+ DQ +:+ "checkbox" +:+ DQ +:+ "]').check();";
     "    ";
     "    // Verify form state";
     "    cy.get('[name=" +:+ DQ +:+ "my-text" +:+ DQ +:+ "]').should('have.value', 'Sample text input');";
     "    cy.get('[name=" +:+ DQ +:+ "my-select" +:+ DQ +:+ "]').should('have.value', '2');";
     "    cy.get('input[type=" +:+ DQ +:+ "checkbox" +:+ DQ +:+ "]').should('be.checked');";
     "  });";
     EmptyString;
     "  it('should handle single-origin navigation', () => {";
     "    // Test navigation within the same origin to avoid cross-origin issues";
     "    cy.visit('https://www.selenium.dev/selenium/web/web-form.html');";
     "    cy.get('[name=" +:+ DQ +:+ "my-text" +:+ DQ +:+ "]').should('be.visible');";
     "    ";
     "    // Verify we're on the correct page";
     "    cy.url().should('include', 'selenium.dev');";
     "    cy.title().should('contain', 'Web form');";
     "  });";
     "});"].

(** The text of [generateTypeScriptTest] up to the test body. *)
Definition TypeScript_head : string :=
  JS.join NL
    ["/// <reference types=" +:+ DQ +:+ "cypress" +:+ DQ +:+ " />";
     EmptyString;
     "describe('Migrated Selenium Test', () => {";
     "  it('should execute migrated test steps', () => {";
     "    // This test was automatically migrated from Selenium trace";
     "    ";
     EmptyString].

(** The text of [generateTypeScriptTest] after the test body. *)
Definition TypeScript_tail : string :=
  JS.join NL
    [EmptyString;
     "  });";
     EmptyString;
     "  it('should handle form interactions', () => {";
     "    // Simplified form interaction test";
     "    cy.visit('https://www.selenium.dev/selenium/web/web-form.html');";
     "    ";
     "    cy.get('[name=" +:+ DQ +:+ "my-text" +:+ DQ +:+ "]').type('Sample text input');";
     "    cy.get('[name=" +:+ DQ +:+ "my-password" +:+ DQ +:+ "]').type('testPassword123');";
     "    cy.get('[name=" +:+ DQ +:+ "my-select" +:+ DQ +:+ "]').select('Two');";
     "    cy.get('input[type=" +:+ DQ +:+ "checkbox" +:+ DQ +:+ "]').check();";
     "    ";
     "    // Verify form state";
     "    cy.get('[name=" +:+ DQ +:+ "my-text" +:+ DQ +:+ "]').should('have.value', 'Sample text input');";
     "    cy.get('[name=" +:+ DQ +:+ "my-select" +:+ DQ +:+ "]').should('have.value', '2');";
     "    cy.get('input[type=" +:+ DQ +:+ "checkbox" +:+ DQ +:+ "]').should('be.checked');";
     "  });";
     EmptyString;
     "  it('should handle single-origin navigation', () => {";
     "    // Test navigation within the same origin to avoid cross-origin issues";
     "    cy.visit('https://www.selenium.dev/selenium/web/web-form.html');";
     "    cy.get('[name=" +:+ DQ +:+ "my-text" +:+ DQ +:+ "]').should('be.visible');";
     "    ";
     "    // Verify we're on the correct page";
     "    cy.url().should('include', 'selenium.dev');";
     "    cy.title().should('contain', 'Web form');";
     "  });";
     "});"].

(** [steps.map(...).join('\n\n')]: a comment line and a statement per
    fragment. *)
Definition testBody (steps : list fragment) : string :=
  JS.join (NL +:+ NL)
    (map (fun step => "    // " +:+ comment step +:+ NL +:+ "    " +:+ action step +:+ ";")
         steps).

Definition generateJavaScriptTest (steps : list fragment) : string :=
  JavaScript_head +:+ testBody steps +:+ JavaScript_tail.

Definition generateTypeScriptTest (steps : list fragment) : string :=
  TypeScript_head +:+ testBody steps +:+ TypeScript_tail.

Definition generateTestFile (steps : list fragment) (language : string) : string :=
  if String.eqb language "typescript" then generateTypeScriptTest steps
  else generateJavaScriptTest steps.

Definition getFilename (language : string) : string :=
  if String.eqb language "typescript" then "migrated-selenium.cy.ts"
  else "migrated-selenium.cy.js".

(** *** The conversion loop *)

(** The variables of [convert] that the loop body updates. *)
Record state : Type := mkState {
  steps : list fragment;
  stats_of : stats;
  currentOrigin : option string;
  navigationHistory : list (option string)
}.

Definition initial : state :=
  {| steps := []; stats_of := new_stats; currentOrigin := None;
     navigationHistory := [] |}.

Definition on_stats (f : stats -> stats) (s : state) : state :=
  {| steps := steps s; stats_of := f (stats_of s);
     currentOrigin := currentOrigin s;
     navigationHistory := navigationHistory s |}.

Definition push (step : fragment) (s : state) : state :=
  {| steps := steps s ++ [step]; stats_of := stats_of s;
     currentOrigin := currentOrigin s;
     navigationHistory := navigationHistory s |}.

Definition navigate (origin : option string) (s : state) : state :=
  {| steps := steps s; stats_of := stats_of s;
     currentOrigin := origin;
     navigationHistory := navigationHistory s ++ [origin] |}.

Section Convert.
Context {rt : Runtime}.

(** The [try] block on a decoded line.  A throw leaves the block with the
    updates made so far; the [catch] clause is empty. *)
Definition processEvent (this : instance) (language : string)
    (event : value) (s : state) : state :=
  match Value.get event "evt" with
  | None => s
  | Some evt =>
      if Value.is_string evt "step.ok" then
        let action := default Undefined (Value.get event "kind") in
        match Value.toString action with
        | None => s
        | Some key =>
            let s := on_stats (count_kind key) s in
            (* Only count actions that require explicit conversion *)
            let s :=
              if negb (Value.in_set autoHandledActions action)
              then on_stats incr_total s else s in
            if Value.in_set (supportedActions this) action then
              match convertStep event language (currentOrigin s) (navigationHistory s) with
              | None => s
              | Some step =>
                  let s := on_stats incr_converted (push step s) in
                  (* Track navigation for cross-origin handling *)
                  match url step with
                  | Some step_url =>
                      if Value.is_string action "get" && JS.nonempty step_url then
                        let origin := extractOrigin step_url in
                        navigate origin s
                      else s
                  | None => s
                  end
              end
            else if negb (Value.in_set autoHandledActions action) then
              (* Only count as skipped if it is not auto-handled *)
              let s := on_stats incr_skipped s in
              let target := default Undefined (Value.get event "target") in
              match Value.toString (if Value.truthy target then target else Str "N/A") with
              | None => s
              | Some target_text =>
                  push {| action := generateComment ("Unsupported action: " +:+ key) language;
                          comment := "Original target: " +:+ target_text;
                          url := None; origin := None |} s
              end
            else s
        end
      else s
  end.

(** One turn of [lines.forEach]: decode, then the [try] block. *)
Definition processLine (this : instance) (language : string)
    (s : state) (line : string) : state :=
  match JSON_parse line with
  | None => s
  | Some event => processEvent this language event s
  end.

(** [traceContent.split('\n').filter(line => line.trim())] *)
Definition lines_of (traceContent : string) : list string :=
  List.filter (fun line => JS.nonempty (JS.trim line)) (JS.split_lines traceContent).

Definition run (this : instance) (language : string) (lines : list string) : state :=
  fold_left (processLine this language) lines initial.

(** [convert(traceFilePath, language)] on the content read from the file;
    a caller that passes no language gets the default, [javascript].  The
    second component is the converter object after the call. *)
Definition convert (this : instance) (traceContent language : string)
  : result * instance :=
  let lines := lines_of traceContent in
  let final := run this language lines in
  let testContent := generateTestFile (steps final) language in
  ({| content := testContent;
      filename := getFilename language;
      result_stats := stats_of final |}, this).

End Convert.
End Cypress.

(** ** The Playwright converter *)

Module Playwright.

Record instance : Type := { supportedActions : list string }.

(** [constructor()] *)
Definition new : instance :=
  {| supportedActions :=
       ["get"; "click"; "sendKeys"; "clear"; "getTagName";
        "Navigation.refresh"; "Navigation.back"; "Navigation.forward";
        "Wait.until"] |}.

(** The part of [extractCleanSelector] that runs on a non-empty string. *)
Definition cleanSelector (target : string) : string :=
  match JS.match_ false locator_re target with
  | Some cleanLocatorMatch =>
      let locatorPart := group1 cleanLocatorMatch in
      if JS.startsWith locatorPart "name: " then
        let name := JS.replace locatorPart "name: " EmptyString in
        "[name=" +:+ DQ +:+ name +:+ DQ +:+ "]"
      else if JS.startsWith locatorPart "css selector: " then
        JS.replace locatorPart "css selector: " EmptyString
      else if JS.startsWith locatorPart "xpath: " then
        let xpath := JS.replace locatorPart "xpath: " EmptyString in
        "xpath=" +:+ xpath
      else if JS.startsWith locatorPart "tag name: " then
        let tagName := JS.replace locatorPart "tag name: " EmptyString in
        tagName
      else if JS.startsWith locatorPart "id: " then
        let id := JS.replace locatorPart "id: " EmptyString in
        "#" +:+ id
      else if JS.startsWith locatorPart "class: " then
        let className := JS.replace locatorPart "class: " EmptyString in
        "." +:+ className
      else locatorPart
  | None =>
      (* Handle URLs *)
      if JS.startsWith target "http" || JS.startsWith target "[http" then
        strip_brackets target
      else target
  end.

(** [extractCleanSelector(target)], throwing on a truthy target that is not
    a string, as in the Cypress converter. *)
Definition extractCleanSelector (target : value) : option string :=
  if negb (Value.truthy target) then Some EmptyString
  else match target with
       | Str t => Some (cleanSelector t)
       | _ => None
       end.

(** [generatePageAction(action, selector, language, value)]; the value is
    [null] ([None]) when the caller passes none. *)
Definition generatePageAction (action selector language : string)
    (value : option string) : string :=
  (* Always use double quotes for selectors *)
  let escapedSelector :=
    if JS.nonempty selector then escape_quotes selector else EmptyString in
  let escapedValue :=
    match value with
    | Some v => if JS.nonempty v then escape_quotes v else EmptyString
    | None => EmptyString
    end in
  if String.eqb language "python" then
    if String.eqb action "goto" then
      "await page.goto(" +:+ DQ +:+ escapedSelector +:+ DQ +:+ ")"
    else if String.eqb action "click" then
      "await page.click(" +:+ DQ +:+ escapedSelector +:+ DQ +:+ ")"
    else if String.eqb action "fill" then
      "await page.fill(" +:+ DQ +:+ escapedSelector +:+ DQ +:+ ", "
        +:+ DQ +:+ escapedValue +:+ DQ +:+ ")"
    else if String.eqb action "reload" then "await page.reload()"
    else if String.eqb action "goBack" then "await page.go_back()"
    else if String.eqb action "goForward" then "await page.go_forward()"
    else EmptyString
  else
    if String.eqb action "goto" then
      "await page.goto(" +:+ DQ +:+ escapedSelector +:+ DQ +:+ ");"
    else if String.eqb action "click" then
      "await page.click(" +:+ DQ +:+ escapedSelector +:+ DQ +:+ ");"
    else if String.eqb action "fill" then
      "await page.fill(" +:+ DQ +:+ escapedSelector +:+ DQ +:+ ", "
        +:+ DQ +:+ escapedValue +:+ DQ +:+ ");"
    else if String.eqb action "reload" then "await page.reload();"
    else if String.eqb action "goBack" then "await page.goBack();"
    else if String.eqb action "goForward" then "await page.goForward();"
    else EmptyString.

(** The [option] argument of [generateSelectOption]: an object with an
    optional [label] and an optional [value], or a plain string. *)
Inductive select_option : Type :=
  | OptionObject (label value : option string)
  | OptionText (text : string).

(** [generateSelectOption(selector, option, language)].  The operand
    [option.value || option] is the object itself when it has no truthy
    [value]; an object has no [replace] method, and the call throws. *)
Definition generateSelectOption (selector : string) (option_ : select_option)
    (language : string) : option string :=
  let escapedSelector :=
    if JS.nonempty selector then escape_quotes selector else EmptyString in
  let option_label :=
    match option_ with
    | OptionObject (Some l) _ => if JS.nonempty l then Some l else None
    | _ => None
    end in
  let escapedLabel :=
    match option_label with Some l => escape_quotes l | None => EmptyString end in
  escapedValue ←
    match option_ with
    | OptionObject _ (Some v) =>
        if JS.nonempty v then Some (escape_quotes v) else None
    | OptionObject _ None => None
    | OptionText t => Some (if JS.nonempty t then escape_quotes t else EmptyString)
    end;
  if String.eqb language "python" then
    match option_label with
    | Some _ =>
        Some ("await page.select_option(" +:+ DQ +:+ escapedSelector +:+ DQ
                +:+ ", label=" +:+ DQ +:+ escapedLabel +:+ DQ +:+ ")")
    | None =>
        Some ("await page.select_option(" +:+ DQ +:+ escapedSelector +:+ DQ
                +:+ ", " +:+ DQ +:+ escapedValue +:+ DQ +:+ ")")
    end
  else
    match option_label with
    | Some _ =>
        Some ("await page.selectOption(" +:+ DQ +:+ escapedSelector +:+ DQ
                +:+ ", { label: " +:+ DQ +:+ escapedLabel +:+ DQ +:+ " });")
    | None =>
        Some ("await page.selectOption(" +:+ DQ +:+ escapedSelector +:+ DQ
                +:+ ", " +:+ DQ +:+ escapedValue +:+ DQ +:+ ");")
    end.

(** [generateExpectation(assertion, selector, language)] *)
Definition generateExpectation (assertion selector language : string) : string :=
  let escapedSelector :=
    if JS.nonempty selector then escape_quotes selector else EmptyString in
  if String.eqb language "python" then
    "expect(page.locator(" +:+ DQ +:+ escapedSelector +:+ DQ +:+ "))."
      +:+ JS.replace assertion "to" "to_" +:+ "()"
  else
    "await expect(page.locator(" +:+ DQ +:+ escapedSelector +:+ DQ +:+ "))."
      +:+ assertion +:+ "();".

Definition generateComment (text language : string) : string :=
  if String.eqb language "python" then "# " +:+ text else "// " +:+ text.

Definition guessInputValue (selector : string) : string :=
  if JS.includes selector "password" then "testPassword123"
  else if JS.includes selector "email" then "test@example.com"
  else if JS.includes selector "text" then "Sample text input"
  else if JS.includes selector "textarea" then "This is sample textarea content"
  else if JS.includes selector "name" then "John Doe"
  else "test-value".

(** [convertStep(event, language)] *)
Definition convertStep (event : value) (language : string) : option fragment :=
  kind ← Value.get event "kind";
  target ← Value.get event "target";
  durationMs ← Value.get event "durationMs";
  selector ← extractCleanSelector target;
  if Value.is_string kind "get" then
    Some {| action := generatePageAction "goto" selector language None;
            comment := "Navigate to " +:+ selector;
            url := None; origin := None |}
  else if Value.is_string kind "click" then
    let click :=
      let code := generatePageAction "click" selector language None in
      duration ← Value.toString durationMs;
      Some {| action := code;
              comment := "Click element (" +:+ duration +:+ "ms)";
              url := None; origin := None |} in
    if JS.includes selector "option" then
      (* Handle dropdown selection *)
      match JS.match_ true parent_re selector with
      | Some parentMatch =>
          let parentSelector := group1 parentMatch in
          if JS.includes selector ":has-text(" then
            textMatch ← JS.match_ false has_text_re selector;
            code ← generateSelectOption parentSelector
                     (OptionObject (Some (group1 textMatch)) None) language;
            Some {| action := code;
                    comment := "Select option by text";
                    url := None; origin := None |}
          else click
      | None => click
      end
    else click
  else if Value.is_string kind "sendKeys" then
    let inputValue := guessInputValue selector in
    Some {| action := generatePageAction "fill" selector language (Some inputValue);
            comment := "Fill input field";
            url := None; origin := None |}
  else if Value.is_string kind "clear" then
    Some {| action := generatePageAction "fill" selector language (Some EmptyString);
            comment := "Clear input field";
            url := None; origin := None |}
  else if Value.is_string kind "getTagName" then
    Some {| action := generateExpectation "toBeVisible" selector language;
            comment := "Verify element is visible";
            url := None; origin := None |}
  else if Value.is_string kind "Navigation.refresh" then
    Some {| action := generatePageAction "reload" EmptyString language None;
            comment := "Refresh page";
            url := None; origin := None |}
  else if Value.is_string kind "Navigation.back" then
    Some {| action := generatePageAction "goBack" EmptyString language None;
            comment := "Navigate back";
            url := None; origin := None |}
  else if Value.is_string kind "Navigation.forward" then
    Some {| action := generatePageAction "goForward" EmptyString language None;
            comment := "Navigate forward";
            url := None; origin := None |}
  else
    kind_text ← Value.toString kind;
    Some {| action := generateComment ("TODO: Implement " +:+ kind_text +:+ " action") language;
            comment := "Unsupported action: " +:+ kind_text;
            url := None; origin := None |}.

(** *** The code emitter *)


(** The [imports] constant of [generateJavaScriptTest]. *)
Definition JavaScript_imports : string :=
  JS.join NL
    ["const { test, expect } = require('@playwright/test');"].

(** The text of [generateJavaScriptTest] up to the test body. *)
Definition JavaScript_head : string :=
  JS.join NL
    [EmptyString;
     EmptyString;
     "test('Migrated Selenium Test', async ({ page }) => {";
     "    // This test was automatically migrated from Selenium trace";
     "    ";
     EmptyString].

(** The text of [generateJavaScriptTest] after the test body. *)
Definition JavaScript_tail : string :=
  JS.join NL
    [EmptyString;
     "    ";
     "    // Add final verification";
     "    await expect(page).toHaveURL(/.+/);";
     "});";
     EmptyString;
     "test.describe('Additional Test Scenarios', () => {";
     "    test('Form Interaction Test', async ({ page }) => {";
     "        // Simplified form interaction test";
     "        await page.goto('https://www.selenium.dev/selenium/web/web-form.html');";
     "        ";
     "        await page.fill('[name=" +:+ DQ +:+ "my-text" +:+ DQ +:+ "]', 'Sample text input');";
     "        await page.fill('[name=" +:+ DQ +:+ "my-password" +:+ DQ +:+ "]', 'testPassword123');";
     "        await page.selectOption('[name=" +:+ DQ +:+ "my-select" +:+ DQ +:+ "]', { label: 'Two' });";
     "        await page.check('input[type=" +:+ DQ +:+ "checkbox" +:+ DQ +:+ "]');";
     "        ";
     "        await expect(page.locator('[name=" +:+ DQ +:+ "my-text" +:+ DQ +:+ "]')).toHaveValue('Sample text input');";
     "        await expect(page.locator('input[type=" +:+ DQ +:+ "checkbox" +:+ DQ +:+ "]')).toBeChecked();";
     "    });";
     "});"].

(** The [imports] constant of [generateTypeScriptTest]. *)
Definition TypeScript_imports : string :=
  JS.join NL
    ["import { test, expect } from '@playwright/test';"].

(** The text of [generateTypeScriptTest] up to the test body. *)
Definition TypeScript_head : string :=
  JS.join NL
    [EmptyString;
     EmptyString;
     "test('Migrated Selenium Test', async ({ page }) => {";
     "    // This test was automatically migrated from Selenium trace";
     "    ";
     EmptyString].

(** The text of [generateTypeScriptTest] after the test body. *)
Definition TypeScript_tail : string :=
  JS.join NL
    [EmptyString;
     "    ";
     "    // Add final verification";
     "    await expect(page).toHaveURL(/.+/);";
     "});";
     EmptyString;
     "test.describe('Additional Test Scenarios', () => {";
     "    test('Form Interaction Test', async ({ page }) => {";
     "        // Simplified form interaction test";
     "        await page.goto('https://www.selenium.dev/selenium/web/web-form.html');";
     "        ";
     "        await page.fill('[name=" +:+ DQ +:+ "my-text" +:+ DQ +:+ "]', 'Sample text input');";
     "        await page.fill('[name=" +:+ DQ +:+ "my-password" +:+ DQ +:+ "]', 'testPassword123');";
     "        await page.selectOption('[name=" +:+ DQ +:+ "my-select" +:+ DQ +:+ "]', { label: 'Two' });";
     "        await page.check('input[type=" +:+ DQ +:+ "checkbox" +:+ DQ +:+ "]');";
     "        ";
     "        await expect(page.locator('[name=" +:+ DQ +:+ "my-text" +:+ DQ +:+ "]')).toHaveValue('Sample text input');";
     "        await expect(page.locator('input[type=" +:+ DQ +:+ "checkbox" +:+ DQ +:+ "]')).toBeChecked();";
     "    });";
     "});"].

(** The [imports] constant of [generatePythonTest]. *)
Definition Python_imports : string :=
  JS.join NL
    ["import pytest";
     "from playwright.async_api import async_playwright, expect"].

(** The text of [generatePythonTest] up to the test body. *)
Definition Python_head : string :=
  JS.join NL
    [EmptyString;
     EmptyString;
     "@pytest.mark.asyncio";
     "async def test_migrated_selenium_test():";
     "    " +:+ DQ +:+ DQ +:+ DQ +:+ "This test was automatically migrated from Selenium trace" +:+ DQ +:+ DQ +:+ DQ;
     "    async with async_playwright() as p:";
     "        browser = await p.chromium.launch()";
     "        page = await browser.new_page()";
     "        ";
     EmptyString].

(** The text of [generatePythonTest] after the test body. *)
Definition Python_tail : string :=
  JS.join NL
    [EmptyString;
     "        ";
     "        # Add final verification";
     "        await expect(page).to_have_url(re.compile(r" +:+ DQ +:+ ".+" +:+ DQ +:+ "))";
     "        ";
     "        await browser.close()";
     EmptyString;
     "@pytest.mark.asyncio";
     "async def test_form_interaction():";
     "    " +:+ DQ +:+ DQ +:+ DQ +:+ "Simplified form interaction test" +:+ DQ +:+ DQ +:+ DQ;
     "    async with async_playwright() as p:";
     "        browser = await p.chromium.launch()";
     "        page = await browser.new_page()";
     "        ";
     "        await page.goto(" +:+ DQ +:+ "https://www.selenium.dev/selenium/web/web-form.html" +:+ DQ +:+ ")";
     "        ";
     "        await page.fill('[name=" +:+ DQ +:+ "my-text" +:+ DQ +:+ "]', " +:+ DQ +:+ "Sample text input" +:+ DQ +:+ ")";
     "        await page.fill('[name=" +:+ DQ +:+ "my-password" +:+ DQ +:+ "]', " +:+ DQ +:+ "testPassword123" +:+ DQ +:+ ")";
     "        await page.select_option('[name=" +:+ DQ +:+ "my-select" +:+ DQ +:+ "]', label=" +:+ DQ +:+ "Two" +:+ DQ +:+ ")";
     "        await page.check('input[type=" +:+ DQ +:+ "checkbox" +:+ DQ +:+ "]')";
     "        ";
     "        await expect(page.locator('[name=" +:+ DQ +:+ "my-text" +:+ DQ +:+ "]')).to_have_value(" +:+ DQ +:+ "Sample text input" +:+ DQ +:+ ")";
     "        await expect(page.locator('input[type=" +:+ DQ +:+ "checkbox" +:+ DQ +:+ "]')).to_be_checked()";
     "        ";
     "        await browser.close()"].

(** [steps.map(...).join('\n\n')]: a comment line, opened by [mark], and
    the fragment's code line. *)
Definition testBody (mark : string) (steps : list fragment) : string :=
  JS.join (NL +:+ NL)
    (map (fun step => "    " +:+ mark +:+ " " +:+ comment step +:+ NL +:+ "    " +:+ action step)
         steps).

Definition generateJavaScriptTest (steps : list fragment) : string :=
  JavaScript_imports +:+ JavaScript_head +:+ testBody "//" steps +:+ JavaScript_tail.

Definition generateTypeScriptTest (steps : list fragment) : string :=
  TypeScript_imports +:+ TypeScript_head +:+ testBody "//" steps +:+ TypeScript_tail.

Definition generatePythonTest (steps : list fragment) : string :=
  Python_imports +:+ Python_head +:+ testBody "#" steps +:+ Python_tail.

Definition generateTestFile (steps : list fragment) (language : string) : string :=
  if String.eqb language "python" then generatePythonTest steps
  else if String.eqb language "typescript" then generateTypeScriptTest steps
  else generateJavaScriptTest steps.

Definition getFilename (language : string) : string :=
  if String.eqb language "python" then "test_migrated_selenium.py"
  else if String.eqb language "typescript" then "migrated-selenium.spec.ts"
  else "migrated-selenium.spec.js".

(** *** The conversion loop *)

(** The variables of [convert] that the loop body updates. *)
Record state : Type := mkState {
  steps : list fragment;
  stats_of : stats
}.

Definition initial : state := {| steps := []; stats_of := new_stats |}.

Definition on_stats (f : stats -> stats) (s : state) : state :=
  {| steps := steps s; stats_of := f (stats_of s) |}.

Definition push (step : fragment) (s : state) : state :=
  {| steps := steps s ++ [step]; stats_of := stats_of s |}.

(** The [try] block on a decoded line.  A throw leaves the block with the
    updates made so far; the [catch] clause is empty. *)
Definition processEvent (this : instance) (language : string)
    (event : value) (s : state) : state :=
  match Value.get event "evt" with
  | None => s
  | Some evt =>
      if Value.is_string evt "step.ok" then
        let s := on_stats incr_total s in
        let action := default Undefined (Value.get event "kind") in
        match Value.toString action with
        | None => s
        | Some key =>
            let s := on_stats (count_kind key) s in
            if Value.in_set (supportedActions this) action then
              match convertStep event language with
              | None => s
              | Some step => on_stats incr_converted (push step s)
              end
            else
              let s := on_stats incr_skipped s in
              let target := default Undefined (Value.get event "target") in
              match Value.toString (if Value.truthy target then target else Str "N/A") with
              | None => s
              | Some target_text =>
                  push {| action := generateComment ("Unsupported action: " +:+ key) language;
                          comment := "Original target: " +:+ target_text;
                          url := None; origin := None |} s
              end
        end
      else s
  end.

Section Convert.
Context {rt : Runtime}.

(** One turn of [lines.forEach]: decode, then the [try] block. *)
Definition processLine (this : instance) (language : string)
    (s : state) (line : string) : state :=
  match JSON_parse line with
  | None => s
  | Some event => processEvent this language event s
  end.

(** [traceContent.split('\n').filter(line => line.trim())] *)
Definition lines_of (traceContent : string) : list string :=
  List.filter (fun line => JS.nonempty (JS.trim line)) (JS.split_lines traceContent).

Definition run (this : instance) (language : string) (lines : list string) : state :=
  fold_left (processLine this language) lines initial.

(** [convert(traceFilePath, language)] on the content read from the file;
    a caller that passes no language gets the default, [javascript].  The
    second component is the converter object after the call. *)
Definition convert (this : instance) (traceContent language : string)
  : result * instance :=
  let lines := lines_of traceContent in
  let final := run this language lines in
  let testContent := generateTestFile (steps final) language in
  ({| content := testContent;
      filename := getFilename language;
      result_stats := stats_of final |}, this).

End Convert.
End Playwright.

(** ** A runtime for the examples

    A decoder for the lines the examples use, objects of string-valued
    properties written without white space or escapes such as
    [{k:v,k:v}] with every key and value in double quotes, and a URL parser
    for absolute URLs of the shape [scheme://host/path]. *)

Module Sample.

(** The text before the first [stop] character, and the text after it. *)
Fixpoint until (stop : ascii) (s : string) : option (string * string) :=
  match s with
  | EmptyString => None
  | String c s' =>
      if Ascii.eqb c stop then Some (EmptyString, s')
      else if Ascii.eqb c JS.backslash || (N_of_ascii c <? 32)%N then None
      else '(text, rest) ← until stop s'; Some (String c text, rest)
  end.

(** A later property of the same name replaces the earlier one. *)
Fixpoint define (props : list (string * value)) (key : string) (v : value)
  : list (string * value) :=
  match props with
  | [] => [(key, v)]
  | (k, w) :: rest =>
      if String.eqb k key then (k, v) :: rest else (k, w) :: define rest key v
  end.

Fixpoint members (fuel : nat) (props : list (string * value)) (s : string)
  : option (list (string * value)) :=
  match fuel with
  | O => None
  | S fuel =>
      s ← JS.strip_prefix DQ s;
      '(key, s) ← until JS.dquote s;
      s ← JS.strip_prefix (":" +:+ DQ) s;
      '(text, s) ← until JS.dquote s;
      let props := define props key (Str text) in
      if String.eqb s "}" then Some props
      else s ← JS.strip_prefix "," s; members fuel props s
  end.

Definition parse (line : string) : option value :=
  s ← JS.strip_prefix "{" line;
  props ← members (String.length s) [] s;
  Some (Object props).

(** The text before the first occurrence of [sep], and the text after it. *)
Fixpoint cut (sep : string) (s : string) : option (string * string) :=
  match JS.strip_prefix sep s with
  | Some rest => Some (EmptyString, rest)
  | None =>
      match s with
      | EmptyString => None
      | String c s' => '(text, rest) ← cut sep s'; Some (String c text, rest)
      end
  end.

Definition url (href : string) : option (string * string) :=
  '(scheme, rest) ← cut "://" href;
  let host := match cut "/" rest with Some (h, _) => h | None => rest end in
  if JS.nonempty scheme && JS.nonempty host then Some (scheme +:+ ":", host)
  else None.

Definition runtime : Runtime := {| JSON_parse := parse; URL_parse := url |}.

(** The line of a completed step, as the recorder writes it. *)
Definition line (kind target : string) : string :=
  "{" +:+ DQ +:+ "evt" +:+ DQ +:+ ":" +:+ DQ +:+ "step.ok" +:+ DQ +:+ ","
      +:+ DQ +:+ "kind" +:+ DQ +:+ ":" +:+ DQ +:+ kind +:+ DQ +:+ ","
      +:+ DQ +:+ "target" +:+ DQ +:+ ":" +:+ DQ +:+ target +:+ DQ +:+ "}".

End Sample.

(** The decoded record of a completed step. *)
Definition step_ok (kind target : string) : value :=
  Object [("evt", Str "step.ok"); ("kind", Str kind); ("target", Str target)].

(** [n] when the property holds the number [n], and 0 otherwise. *)
Definition tally (breakdown : gmap string slot) (kind : string) : Z :=
  match breakdown !! kind with
  | Some (Count n) => n
  | _ => 0
  end.

(** Every character of [s] passes [p]. *)
Fixpoint all_chars (p : ascii -> bool) (s : string) : bool :=
  match s with
  | EmptyString => true
  | String c s' => p c && all_chars p s'
  end.

(** Text on one line without a closing square bracket. *)
Definition unbracketed (s : string) : bool :=
  all_chars (fun c => negb (Ascii.eqb c "]") && negb (JS.is_line_terminator c)) s.



(** A string literal of the generated code: the escaped text in double
    quotes. *)
Definition quoted (s : string) : string := DQ +:+ escape_quotes s +:+ DQ.

(** The properties of [actionBreakdown] under the names that
    [Object.prototype] leaves free hold positive counts. *)
Definition counts_ok (breakdown : gmap string slot) : Prop :=
  forall kind : string,
    Breakdown.Object_prototype kind = None ->
    match breakdown !! kind with
    | None => True
    | Some (Count n) => 0 < n
    | Some (Text _) => False
    end.

(** The counters are consistent: none is negative and no more events are
    converted or skipped than counted. *)
Definition counters_ok (s : stats) : Prop :=
  0 <= convertedActions s /\ 0 <= skippedActions s
  /\ convertedActions s + skippedActions s <= totalActions s.

Ltac project_stats :=
  cbn [Cypress.stats_of Cypress.on_stats Cypress.push Cypress.navigate
       Playwright.stats_of Playwright.on_stats Playwright.push
       count_kind incr_total incr_converted incr_skipped
       actionBreakdown totalActions convertedActions skippedActions] in *.

(** ** The upload analysis of the server *)

Module Server.

(** A property of [actionTypes] holds a number; [NaN] is the number that
    an increment of an inherited function leaves. *)
Inductive tally_value : Type :=
  | Num (n : Z)
  | NaN.

(** The variables of the upload handler that its loop updates. *)
Record state : Type := mkState {
  totalSteps : Z;
  supportedSteps : Z;
  actionTypes : gmap string tally_value
}.

Definition initial : state :=
  {| totalSteps := 0; supportedSteps := 0; actionTypes := ∅ |}.

(** The list the handler tests a kind against. *)
Definition supportedActions : list string :=
  ["get"; "click"; "sendKeys"; "clear"; "getTagName";
   "Navigation.refresh"; "Navigation.back"; "Navigation.forward"].

(** [if (actionTypes[key]) actionTypes[key]++; else actionTypes[key] = 1].
    A key the object does not own is read from [Object.prototype]: an
    inherited function is truthy and increments to [NaN], and [NaN] is falsy
    at the next step of that kind; the [__proto__] setter ignores a
    number. *)
Definition count_type (types : gmap string tally_value) (key : string)
  : gmap string tally_value :=
  match types !! key with
  | Some (Num n) => if n =? 0 then <[key := Num 1]> types else <[key := Num (n + 1)]> types
  | Some NaN => <[key := Num 1]> types
  | None =>
      match Breakdown.Object_prototype key with
      | Some (Breakdown.BuiltinFunction _) => <[key := NaN]> types
      | Some Breakdown.ProtoAccessor => types
      | None => <[key := Num 1]> types
      end
  end.

(** The [try] block of the handler on a decoded line. *)
Definition analyzeEvent (event : value) (s : state) : state :=
  match Value.get event "evt" with
  | None => s
  | Some evt =>
      if Value.is_string evt "step.ok" then
        let s := {| totalSteps := totalSteps s + 1;
                    supportedSteps := supportedSteps s;
                    actionTypes := actionTypes s |} in
        let kind := default Undefined (Value.get event "kind") in
        (* Count action types *)
        match Value.toString kind with
        | None => s
        | Some key =>
            let s := {| totalSteps := totalSteps s;
                        supportedSteps := supportedSteps s;
                        actionTypes := count_type (actionTypes s) key |} in
            (* Check if action is supported *)
            if Value.in_set supportedActions kind then
              {| totalSteps := totalSteps s;
                 supportedSteps := supportedSteps s + 1;
                 actionTypes := actionTypes s |}
            else s
        end
      else s
  end.

Section Analysis.
Context {rt : Runtime}.

Definition analyzeLine (s : state) (line : string) : state :=
  match JSON_parse line with
  | None => s
  | Some event => analyzeEvent event s
  end.

(** The loop of the upload handler over the content of the uploaded file:
    the counts that the [analysis] record reports. *)
Definition analyze (fileContent : string) : state :=
  let lines :=
    List.filter (fun line => JS.nonempty (JS.trim line)) (JS.split_lines fileContent) in
  fold_left analyzeLine lines initial.

(** [unsupportedSteps: totalSteps - supportedSteps] *)
Definition unsupportedSteps (s : state) : Z := totalSteps s - supportedSteps s.

End Analysis.
End Server.

(** ** The code preview of the page *)

(** The text that [displayConversionResults] shows of the generated code:
    its first twenty lines, and a mark when there are more. *)
Definition codePreview (generatedCode : string) : string :=
  let lines := JS.split_lines generatedCode in
  let preview := JS.join NL (take 20 lines) in
  preview +:+ (if (20 <? length lines)%nat
               then NL +:+ NL +:+ "... (truncated)" else EmptyString).

(** ** Notions the further properties are stated with *)

(** The line decodes to the record of a completed step. *)
Definition is_completed_step {rt : Runtime} (line : string) : bool :=
  match JSON_parse line with
  | Some event =>
      match Value.get event "evt" with
      | Some evt => Value.is_string evt "step.ok"
      | None => false
      end
  | None => false
  end.

(** The number a property of [actionTypes] holds, 0 when it holds none. *)
Definition type_tally (types : gmap string Server.tally_value) (kind : string) : Z :=
  match types !! kind with
  | Some (Server.Num n) => n
  | _ => 0
  end.

(** Every fragment is counted as converted or skipped, and every converted
    step has its fragment. *)
Definition accounted (steps : list fragment) (s : stats) : Prop :=
  convertedActions s <= Z.of_nat (length steps)
  /\ Z.of_nat (length steps) <= convertedActions s + skippedActions s.

(** The navigation record of the Cypress loop is coherent: the current
    origin is the last entry of the history, [null] when there is none, no
    entry is the empty string, and there are no more entries than converted
    steps. *)
Definition navigation_ok (s : Cypress.state) : Prop :=
  Cypress.currentOrigin s = default None (last (Cypress.navigationHistory s))
  /\ Forall (fun o => o <> Some EmptyString) (Cypress.navigationHistory s)
  /\ Z.of_nat (length (Cypress.navigationHistory s))
     <= convertedActions (Cypress.stats_of s).

(** The properties of [actionTypes] under the names that [Object.prototype]
    leaves free hold positive numbers. *)
Definition types_ok (types : gmap string Server.tally_value) : Prop :=
  forall kind : string,
    Breakdown.Object_prototype kind = None ->
    match types !! kind with
    | None => True
    | Some (Server.Num n) => 0 < n
    | Some Server.NaN => False
    end.

(** The counts of the analysis and of a conversion agree under every free
    name. *)
Definition tallies_agree (types : gmap string Server.tally_value)
    (breakdown : gmap string slot) : Prop :=
  types_ok types /\ counts_ok breakdown
  /\ forall kind : string,
       Breakdown.Object_prototype kind = None ->
       type_tally types kind = tally breakdown kind.

(** The two lines of the Cypress document for a fragment. *)
Definition Cypress_item (step : fragment) : string :=
  "    // " +:+ comment step +:+ NL +:+ "    " +:+ action step +:+ ";".

(** The two lines of the Playwright document for a fragment. *)
Definition Playwright_item (mark : string) (step : fragment) : string :=
  "    " +:+ mark +:+ " " +:+ comment step +:+ NL +:+ "    " +:+ action step.

(** Text on one line without the character [a]. *)
Definition free_of (a : ascii) (s : string) : bool :=
  all_chars (fun c => negb (Ascii.eqb c a) && negb (JS.is_line_terminator c)) s.

(** Text on one line without a space and without a colon, as the part of a
    selector before its [option] has it. *)
Definition one_word (s : string) : bool :=
  all_chars (fun c => negb (Ascii.eqb c " ") && negb (Ascii.eqb c ":")
                      && negb (JS.is_line_terminator c)) s.


(** Text without square brackets. *)
Definition bracket_free (s : string) : bool :=
  all_chars (fun c => negb (Ascii.eqb c "[" || Ascii.eqb c "]")) s.

(** The number of line feeds of a text. *)
Fixpoint line_feeds (s : string) : nat :=
  match s with
  | EmptyString => 0
  | String c s' => (if Ascii.eqb c JS.LF then 1 else 0) + line_feeds s'
  end.

Ltac project_state :=
  cbn [Cypress.steps Cypress.stats_of Cypress.currentOrigin Cypress.navigationHistory
       Cypress.on_stats Cypress.push Cypress.navigate
       Playwright.steps Playwright.stats_of Playwright.on_stats Playwright.push
       Server.totalSteps Server.supportedSteps Server.actionTypes
       count_kind incr_total incr_converted incr_skipped
       actionBreakdown totalActions convertedActions skippedActions] in *.

(** * Properties *)

(** ** Strings and patterns *)

Section StringFacts.

Lemma append_cons (c : ascii) (s t : string) :
  String c s +:+ t = String c (s +:+ t).
Proof. reflexivity. Qed.

Lemma append_empty_l (t : string) : EmptyString +:+ t = t.
Proof. reflexivity. Qed.

Lemma append_nil_r (s : string) : s +:+ EmptyString = s.
Proof.
  induction s as [|c s IH]; [reflexivity|].
  now rewrite append_cons, IH.
Qed.

Lemma append_assoc (a b c : string) : (a +:+ b) +:+ c = a +:+ (b +:+ c).
Proof.
  induction a as [|x a IH]; [reflexivity|].
  now rewrite !append_cons, IH.
Qed.

Lemma strip_prefix_append (p s : string) : JS.strip_prefix p (p +:+ s) = Some s.
Proof.
  induction p as [|c p IH]; [reflexivity|].
  rewrite append_cons. simpl. now rewrite Ascii.eqb_refl.
Qed.

(** A prefix of a matching prefix matches. *)
Lemma strip_prefix_shorter (p q s r : string) :
  JS.strip_prefix (p +:+ q) s = Some r ->
  exists r', JS.strip_prefix p s = Some r'.
Proof.
  revert s. induction p as [|c p IH]; intros s H.
  - simpl. eauto.
  - rewrite append_cons in H. simpl in *.
    destruct s as [|d s]; [discriminate|].
    destruct (Ascii.eqb c d); [eauto | discriminate].
Qed.

Lemma startsWith_shorter (p q s : string) :
  JS.startsWith s (p +:+ q) = true -> JS.startsWith s p = true.
Proof.
  unfold JS.startsWith.
  destruct (JS.strip_prefix (p +:+ q) s) as [r|] eqn:E; [|discriminate].
  destruct (strip_prefix_shorter _ _ _ _ E) as [r' ->]. reflexivity.
Qed.

Lemma includes_shorter (p q s : string) :
  JS.includes s (p +:+ q) = true -> JS.includes s p = true.
Proof.
  induction s as [|c s IH]; simpl; intros H.
  - apply orb_true_iff in H as [H|H]; [|discriminate].
    apply startsWith_shorter in H. now rewrite H.
  - apply orb_true_iff in H as [H|H].
    + apply startsWith_shorter in H. now rewrite H.
    + rewrite (IH H). apply orb_true_r.
Qed.

Lemma all_chars_append (p : ascii -> bool) (a b : string) :
  all_chars p (a +:+ b) = all_chars p a && all_chars p b.
Proof.
  induction a as [|c a IH]; [reflexivity|].
  rewrite append_cons. simpl. now rewrite IH, andb_assoc.
Qed.

Lemma exec_here_lit (text : string) (re : list JS.atom) (s : string) :
  JS.exec_here (JS.Lit text :: re) s
  = match JS.strip_prefix text s with
    | Some rest => JS.exec_here re rest
    | None => None
    end.
Proof. reflexivity. Qed.

Lemma exec_here_star (re : list JS.atom) (s : string) :
  JS.exec_here (JS.LazyStarDot :: re) s = JS.lazy_star (JS.exec_here re) s.
Proof. reflexivity. Qed.

Lemma exec_here_plus (re : list JS.atom) (s : string) :
  JS.exec_here (JS.CaptureLazyPlusDot :: re) s = JS.lazy_plus (JS.exec_here re) s.
Proof. reflexivity. Qed.

(** The lazy star gives up nothing on text the continuation refuses. *)
Lemma lazy_star_skip (k : string -> option (list string)) (d t : string) :
  (forall c s, Ascii.eqb c "]" = false -> k (String c s) = None) ->
  unbracketed d = true ->
  JS.lazy_star k (d +:+ t) = JS.lazy_star k t.
Proof.
  intros Hk. unfold unbracketed.
  induction d as [|c d IH]; intros Hd; [reflexivity|].
  cbn [all_chars] in Hd. apply andb_true_iff in Hd as [Hc Hd].
  apply andb_true_iff in Hc as [Hb Hl].
  apply negb_true_iff in Hb, Hl.
  rewrite append_cons. simpl. rewrite (Hk c _ Hb), Hl. now apply IH.
Qed.

(** The lazy plus before a closing bracket captures up to the first one. *)
Lemma lazy_plus_first_bracket (c : ascii) (w t : string) :
  unbracketed (String c w) = true ->
  JS.lazy_plus (JS.exec_here [JS.Lit "]"]) (String c w +:+ String "]" t)
  = Some [String c w].
Proof.
  unfold unbracketed. revert c. induction w as [|d w IH]; intros c H.
  - cbn [all_chars] in H.
    apply andb_true_iff in H as [H _].
    apply andb_true_iff in H as [_ Hl]. apply negb_true_iff in Hl.
    rewrite append_cons, append_empty_l. simpl. now rewrite Hl.
  - cbn [all_chars] in H. apply andb_true_iff in H as [Hc Hw].
    apply andb_true_iff in Hc as [_ Hl]. apply negb_true_iff in Hl.
    assert (Hd : Ascii.eqb "]" d = false).
    { cbn [all_chars] in Hw. apply andb_true_iff in Hw as [Hd _].
      apply andb_true_iff in Hd as [Hd _]. apply negb_true_iff in Hd.
      now rewrite Ascii.eqb_sym. }
    specialize (IH d Hw).
    rewrite append_cons. cbn [JS.lazy_plus]. rewrite Hl, IH.
    rewrite append_cons. cbn [JS.exec_here JS.strip_prefix]. now rewrite Hd.
Qed.

(** The locator pattern on the diagnostic format: the group is the text
    between the arrow and the first closing bracket after it. *)
Lemma locator_match (drv t : string) (c : ascii) (w : string) :
  unbracketed drv = true ->
  unbracketed (String c w) = true ->
  JS.match_ false locator_re
    ("[[" +:+ drv +:+ "] -> " +:+ String c w +:+ String "]" t)
  = Some [String c w].
Proof.
  intros Hd Hw.
  assert (E : JS.exec_here locator_re
                ("[[" +:+ drv +:+ "] -> " +:+ String c w +:+ String "]" t)
              = Some [String c w]).
  { unfold locator_re.
    rewrite exec_here_lit, strip_prefix_append, exec_here_star.
    rewrite lazy_star_skip; [| |exact Hd].
    - rewrite append_cons. cbn [JS.lazy_star]. rewrite <- append_cons.
      rewrite exec_here_lit, strip_prefix_append, exec_here_plus.
      now rewrite (lazy_plus_first_bracket c w t Hw).
    - intros a s Ha. rewrite exec_here_lit.
      change (JS.strip_prefix "] -> " (String a s))
        with (if Ascii.eqb "]" a then JS.strip_prefix " -> " s else None).
      rewrite Ascii.eqb_sym in Ha. now rewrite Ha. }
  unfold JS.match_. rewrite !append_cons in *.
  cbn [JS.exec_from]. now rewrite E.
Qed.



Lemma split_lines_nonempty (s : string) : JS.split_lines s <> [].
Proof.
  induction s as [|c s IH]; simpl; [discriminate|].
  destruct (Ascii.eqb c JS.LF); [discriminate|].
  destruct (JS.split_lines s); [contradiction | discriminate].
Qed.

(** Splitting distributes over a line feed. *)
Lemma split_lines_append (a b : string) :
  JS.split_lines (a +:+ NL +:+ b) = JS.split_lines a ++ JS.split_lines b.
Proof.
  induction a as [|c a IH]; [reflexivity|].
  rewrite append_cons. cbn [JS.split_lines]. rewrite IH.
  destruct (Ascii.eqb c JS.LF); [reflexivity|].
  pose proof (split_lines_nonempty a) as Hne.
  destruct (JS.split_lines a); [contradiction | reflexivity].
Qed.

(** A text without a line feed is one line. *)
Lemma split_lines_single (s : string) :
  all_chars (fun c => negb (Ascii.eqb c JS.LF)) s = true ->
  JS.split_lines s = [s].
Proof.
  induction s as [|c s IH]; [reflexivity|].
  simpl. intros H. apply andb_true_iff in H as [Hc Hs].
  apply negb_true_iff in Hc. now rewrite Hc, (IH Hs).
Qed.

End StringFacts.

(** ** The locator parser *)

(** C2. Both converters extract [#foo] from the located id [foo], the
    attribute selector on [name] from the located name [bar], and the CSS
    selector [.x > y] as it stands; and every string that matches neither the
    diagnostic format nor the URL shape, [plain-target] among them, comes
    back verbatim. *)
Theorem locator_round_trip :
  ((Cypress.extractCleanSelector (Str "[[drv] -> id: foo]") = Some "#foo"
    /\ Playwright.extractCleanSelector (Str "[[drv] -> id: foo]") = Some "#foo")
   /\ (Cypress.extractCleanSelector (Str "[[drv] -> name: bar]")
       = Some ("[name=" +:+ DQ +:+ "bar" +:+ DQ +:+ "]")
       /\ Playwright.extractCleanSelector (Str "[[drv] -> name: bar]")
          = Some ("[name=" +:+ DQ +:+ "bar" +:+ DQ +:+ "]"))
   /\ (Cypress.extractCleanSelector (Str "[[drv] -> css selector: .x > y]")
       = Some ".x > y"
       /\ Playwright.extractCleanSelector (Str "[[drv] -> css selector: .x > y]")
          = Some ".x > y")
   /\ (Cypress.extractCleanSelector (Str "plain-target") = Some "plain-target"
       /\ Playwright.extractCleanSelector (Str "plain-target") = Some "plain-target"))
  /\ (forall target : string,
        JS.match_ false locator_re target = None ->
        JS.startsWith target "http" = false ->
        JS.startsWith target "[http" = false ->
        Cypress.extractCleanSelector (Str target) = Some target
        /\ Playwright.extractCleanSelector (Str target) = Some target).
Proof.
  split; [repeat split; reflexivity|].
  intros target Hm Hh Hb.
  unfold Cypress.extractCleanSelector, Playwright.extractCleanSelector.
  destruct target as [|c target]; [split; reflexivity|].
  cbn [Value.truthy JS.nonempty negb].
  unfold Cypress.cleanSelector, Playwright.cleanSelector.
  now rewrite Hm, Hh, Hb.
Qed.

(** C2, at a string that has neither shape. *)
Lemma locator_round_trip_witness :
  Cypress.extractCleanSelector (Str "no brackets") = Some "no brackets"
  /\ Playwright.extractCleanSelector (Str "no brackets") = Some "no brackets".
Proof.
  apply (proj2 locator_round_trip "no brackets"); reflexivity.
Defined.

(** C10. In a target of the diagnostic format the locator ends at the first
    closing bracket after the arrow: whatever follows that bracket is lost,
    for every locator kind, and a CSS selector whose value contains a closing
    bracket comes out cut short before it. *)
Theorem selector_truncated_at_first_bracket
    (drv : string) (c : ascii) (loc v w : string) :
  unbracketed drv = true ->
  unbracketed (String c loc) = true ->
  unbracketed v = true ->
  (Cypress.extractCleanSelector
     (Str ("[[" +:+ drv +:+ "] -> " +:+ String c loc +:+ "]" +:+ w +:+ "]"))
   = Cypress.extractCleanSelector
       (Str ("[[" +:+ drv +:+ "] -> " +:+ String c loc +:+ "]"))
   /\ Playwright.extractCleanSelector
        (Str ("[[" +:+ drv +:+ "] -> " +:+ String c loc +:+ "]" +:+ w +:+ "]"))
      = Playwright.extractCleanSelector
          (Str ("[[" +:+ drv +:+ "] -> " +:+ String c loc +:+ "]")))
  /\ (Cypress.extractCleanSelector
        (Str ("[[" +:+ drv +:+ "] -> css selector: " +:+ v +:+ "]" +:+ w +:+ "]"))
      = Some v
      /\ Playwright.extractCleanSelector
           (Str ("[[" +:+ drv +:+ "] -> css selector: " +:+ v +:+ "]" +:+ w +:+ "]"))
         = Some v).
Proof.
  intros Hd Hloc Hv.
  assert (Hcss : unbracketed ("css selector: " +:+ v) = true).
  { unfold unbracketed in *. rewrite all_chars_append, Hv. reflexivity. }
  unfold Cypress.extractCleanSelector, Playwright.extractCleanSelector,
    Cypress.cleanSelector, Playwright.cleanSelector.
  split.
  - pose proof (locator_match drv (w +:+ "]") c loc Hd Hloc) as E1.
    pose proof (locator_match drv EmptyString c loc Hd Hloc) as E2.
    rewrite !append_cons, !append_empty_l in *.
    cbn [Value.truthy JS.nonempty negb]. now rewrite E1, E2.
  - pose proof (locator_match drv (w +:+ "]") "c" ("ss selector: " +:+ v) Hd Hcss) as E.
    rewrite !append_cons, !append_empty_l in *.
    cbn [Value.truthy JS.nonempty negb]. rewrite E.
    split; reflexivity.
Qed.

(** C10, at the target of a link located by its [href] attribute. *)
Lemma selector_truncated_at_first_bracket_witness :
  Cypress.extractCleanSelector
    (Str ("[[drv] -> css selector: a[href=" +:+ DQ +:+ "x" +:+ DQ +:+ "]]"))
  = Some ("a[href=" +:+ DQ +:+ "x" +:+ DQ)
  /\ Playwright.extractCleanSelector
       (Str ("[[drv] -> css selector: a[href=" +:+ DQ +:+ "x" +:+ DQ +:+ "]]"))
     = Some ("a[href=" +:+ DQ +:+ "x" +:+ DQ).
Proof.
  apply (proj2 (selector_truncated_at_first_bracket
                  "drv" "c" "ss selector: a[href="
                  ("a[href=" +:+ DQ +:+ "x" +:+ DQ) EmptyString
                  eq_refl eq_refl eq_refl)).
Defined.

(** ** The fabricated input value *)

(** C4. In both converters no selector reaches the placeholder paragraph:
    a selector that contains [textarea] contains [text], which is tested
    first, so [textarea] itself gets the placeholder text. *)
Theorem textarea_branch_unreachable :
  (forall selector : string,
     Cypress.guessInputValue selector <> "This is sample textarea content"
     /\ Playwright.guessInputValue selector <> "This is sample textarea content")
  /\ Cypress.guessInputValue "textarea" = "Sample text input"
  /\ Playwright.guessInputValue "textarea" = "Sample text input".
Proof.
  split; [|split; reflexivity].
  intros selector.
  unfold Cypress.guessInputValue, Playwright.guessInputValue.
  destruct (JS.includes selector "password"); [split; discriminate|].
  destruct (JS.includes selector "email"); [split; discriminate|].
  destruct (JS.includes selector "text") eqn:Htext; [split; discriminate|].
  destruct (JS.includes selector "textarea") eqn:Harea.
  - apply (includes_shorter "text" "area") in Harea. congruence.
  - destruct (JS.includes selector "name"); split; discriminate.
Qed.

(** ** Escaping in the generated code *)


(** Once the target is read, the other properties of the event are too. *)
Lemma get_total (event : value) (key key' : string) (v : value) :
  Value.get event key = Some v -> exists v', Value.get event key' = Some v'.
Proof. destruct event; simpl; intros H; try discriminate; eauto. Qed.





(** ** The statistics *)

Section Statistics.

Lemma counts_ok_empty : counts_ok ∅.
Proof. intros kind _. now rewrite lookup_empty. Qed.

Lemma free_name_not_proto (kind : string) :
  Breakdown.Object_prototype kind = None -> String.eqb kind "__proto__" = false.
Proof.
  unfold Breakdown.Object_prototype. intros H.
  destruct (String.eqb kind "constructor"); [discriminate|].
  destruct (existsb _ _); [discriminate|].
  destruct (String.eqb kind "__proto__"); [discriminate | reflexivity].
Qed.

Lemma increment_counts_ok (breakdown : gmap string slot) (key : string) :
  counts_ok breakdown -> counts_ok (Breakdown.increment breakdown key).
Proof.
  intros Hok kind Hfree. specialize (Hok kind Hfree) as Hkind.
  unfold Breakdown.increment, Breakdown.assign.
  destruct (String.eqb key "__proto__"); [exact Hkind|].
  destruct (decide (key = kind)) as [->|Hne].
  - rewrite lookup_insert_eq. unfold Breakdown.successor.
    destruct (breakdown !! kind) as [[n|t]|].
    + destruct (n =? 0); lia.
    + contradiction.
    + rewrite Hfree. lia.
  - now rewrite lookup_insert_ne.
Qed.

(** Under a free name the count goes up by one. *)
Lemma increment_tally (breakdown : gmap string slot) (kind : string) :
  counts_ok breakdown ->
  Breakdown.Object_prototype kind = None ->
  tally (Breakdown.increment breakdown kind) kind = tally breakdown kind + 1.
Proof.
  intros Hok Hfree. specialize (Hok kind Hfree).
  unfold tally, Breakdown.increment, Breakdown.assign.
  rewrite (free_name_not_proto kind Hfree), lookup_insert_eq.
  unfold Breakdown.successor.
  destruct (breakdown !! kind) as [[n|t]|].
  - destruct (n =? 0) eqn:E; [lia | reflexivity].
  - contradiction.
  - now rewrite Hfree.
Qed.

(** The kinds of the allow-list are free names. *)
Lemma autoHandled_free (kind : string) :
  In kind Cypress.autoHandledActions -> Breakdown.Object_prototype kind = None.
Proof.
  intros H. repeat destruct H as [<-|H]; try reflexivity. destruct H.
Qed.

Lemma autoHandled_in_set (kind : string) :
  In kind Cypress.autoHandledActions ->
  Value.in_set Cypress.autoHandledActions (Str kind) = true.
Proof.
  intros H. repeat destruct H as [<-|H]; try reflexivity. destruct H.
Qed.

(** The constructor's set of supported actions is disjoint from the
    allow-list. *)
Lemma supported_not_autoHandled (action : value) :
  Value.in_set (Cypress.supportedActions Cypress.new) action = true ->
  Value.in_set Cypress.autoHandledActions action = false.
Proof.
  destruct action as [| |b|r|t|l|p]; try discriminate.
  cbn [Value.in_set Cypress.supportedActions Cypress.new existsb].
  rewrite !orb_true_iff. intros H.
  repeat destruct H as [H|H]; try discriminate;
    apply String.eqb_eq in H; subst t; reflexivity.
Qed.

End Statistics.

Section Bookkeeping.
Context {rt : Runtime}.

Lemma Cypress_event_counts (this : Cypress.instance) (language : string)
    (event : value) (s : Cypress.state) :
  counts_ok (actionBreakdown (Cypress.stats_of s)) ->
  counts_ok (actionBreakdown
               (Cypress.stats_of (Cypress.processEvent this language event s))).
Proof.
  intros H. unfold Cypress.processEvent.
  repeat case_match; project_stats;
    solve [exact H | apply increment_counts_ok; exact H].
Qed.

Lemma Playwright_event_counts (this : Playwright.instance) (language : string)
    (event : value) (s : Playwright.state) :
  counts_ok (actionBreakdown (Playwright.stats_of s)) ->
  counts_ok (actionBreakdown
               (Playwright.stats_of (Playwright.processEvent this language event s))).
Proof.
  intros H. unfold Playwright.processEvent.
  repeat case_match; project_stats;
    solve [exact H | apply increment_counts_ok; exact H].
Qed.

Lemma Cypress_event_counters (language : string) (event : value) (s : Cypress.state) :
  counters_ok (Cypress.stats_of s) ->
  counters_ok (Cypress.stats_of (Cypress.processEvent Cypress.new language event s)).
Proof.
  unfold counters_ok, Cypress.processEvent. intros H.
  destruct (Value.get event "evt") as [evt|]; [|exact H].
  destruct (Value.is_string evt "step.ok"); [|exact H].
  destruct (Value.toString _) as [key|]; [|exact H].
  destruct (Value.in_set (Cypress.supportedActions Cypress.new) _) eqn:Hsup.
  - rewrite (supported_not_autoHandled _ Hsup). cbn [negb].
    repeat case_match; project_stats; lia.
  - repeat case_match; project_stats; lia.
Qed.

Lemma Playwright_event_counters (this : Playwright.instance) (language : string)
    (event : value) (s : Playwright.state) :
  counters_ok (Playwright.stats_of s) ->
  counters_ok (Playwright.stats_of (Playwright.processEvent this language event s)).
Proof.
  unfold counters_ok, Playwright.processEvent. intros H.
  repeat case_match; project_stats; lia.
Qed.

(** The invariants hold on every state the loop reaches. *)
Lemma Cypress_loop_counts (this : Cypress.instance) (language : string)
    (lines : list string) (s : Cypress.state) :
  counts_ok (actionBreakdown (Cypress.stats_of s)) ->
  counts_ok (actionBreakdown
               (Cypress.stats_of (fold_left (Cypress.processLine this language) lines s))).
Proof.
  revert s. induction lines as [|line lines IH]; intros s H; [exact H|].
  cbn [fold_left]. apply IH. unfold Cypress.processLine.
  destruct (JSON_parse line); [now apply Cypress_event_counts | exact H].
Qed.

Lemma Playwright_loop_counts (this : Playwright.instance) (language : string)
    (lines : list string) (s : Playwright.state) :
  counts_ok (actionBreakdown (Playwright.stats_of s)) ->
  counts_ok (actionBreakdown
               (Playwright.stats_of
                  (fold_left (Playwright.processLine this language) lines s))).
Proof.
  revert s. induction lines as [|line lines IH]; intros s H; [exact H|].
  cbn [fold_left]. apply IH. unfold Playwright.processLine.
  destruct (JSON_parse line); [now apply Playwright_event_counts | exact H].
Qed.

Lemma Cypress_loop_counters (language : string)
    (lines : list string) (s : Cypress.state) :
  counters_ok (Cypress.stats_of s) ->
  counters_ok
    (Cypress.stats_of (fold_left (Cypress.processLine Cypress.new language) lines s)).
Proof.
  revert s. induction lines as [|line lines IH]; intros s H; [exact H|].
  cbn [fold_left]. apply IH. unfold Cypress.processLine.
  destruct (JSON_parse line); [now apply Cypress_event_counters | exact H].
Qed.

Lemma Playwright_loop_counters (this : Playwright.instance) (language : string)
    (lines : list string) (s : Playwright.state) :
  counters_ok (Playwright.stats_of s) ->
  counters_ok
    (Playwright.stats_of (fold_left (Playwright.processLine this language) lines s)).
Proof.
  revert s. induction lines as [|line lines IH]; intros s H; [exact H|].
  cbn [fold_left]. apply IH. unfold Playwright.processLine.
  destruct (JSON_parse line); [now apply Playwright_event_counters | exact H].
Qed.

End Bookkeeping.

(** C3, as the code has it. A completed step whose kind is on the
    allow-list ([findElement], [findElements], [ImplicitWait.set],
    [Navigation.to]) leaves [totalActions] of the Cypress converter as it was
    and raises [actionBreakdown[kind]] by one; the Playwright converter has no
    allow-list and raises both by one. *)
Theorem auto_handled_kinds_bookkeeping
    (rt : Runtime) (this_c : Cypress.instance) (this_p : Playwright.instance)
    (language : string) (lines : list string) (event : value) (kind : string) :
  Value.get event "evt" = Some (Str "step.ok") ->
  Value.get event "kind" = Some (Str kind) ->
  In kind Cypress.autoHandledActions ->
  (let s := Cypress.run this_c language lines in
   let s' := Cypress.processEvent this_c language event s in
   totalActions (Cypress.stats_of s') = totalActions (Cypress.stats_of s)
   /\ tally (actionBreakdown (Cypress.stats_of s')) kind
      = tally (actionBreakdown (Cypress.stats_of s)) kind + 1)
  /\ (let s := Playwright.run this_p language lines in
      let s' := Playwright.processEvent this_p language event s in
      totalActions (Playwright.stats_of s') = totalActions (Playwright.stats_of s) + 1
      /\ tally (actionBreakdown (Playwright.stats_of s')) kind
         = tally (actionBreakdown (Playwright.stats_of s)) kind + 1).
Proof.
  intros Hevt Hkind Hin.
  pose proof (autoHandled_free kind Hin) as Hfree.
  split; intros s s'; subst s'.
  - assert (Hok : counts_ok (actionBreakdown (Cypress.stats_of s))).
    { apply Cypress_loop_counts, counts_ok_empty. }
    unfold Cypress.processEvent. rewrite Hevt, Hkind.
    change (Value.is_string (Str "step.ok") "step.ok") with true.
    cbn [from_option id Value.toString].
    rewrite (autoHandled_in_set kind Hin). cbn [negb].
    repeat case_match; project_stats;
      (split; [reflexivity | now apply increment_tally]).
  - assert (Hok : counts_ok (actionBreakdown (Playwright.stats_of s))).
    { apply Playwright_loop_counts, counts_ok_empty. }
    unfold Playwright.processEvent. rewrite Hevt, Hkind.
    change (Value.is_string (Str "step.ok") "step.ok") with true.
    cbn [from_option id Value.toString].
    repeat case_match; project_stats;
      (split; [reflexivity | now apply increment_tally]).
Qed.

(** C3, after a first [findElement] on the sample runtime. *)
Lemma auto_handled_kinds_bookkeeping_witness :
  let lines := [Sample.line "get" "https://a.test/x"; Sample.line "findElement" "q"] in
  let event := step_ok "findElement" "[[drv] -> name: q]" in
  (let s := Cypress.run (rt := Sample.runtime) Cypress.new "javascript" lines in
   let s' := Cypress.processEvent (rt := Sample.runtime) Cypress.new "javascript" event s in
   totalActions (Cypress.stats_of s') = totalActions (Cypress.stats_of s)
   /\ tally (actionBreakdown (Cypress.stats_of s')) "findElement"
      = tally (actionBreakdown (Cypress.stats_of s)) "findElement" + 1)
  /\ (let s := Playwright.run (rt := Sample.runtime) Playwright.new "javascript" lines in
      let s' := Playwright.processEvent Playwright.new "javascript" event s in
      totalActions (Playwright.stats_of s') = totalActions (Playwright.stats_of s) + 1
      /\ tally (actionBreakdown (Playwright.stats_of s')) "findElement"
         = tally (actionBreakdown (Playwright.stats_of s)) "findElement" + 1).
Proof.
  intros lines event.
  apply (auto_handled_kinds_bookkeeping Sample.runtime Cypress.new Playwright.new
           "javascript" lines event "findElement");
    [reflexivity | reflexivity | simpl; auto].
Defined.

(** C3 as stated fails on the Playwright converter: a completed
    [findElement] step changes [totalActions] there. *)
Lemma Playwright_counts_auto_handled_kinds :
  let event := step_ok "findElement" "[[drv] -> name: q]" in
  Value.get event "evt" = Some (Str "step.ok")
  /\ Value.get event "kind" = Some (Str "findElement")
  /\ In "findElement" Cypress.autoHandledActions
  /\ totalActions
       (Playwright.stats_of
          (Playwright.processEvent Playwright.new "javascript" event Playwright.initial))
     <> totalActions (Playwright.stats_of Playwright.initial).
Proof.
  cbv zeta. repeat split; [simpl; auto | vm_compute; discriminate].
Qed.

(** X5. The counters of every conversion are consistent, and under every
    name that [Object.prototype] leaves free [actionBreakdown] holds a
    positive count. *)
Theorem statistics_invariant (rt : Runtime) (this_p : Playwright.instance)
    (traceContent language : string) :
  (let stats := result_stats (fst (Cypress.convert Cypress.new traceContent language)) in
   counters_ok stats /\ counts_ok (actionBreakdown stats))
  /\ (let stats := result_stats (fst (Playwright.convert this_p traceContent language)) in
      counters_ok stats /\ counts_ok (actionBreakdown stats)).
Proof.
  assert (H0 : counters_ok new_stats) by (unfold counters_ok; simpl; lia).
  split; cbn [Cypress.convert Playwright.convert fst result_stats];
    (split;
     [first [apply Cypress_loop_counters | apply Playwright_loop_counters]; exact H0
     |first [apply Cypress_loop_counts | apply Playwright_loop_counts];
      apply counts_ok_empty]).
Qed.

(** C9, at the failing input. A completed step whose kind is [constructor],
    a name that [Object.prototype] defines, leaves under that name of
    [actionBreakdown] the source text of the inherited function with a 1
    appended, a string and not a count, in both converters. *)
Theorem prototype_named_kind_is_not_counted :
  let trace := Sample.line "constructor" "x" in
  actionBreakdown
    (result_stats
       (fst (Cypress.convert (rt := Sample.runtime) Cypress.new trace "javascript")))
    !! "constructor"
  = Some (Text "function Object() { [native code] }1")
  /\ actionBreakdown
       (result_stats
          (fst (Playwright.convert (rt := Sample.runtime) Playwright.new trace "javascript")))
       !! "constructor"
     = Some (Text "function Object() { [native code] }1").
Proof. split; vm_compute; reflexivity. Qed.

(** ** The trace reader *)

Section Reader.
Context {rt : Runtime}.

Lemma Cypress_lines_of_append (a b : string) :
  Cypress.lines_of (a +:+ NL +:+ b) = Cypress.lines_of a ++ Cypress.lines_of b.
Proof.
  unfold Cypress.lines_of. now rewrite split_lines_append, List.filter_app.
Qed.

Lemma Playwright_lines_of_append (a b : string) :
  Playwright.lines_of (a +:+ NL +:+ b) = Playwright.lines_of a ++ Playwright.lines_of b.
Proof.
  unfold Playwright.lines_of. now rewrite split_lines_append, List.filter_app.
Qed.

(** A line that is blank or does not decode leaves the loop where it was. *)
Lemma Cypress_skips (this : Cypress.instance) (language line : string)
    (s : Cypress.state) :
  all_chars (fun c => negb (Ascii.eqb c JS.LF)) line = true ->
  JSON_parse line = None \/ JS.trim line = EmptyString ->
  fold_left (Cypress.processLine this language) (Cypress.lines_of line) s = s.
Proof.
  intros Hone Hbad. unfold Cypress.lines_of.
  rewrite (split_lines_single line Hone). cbn [List.filter].
  destruct Hbad as [Hbad|Hbad].
  - destruct (JS.nonempty (JS.trim line)); [|reflexivity].
    cbn [fold_left]. unfold Cypress.processLine. now rewrite Hbad.
  - now rewrite Hbad.
Qed.

Lemma Playwright_skips (this : Playwright.instance) (language line : string)
    (s : Playwright.state) :
  all_chars (fun c => negb (Ascii.eqb c JS.LF)) line = true ->
  JSON_parse line = None \/ JS.trim line = EmptyString ->
  fold_left (Playwright.processLine this language) (Playwright.lines_of line) s = s.
Proof.
  intros Hone Hbad. unfold Playwright.lines_of.
  rewrite (split_lines_single line Hone). cbn [List.filter].
  destruct Hbad as [Hbad|Hbad].
  - destruct (JS.nonempty (JS.trim line)); [|reflexivity].
    cbn [fold_left]. unfold Playwright.processLine. now rewrite Hbad.
  - now rewrite Hbad.
Qed.

End Reader.

(** C5. A line that does not decode leaves the state of the loop, the
    statistics and the fragments, as it was, in both converters; and a trace
    with such a line, or a blank line, between two parts converts to what the
    trace without that line converts to. *)
Theorem undecodable_line_is_skipped
    (rt : Runtime) (this_c : Cypress.instance) (this_p : Playwright.instance)
    (language before line after : string) :
  all_chars (fun c => negb (Ascii.eqb c JS.LF)) line = true ->
  JSON_parse line = None \/ JS.trim line = EmptyString ->
  (JSON_parse line = None ->
   (forall s, Cypress.processLine this_c language s line = s)
   /\ (forall s, Playwright.processLine this_p language s line = s))
  /\ Cypress.convert this_c (before +:+ NL +:+ line +:+ NL +:+ after) language
     = Cypress.convert this_c (before +:+ NL +:+ after) language
  /\ Playwright.convert this_p (before +:+ NL +:+ line +:+ NL +:+ after) language
     = Playwright.convert this_p (before +:+ NL +:+ after) language.
Proof.
  intros Hone Hbad. split; [|split].
  - intros Hnone. unfold Cypress.processLine, Playwright.processLine.
    rewrite Hnone. split; reflexivity.
  - unfold Cypress.convert, Cypress.run.
    rewrite !Cypress_lines_of_append, !fold_left_app.
    now rewrite (Cypress_skips this_c language line _ Hone Hbad).
  - unfold Playwright.convert, Playwright.run.
    rewrite !Playwright_lines_of_append, !fold_left_app.
    now rewrite (Playwright_skips this_p language line _ Hone Hbad).
Qed.

(** C5, at a trace with a line of noise after its first step. *)
Lemma undecodable_line_is_skipped_witness :
  let before := Sample.line "get" "https://a.test/x" in
  let after := Sample.line "click" "[[drv] -> id: go]" in
  ((forall s, Cypress.processLine (rt := Sample.runtime) Cypress.new "javascript" s "not json" = s)
   /\ (forall s, Playwright.processLine (rt := Sample.runtime) Playwright.new "javascript" s "not json" = s))
  /\ Cypress.convert (rt := Sample.runtime) Cypress.new
       (before +:+ NL +:+ "not json" +:+ NL +:+ after) "javascript"
     = Cypress.convert (rt := Sample.runtime) Cypress.new
         (before +:+ NL +:+ after) "javascript"
  /\ Playwright.convert (rt := Sample.runtime) Playwright.new
       (before +:+ NL +:+ "not json" +:+ NL +:+ after) "javascript"
     = Playwright.convert (rt := Sample.runtime) Playwright.new
         (before +:+ NL +:+ after) "javascript".
Proof.
  intros before after.
  destruct (undecodable_line_is_skipped Sample.runtime Cypress.new Playwright.new
              "javascript" before "not json" after eq_refl (or_introl eq_refl))
    as (Hline & Hc & Hp).
  split; [apply Hline; reflexivity | split; assumption].
Defined.

(** ** The language of the output *)

Section Languages.
Context {rt : Runtime}.

(** The Cypress fragments do not depend on the language at all. *)
Lemma Cypress_event_any_language (this : Cypress.instance) (l1 l2 : string)
    (event : value) (s : Cypress.state) :
  Cypress.processEvent this l1 event s = Cypress.processEvent this l2 event s.
Proof. reflexivity. Qed.

Lemma Cypress_run_any_language (this : Cypress.instance) (l1 l2 : string)
    (lines : list string) :
  Cypress.run this l1 lines = Cypress.run this l2 lines.
Proof.
  unfold Cypress.run. generalize Cypress.initial.
  induction lines as [|line lines IH]; intros s; [reflexivity|].
  cbn [fold_left]. rewrite IH. reflexivity.
Qed.

(** The Playwright fragments depend on the language only through the test
    for Python. *)
Lemma Playwright_event_not_python (this : Playwright.instance) (language : string)
    (event : value) (s : Playwright.state) :
  String.eqb language "python" = false ->
  Playwright.processEvent this language event s
  = Playwright.processEvent this "javascript" event s.
Proof.
  intros H.
  unfold Playwright.processEvent, Playwright.convertStep,
    Playwright.generatePageAction, Playwright.generateSelectOption,
    Playwright.generateExpectation, Playwright.generateComment.
  rewrite H.
  change (String.eqb "javascript" "python") with false.
  reflexivity.
Qed.

Lemma Playwright_run_not_python (this : Playwright.instance) (language : string)
    (lines : list string) :
  String.eqb language "python" = false ->
  Playwright.run this language lines = Playwright.run this "javascript" lines.
Proof.
  intros H. unfold Playwright.run. generalize Playwright.initial.
  induction lines as [|line lines IH]; intros s; [reflexivity|].
  cbn [fold_left]. rewrite IH. unfold Playwright.processLine.
  destruct (JSON_parse line); [|reflexivity].
  now rewrite (Playwright_event_not_python this language _ s H).
Qed.

End Languages.

(** C6. A language that a converter does not know gives the output of its
    default language. The Cypress converter called for any language but
    TypeScript, Python among them, returns what it returns for JavaScript:
    the JavaScript document under the name [migrated-selenium.cy.js]. The
    Playwright converter called for any language but Python and TypeScript
    returns what it returns for JavaScript, under the name
    [migrated-selenium.spec.js]. *)
Theorem unknown_language_falls_back
    (rt : Runtime) (this_c : Cypress.instance) (this_p : Playwright.instance)
    (traceContent language : string) :
  (language <> "typescript" ->
   Cypress.convert this_c traceContent language
   = Cypress.convert this_c traceContent "javascript"
   /\ content (fst (Cypress.convert this_c traceContent language))
      = Cypress.generateJavaScriptTest
          (Cypress.steps (Cypress.run this_c language (Cypress.lines_of traceContent)))
   /\ filename (fst (Cypress.convert this_c traceContent language))
      = "migrated-selenium.cy.js")
  /\ (language <> "python" -> language <> "typescript" ->
      Playwright.convert this_p traceContent language
      = Playwright.convert this_p traceContent "javascript"
      /\ content (fst (Playwright.convert this_p traceContent language))
         = Playwright.generateJavaScriptTest
             (Playwright.steps
                (Playwright.run this_p language (Playwright.lines_of traceContent)))
      /\ filename (fst (Playwright.convert this_p traceContent language))
         = "migrated-selenium.spec.js").
Proof.
  split.
  - intros Hts. apply String.eqb_neq in Hts.
    unfold Cypress.convert, Cypress.generateTestFile, Cypress.getFilename.
    cbn [fst content filename]. rewrite Hts.
    rewrite (Cypress_run_any_language this_c language "javascript").
    repeat split.
  - intros Hpy Hts. apply String.eqb_neq in Hpy, Hts.
    unfold Playwright.convert, Playwright.generateTestFile, Playwright.getFilename.
    cbn [fst content filename]. rewrite Hpy, Hts.
    rewrite (Playwright_run_not_python this_p language _ Hpy).
    repeat split.
Qed.

(** C6, for the Cypress converter asked for Python and the Playwright
    converter asked for Ruby. *)
Lemma unknown_language_falls_back_witness :
  let trace := Sample.line "get" "https://a.test/x" +:+ NL
               +:+ Sample.line "findElement" "[[drv] -> id: go]" in
  filename (fst (Cypress.convert (rt := Sample.runtime) Cypress.new trace "python"))
  = "migrated-selenium.cy.js"
  /\ Cypress.convert (rt := Sample.runtime) Cypress.new trace "python"
     = Cypress.convert (rt := Sample.runtime) Cypress.new trace "javascript"
  /\ Playwright.convert (rt := Sample.runtime) Playwright.new trace "ruby"
     = Playwright.convert (rt := Sample.runtime) Playwright.new trace "javascript".
Proof.
  intros trace.
  pose proof (unknown_language_falls_back Sample.runtime Cypress.new Playwright.new
                trace "python") as [Hc _].
  pose proof (unknown_language_falls_back Sample.runtime Cypress.new Playwright.new
                trace "ruby") as [_ Hp].
  destruct Hc as (Hconv & _ & Hname); [discriminate|].
  destruct Hp as (Hconv' & _ & _); [discriminate | discriminate |].
  repeat split; assumption.
Defined.

(** ** Navigation back across origins *)

Section BackNavigation.
Context {rt : Runtime}.

(** What the loop does with a completed step of a supported kind that
    [convertStep] turns into a fragment. *)
Lemma Cypress_supported_event (language : string) (event : value) (kind : string)
    (s : Cypress.state) (step : fragment) :
  Value.get event "evt" = Some (Str "step.ok") ->
  Value.get event "kind" = Some (Str kind) ->
  In kind (Cypress.supportedActions Cypress.new) ->
  Cypress.convertStep event language (Cypress.currentOrigin s) (Cypress.navigationHistory s)
  = Some step ->
  Cypress.processEvent Cypress.new language event s
  = let s1 := Cypress.on_stats incr_converted
                (Cypress.push step
                   (Cypress.on_stats incr_total (Cypress.on_stats (count_kind kind) s))) in
    match url step with
    | Some step_url =>
        if String.eqb kind "get" && JS.nonempty step_url
        then Cypress.navigate (Cypress.extractOrigin step_url) s1
        else s1
    | None => s1
    end.
Proof.
  intros Hevt Hkind Hin Hstep.
  unfold Cypress.processEvent. rewrite Hevt, Hkind.
  change (Value.is_string (Str "step.ok") "step.ok") with true.
  cbn [from_option id Value.toString Value.is_string].
  assert (Hsup : Value.in_set (Cypress.supportedActions Cypress.new) (Str kind) = true).
  { repeat destruct Hin as [<-|Hin]; try reflexivity. destruct Hin. }
  rewrite Hsup, (supported_not_autoHandled _ Hsup). cbn [negb].
  cbn [Cypress.currentOrigin Cypress.navigationHistory Cypress.on_stats].
  now rewrite Hstep.
Qed.

(** The fragment of a [Navigation.back] step: the disabled one exactly
    when the history has two entries or more, the one before the last is an
    origin, not [null] and not empty, and that origin is not the current
    one. *)
Lemma Cypress_back_fragment (event target : value) (selector language : string)
    (currentOrigin : option string) (history : list (option string)) :
  Value.get event "kind" = Some (Str "Navigation.back") ->
  Value.get event "target" = Some target ->
  Cypress.extractCleanSelector target = Some selector ->
  exists f,
    Cypress.convertStep event language currentOrigin history = Some f
    /\ (f = Cypress.back_skipped \/ f = Cypress.back_real)
    /\ (f = Cypress.back_skipped <->
        (2 <= length history)%nat
        /\ exists previousOrigin,
             history !! (length history - 2)%nat = Some (Some previousOrigin)
             /\ previousOrigin <> EmptyString
             /\ Some previousOrigin <> currentOrigin).
Proof.
  intros Hk Ht Hs.
  destruct (get_total _ _ "durationMs" _ Hk) as [d Hd].
  unfold Cypress.convertStep. rewrite Hk, Ht, Hd.
  cbn [mbind option_bind]. rewrite Hs. cbn [mbind option_bind Value.is_string].
  repeat match goal with
         | |- context [String.eqb ?a ?b] =>
             let r := eval vm_compute in (String.eqb a b) in
             change (String.eqb a b) with r
         end; cbv iota.
  assert (Hne : Cypress.back_real <> Cypress.back_skipped) by discriminate.
  destruct (1 <? length history)%nat eqn:Hlen.
  - apply Nat.ltb_lt in Hlen.
    destruct (history !! (length history - 2)%nat) as [[prev|]|] eqn:Hprev.
    + destruct (JS.nonempty prev) eqn:Hnonempty; cbn [andb].
      * destruct (bool_decide (Some prev = currentOrigin)) eqn:Hsame; cbn [negb].
        -- apply bool_decide_eq_true in Hsame.
           eexists; split; [reflexivity|]. split; [now right|].
           split; [intros H; now destruct Hne|].
           intros (_ & prev' & Heq & _ & Hdiff). congruence.
        -- apply bool_decide_eq_false in Hsame.
           eexists; split; [reflexivity|]. split; [now left|].
           split; [|reflexivity]. intros _. split; [lia|].
           exists prev. repeat split; try assumption.
           intros ->. discriminate.
      * eexists; split; [reflexivity|]. split; [now right|].
        split; [intros H; now destruct Hne|].
        intros (_ & prev' & Heq & Hnon & _).
        assert (prev' = prev) as -> by congruence.
        destruct prev; [now destruct Hnon | discriminate].
    + eexists; split; [reflexivity|]. split; [now right|].
      split; [intros H; now destruct Hne|].
      intros (_ & prev' & Heq & _). discriminate.
    + eexists; split; [reflexivity|]. split; [now right|].
      split; [intros H; now destruct Hne|].
      intros (_ & prev' & Heq & _). discriminate.
  - apply Nat.ltb_ge in Hlen.
    eexists; split; [reflexivity|]. split; [now right|].
    split; [intros H; now destruct Hne|].
    intros (Hlen' & _). lia.
Qed.

End BackNavigation.

Section BackTraces.
Context {rt : Runtime}.

(** A [get] of a plain URL appends its fragment and records its origin. *)
Lemma Cypress_get_event (language href protocol host : string) (s : Cypress.state) :
  Cypress.extractCleanSelector (Str href) = Some href ->
  escape_quotes href = href ->
  JS.nonempty href = true ->
  URL_parse href = Some (protocol, host) ->
  let s' := Cypress.processEvent Cypress.new language (step_ok "get" href) s in
  Cypress.steps s'
  = Cypress.steps s
      ++ [{| action := "cy.visit(" +:+ DQ +:+ href +:+ DQ +:+ ")";
             comment := "Navigate to " +:+ href;
             url := Some href;
             origin := Some (protocol +:+ "//" +:+ host) |}]
  /\ Cypress.currentOrigin s' = Some (protocol +:+ "//" +:+ host)
  /\ Cypress.navigationHistory s'
     = Cypress.navigationHistory s ++ [Some (protocol +:+ "//" +:+ host)].
Proof.
  intros Hsel Hesc Hne Hurl s'. subst s'.
  rewrite (Cypress_supported_event language (step_ok "get" href) "get" s
             {| action := "cy.visit(" +:+ DQ +:+ href +:+ DQ +:+ ")";
                comment := "Navigate to " +:+ href;
                url := Some href;
             origin := Some (protocol +:+ "//" +:+ host) |});
    [| reflexivity | reflexivity | simpl; auto |].
  - cbn [url]. rewrite Hne.
    change (String.eqb "get" "get") with true. cbn [andb].
    unfold Cypress.extractOrigin. rewrite Hne, Hurl. cbn [negb].
    repeat split.
  - unfold Cypress.convertStep.
    cbn [step_ok Value.get Value.own from_option id mbind option_bind].
    change (String.eqb "evt" "kind") with false.
    change (String.eqb "kind" "kind") with true.
    change (String.eqb "evt" "target") with false.
    change (String.eqb "kind" "target") with false.
    change (String.eqb "target" "target") with true.
    cbn [from_option id mbind option_bind].
    rewrite Hsel. cbn [mbind option_bind].
    rewrite Hne, Hesc. unfold Cypress.extractOrigin. rewrite Hne, Hurl.
    reflexivity.
Qed.

(** A [Navigation.back] appends the fragment [convertStep] gives it. *)
Lemma Cypress_back_event (language target : string) (s : Cypress.state) (f : fragment) :
  Cypress.convertStep (step_ok "Navigation.back" target) language
    (Cypress.currentOrigin s) (Cypress.navigationHistory s) = Some f ->
  url f = None ->
  Cypress.steps
    (Cypress.processEvent Cypress.new language (step_ok "Navigation.back" target) s)
  = Cypress.steps s ++ [f].
Proof.
  intros Hf Hurl.
  rewrite (Cypress_supported_event language _ "Navigation.back" s f);
    [| reflexivity | reflexivity | simpl; auto 10 | exact Hf].
  now rewrite Hurl.
Qed.

End BackTraces.

(** C1, as the code has it. The Cypress converter turns the trace [get]
    of https://a.test/x, [get] of https://b.test/y, [Navigation.back] into a
    disabled back action, and the trace with https://a.test/z as the second
    URL into the real one. In general the fragment of a [Navigation.back] is
    the disabled action exactly when the history has at least two entries, the
    entry before the last is an origin (neither [null], as an address leaves
    that the URL parser refuses, nor empty) and that origin differs from the
    current one. *)
Theorem cross_origin_back_guard :
  (forall (rt : Runtime) (language l1 l2 l2' l3 target : string),
     JSON_parse l1 = Some (step_ok "get" "https://a.test/x") ->
     JSON_parse l2 = Some (step_ok "get" "https://b.test/y") ->
     JSON_parse l2' = Some (step_ok "get" "https://a.test/z") ->
     JSON_parse l3 = Some (step_ok "Navigation.back" target) ->
     URL_parse "https://a.test/x" = Some ("https:", "a.test") ->
     URL_parse "https://b.test/y" = Some ("https:", "b.test") ->
     URL_parse "https://a.test/z" = Some ("https:", "a.test") ->
     Cypress.steps (Cypress.run Cypress.new language [l1; l2; l3]) !! 2%nat
     = Some Cypress.back_skipped
     /\ Cypress.steps (Cypress.run Cypress.new language [l1; l2'; l3]) !! 2%nat
        = Some Cypress.back_real)
  /\ (forall (rt : Runtime) (event target : value) (selector language : string)
             (currentOrigin : option string) (history : list (option string)),
        Value.get event "kind" = Some (Str "Navigation.back") ->
        Value.get event "target" = Some target ->
        Cypress.extractCleanSelector target = Some selector ->
        exists f,
          Cypress.convertStep event language currentOrigin history = Some f
          /\ (f = Cypress.back_skipped \/ f = Cypress.back_real)
          /\ (f = Cypress.back_skipped <->
              (2 <= length history)%nat
              /\ exists previousOrigin,
                   history !! (length history - 2)%nat = Some (Some previousOrigin)
                   /\ previousOrigin <> EmptyString
                   /\ Some previousOrigin <> currentOrigin)).
Proof.
  split; [|intros rt; apply Cypress_back_fragment].
  intros rt language l1 l2 l2' l3 target H1 H2 H2' H3 Ux Uy Uz.
  unfold Cypress.run. cbn [fold_left]. unfold Cypress.processLine.
  rewrite H1, H2, H2', H3.
  destruct (Cypress_get_event language "https://a.test/x" "https:" "a.test"
              Cypress.initial eq_refl eq_refl eq_refl Ux) as (S1 & O1 & N1).
  set (s1 := Cypress.processEvent Cypress.new language
               (step_ok "get" "https://a.test/x") Cypress.initial) in *.
  split.
  - destruct (Cypress_get_event language "https://b.test/y" "https:" "b.test"
                s1 eq_refl eq_refl eq_refl Uy) as (S2 & O2 & N2).
    set (s2 := Cypress.processEvent Cypress.new language
                 (step_ok "get" "https://b.test/y") s1) in *.
    rewrite (Cypress_back_event language target s2 Cypress.back_skipped).
    + rewrite S2, S1. reflexivity.
    + rewrite O2, N2, N1. cbn [Cypress.navigationHistory Cypress.initial app].
      destruct (Cypress_back_fragment (step_ok "Navigation.back" target)
                  (Str target) (match target with
                                | EmptyString => EmptyString
                                | _ => Cypress.cleanSelector target
                                end) language
                  (Some "https://b.test")
                  [Some "https://a.test"; Some "https://b.test"]
                  eq_refl eq_refl) as (f & Hf & _ & Hiff).
      { destruct target; reflexivity. }
      transitivity (Some f); [exact Hf|].
      f_equal. apply Hiff. split; [simpl; lia|].
      exists "https://a.test". repeat split; discriminate.
    + reflexivity.
  - destruct (Cypress_get_event language "https://a.test/z" "https:" "a.test"
                s1 eq_refl eq_refl eq_refl Uz) as (S2 & O2 & N2).
    set (s2 := Cypress.processEvent Cypress.new language
                 (step_ok "get" "https://a.test/z") s1) in *.
    rewrite (Cypress_back_event language target s2 Cypress.back_real).
    + rewrite S2, S1. reflexivity.
    + rewrite O2, N2, N1. cbn [Cypress.navigationHistory Cypress.initial app].
      destruct (Cypress_back_fragment (step_ok "Navigation.back" target)
                  (Str target) (match target with
                                | EmptyString => EmptyString
                                | _ => Cypress.cleanSelector target
                                end) language
                  (Some "https://a.test")
                  [Some "https://a.test"; Some "https://a.test"]
                  eq_refl eq_refl) as (f & Hf & [Hs|Hr] & Hiff).
      { destruct target; reflexivity. }
      * apply Hiff in Hs as (_ & prev & Hprev & _ & Hdiff).
        simpl in Hprev. congruence.
      * transitivity (Some f); [exact Hf | now rewrite Hr].
    + reflexivity.
Qed.

(** C1, on the sample runtime: the two traces of the claim, and the
    fragment of a [Navigation.back] after two visits of different origins. *)
Lemma cross_origin_back_guard_witness :
  (Cypress.steps
     (Cypress.run (rt := Sample.runtime) Cypress.new "javascript"
        [Sample.line "get" "https://a.test/x"; Sample.line "get" "https://b.test/y";
         Sample.line "Navigation.back" EmptyString]) !! 2%nat
   = Some Cypress.back_skipped
   /\ Cypress.steps
        (Cypress.run (rt := Sample.runtime) Cypress.new "javascript"
           [Sample.line "get" "https://a.test/x"; Sample.line "get" "https://a.test/z";
            Sample.line "Navigation.back" EmptyString]) !! 2%nat
      = Some Cypress.back_real)
  /\ exists f,
       Cypress.convertStep (rt := Sample.runtime)
         (step_ok "Navigation.back" EmptyString) "javascript"
         (Some "https://b.test") [Some "https://a.test"; Some "https://b.test"]
       = Some f
       /\ (f = Cypress.back_skipped \/ f = Cypress.back_real)
       /\ (f = Cypress.back_skipped <->
           (2 <= 2)%nat
           /\ exists previousOrigin,
                [Some "https://a.test"; Some "https://b.test"] !! 0%nat
                = Some (Some previousOrigin)
                /\ previousOrigin <> EmptyString
                /\ Some previousOrigin <> Some "https://b.test").
Proof.
  split.
  - apply (proj1 cross_origin_back_guard Sample.runtime "javascript"
             (Sample.line "get" "https://a.test/x")
             (Sample.line "get" "https://b.test/y")
             (Sample.line "get" "https://a.test/z")
             (Sample.line "Navigation.back" EmptyString) EmptyString);
      reflexivity.
  - apply (proj2 cross_origin_back_guard Sample.runtime
             (step_ok "Navigation.back" EmptyString) (Str EmptyString)
             EmptyString "javascript"
             (Some "https://b.test") [Some "https://a.test"; Some "https://b.test"]);
      reflexivity.
Defined.

(** C1 as stated fails. After a visit of an address that the URL parser
    refuses and a visit of https://a.test/x, the history has two entries and
    the entry before the last, [null], differs from the current origin; yet
    the fragment of [Navigation.back] is the real action. *)
Lemma back_guard_passes_unparsed_origin :
  let history := [None; Some "https://a.test"] in
  let currentOrigin := Some "https://a.test" in
  let final :=
    Cypress.run (rt := Sample.runtime) Cypress.new "javascript"
      [Sample.line "get" "plain"; Sample.line "get" "https://a.test/x"] in
  Cypress.navigationHistory final = history
  /\ Cypress.currentOrigin final = currentOrigin
  /\ (2 <= length history)%nat
  /\ history !! (length history - 2)%nat <> Some currentOrigin
  /\ Cypress.convertStep (rt := Sample.runtime)
       (step_ok "Navigation.back" EmptyString) "javascript" currentOrigin history
     = Some Cypress.back_real
  /\ Cypress.back_real <> Cypress.back_skipped.
Proof.
  cbv zeta. split; [vm_compute; reflexivity|].
  split; [vm_compute; reflexivity|].
  split; [simpl; lia|].
  split; [vm_compute; discriminate|].
  split; [vm_compute; reflexivity | discriminate].
Qed.



(** * Further properties of the converters *)

(** ** The locator kinds *)

Section LocatorKinds.

Lemma unbracketed_append (a b : string) :
  unbracketed a = true -> unbracketed b = true -> unbracketed (a +:+ b) = true.
Proof.
  unfold unbracketed. intros Ha Hb. now rewrite all_chars_append, Ha, Hb.
Qed.

(** The group of the locator pattern on a target that ends with its
    locator. *)
Lemma locator_group (drv : string) (c : ascii) (w : string) :
  unbracketed drv = true ->
  unbracketed (String c w) = true ->
  JS.match_ false locator_re ("[[" +:+ drv +:+ "] -> " +:+ String c w +:+ "]")
  = Some [String c w].
Proof. intros Hd Hw. exact (locator_match drv EmptyString c w Hd Hw). Qed.

(** A text without two opening brackets in a row has no match. *)
Lemma no_double_bracket_no_match (s : string) :
  JS.includes s "[[" = false -> JS.match_ false locator_re s = None.
Proof.
  unfold JS.match_, locator_re.
  induction s as [|c s IH]; intros H.
  - reflexivity.
  - cbn [JS.includes] in H. apply orb_false_iff in H as [Hhere Hrest].
    cbn [JS.exec_from]. rewrite exec_here_lit.
    unfold JS.startsWith in Hhere.
    destruct (JS.strip_prefix "[[" (String c s)); [discriminate|].
    now apply IH.
Qed.

Lemma strip_brackets_bracket_free (s : string) :
  bracket_free (strip_brackets s) = true.
Proof.
  unfold bracket_free, strip_brackets.
  induction s as [|c s IH]; [reflexivity|].
  cbn [JS.replace_all].
  destruct (Ascii.eqb c "[" || Ascii.eqb c "]") eqn:E.
  - now rewrite append_empty_l.
  - rewrite append_cons, append_empty_l. cbn [all_chars]. now rewrite E, IH.
Qed.

Lemma strip_brackets_append (a b : string) :
  strip_brackets (a +:+ b) = strip_brackets a +:+ strip_brackets b.
Proof.
  unfold strip_brackets.
  induction a as [|c a IH]; [reflexivity|].
  rewrite append_cons. cbn [JS.replace_all]. now rewrite IH, append_assoc.
Qed.

Lemma strip_brackets_id (s : string) :
  bracket_free s = true -> strip_brackets s = s.
Proof.
  unfold bracket_free, strip_brackets.
  induction s as [|c s IH]; [reflexivity|].
  cbn [all_chars JS.replace_all]. intros H.
  apply andb_true_iff in H as [Hc Hs]. apply negb_true_iff in Hc.
  now rewrite Hc, append_cons, append_empty_l, (IH Hs).
Qed.

Lemma bracket_free_no_double (s : string) :
  bracket_free s = true -> JS.includes s "[[" = false.
Proof.
  unfold bracket_free.
  induction s as [|c s IH]; [reflexivity|].
  cbn [all_chars JS.includes]. intros H.
  apply andb_true_iff in H as [Hc Hs]. apply negb_true_iff in Hc.
  apply orb_false_iff in Hc as [Hc _].
  rewrite (IH Hs), orb_false_r.
  unfold JS.startsWith. cbn [JS.strip_prefix].
  rewrite Ascii.eqb_sym in Hc. now rewrite Hc.
Qed.

End LocatorKinds.

(** X1. For a driver text and a value on one line without a closing
    bracket, both converters render the six locator kinds of the diagnostic
    format as: the attribute selector for [name], the value itself for
    [css selector] and [tag name], the value after [xpath=] for [xpath],
    after [#] for [id] and after a dot for [class]. *)
Theorem locator_kinds_rendered (drv v : string) :
  unbracketed drv = true ->
  unbracketed v = true ->
  let target kind := Str ("[[" +:+ drv +:+ "] -> " +:+ kind +:+ v +:+ "]") in
  (Cypress.extractCleanSelector (target "name: ")
   = Some ("[name=" +:+ DQ +:+ v +:+ DQ +:+ "]")
   /\ Cypress.extractCleanSelector (target "css selector: ") = Some v
   /\ Cypress.extractCleanSelector (target "xpath: ") = Some ("xpath=" +:+ v)
   /\ Cypress.extractCleanSelector (target "tag name: ") = Some v
   /\ Cypress.extractCleanSelector (target "id: ") = Some ("#" +:+ v)
   /\ Cypress.extractCleanSelector (target "class: ") = Some ("." +:+ v))
  /\ (Playwright.extractCleanSelector (target "name: ")
      = Some ("[name=" +:+ DQ +:+ v +:+ DQ +:+ "]")
      /\ Playwright.extractCleanSelector (target "css selector: ") = Some v
      /\ Playwright.extractCleanSelector (target "xpath: ") = Some ("xpath=" +:+ v)
      /\ Playwright.extractCleanSelector (target "tag name: ") = Some v
      /\ Playwright.extractCleanSelector (target "id: ") = Some ("#" +:+ v)
      /\ Playwright.extractCleanSelector (target "class: ") = Some ("." +:+ v)).
Proof.
  intros Hd Hv target. subst target.
  assert (Hkind : forall (c : ascii) (k : string),
            unbracketed (String c k) = true ->
            JS.match_ false locator_re
              ("[[" +:+ drv +:+ "] -> " +:+ String c k +:+ v +:+ "]")
            = Some [String c (k +:+ v)]).
  { intros c k Hk.
    pose proof (locator_group drv c (k +:+ v) Hd
                  (unbracketed_append (String c k) v Hk Hv)) as E.
    rewrite <- (append_assoc (String c k) v "]"). exact E. }
  unfold Cypress.extractCleanSelector, Playwright.extractCleanSelector,
    Cypress.cleanSelector, Playwright.cleanSelector.
  rewrite !append_cons, !append_empty_l.
  cbn [Value.truthy JS.nonempty negb].
  rewrite <- !append_cons.
  pose proof (Hkind "n"%char "ame: " eq_refl) as E1.
  pose proof (Hkind "c"%char "ss selector: " eq_refl) as E2.
  pose proof (Hkind "x"%char "path: " eq_refl) as E3.
  pose proof (Hkind "t"%char "ag name: " eq_refl) as E4.
  pose proof (Hkind "i"%char "d: " eq_refl) as E5.
  pose proof (Hkind "c"%char "lass: " eq_refl) as E6.
  rewrite !append_cons, !append_empty_l in *.
  rewrite E1, E2, E3, E4, E5, E6.
  repeat split; reflexivity.
Qed.

(** X1, at a driver description and an element id. *)
Lemma locator_kinds_rendered_witness :
  Cypress.extractCleanSelector
    (Str "[[ChromeDriver: chrome on mac (abc)] -> id: submit-button]")
  = Some "#submit-button"
  /\ Playwright.extractCleanSelector
       (Str "[[ChromeDriver: chrome on mac (abc)] -> class: btn]")
     = Some ".btn".
Proof.
  pose proof (locator_kinds_rendered "ChromeDriver: chrome on mac (abc)"
                "submit-button" eq_refl eq_refl) as [Hc _].
  pose proof (locator_kinds_rendered "ChromeDriver: chrome on mac (abc)"
                "btn" eq_refl eq_refl) as [_ Hp].
  split; [apply Hc | apply Hp].
Defined.

(** X2. A locator of a kind that is none of the six, such as a link text,
    is the selector as it stands, kind and value, in both converters. *)
Theorem unknown_locator_kind_kept (drv : string) (c : ascii) (loc : string) :
  unbracketed drv = true ->
  unbracketed (String c loc) = true ->
  JS.startsWith (String c loc) "name: " = false ->
  JS.startsWith (String c loc) "css selector: " = false ->
  JS.startsWith (String c loc) "xpath: " = false ->
  JS.startsWith (String c loc) "tag name: " = false ->
  JS.startsWith (String c loc) "id: " = false ->
  JS.startsWith (String c loc) "class: " = false ->
  Cypress.extractCleanSelector
    (Str ("[[" +:+ drv +:+ "] -> " +:+ String c loc +:+ "]"))
  = Some (String c loc)
  /\ Playwright.extractCleanSelector
       (Str ("[[" +:+ drv +:+ "] -> " +:+ String c loc +:+ "]"))
     = Some (String c loc).
Proof.
  intros Hd Hloc H1 H2 H3 H4 H5 H6.
  pose proof (locator_group drv c loc Hd Hloc) as E.
  unfold Cypress.extractCleanSelector, Playwright.extractCleanSelector,
    Cypress.cleanSelector, Playwright.cleanSelector.
  rewrite !append_cons, !append_empty_l in *.
  cbn [Value.truthy JS.nonempty negb].
  rewrite E. cbn [group1 lookup list_lookup from_option id].
  now rewrite H1, H2, H3, H4, H5, H6.
Qed.

(** X2, at a link located by its text. *)
Lemma unknown_locator_kind_kept_witness :
  Cypress.extractCleanSelector (Str "[[drv] -> link text: Home]")
  = Some "link text: Home"
  /\ Playwright.extractCleanSelector (Str "[[drv] -> link text: Home]")
     = Some "link text: Home".
Proof.
  apply (unknown_locator_kind_kept "drv" "l" "ink text: Home");
    reflexivity.
Defined.

(** X3. A target that has the shape of a URL and no two opening brackets
    in a row comes out with every square bracket removed, in both converters:
    a URL between brackets is unwrapped, and a URL that has brackets of its
    own, such as an IPv6 host, loses them too. *)
Theorem url_target_loses_brackets (target : string) :
  JS.includes target "[[" = false ->
  JS.startsWith target "http" = true \/ JS.startsWith target "[http" = true ->
  (Cypress.extractCleanSelector (Str target) = Some (strip_brackets target)
   /\ Playwright.extractCleanSelector (Str target) = Some (strip_brackets target))
  /\ bracket_free (strip_brackets target) = true
  /\ (forall href : string,
        target = "[" +:+ href +:+ "]" -> bracket_free href = true ->
        strip_brackets target = href).
Proof.
  intros Hno Hurl.
  assert (Hsel : Cypress.cleanSelector target = strip_brackets target
                 /\ Playwright.cleanSelector target = strip_brackets target).
  { unfold Cypress.cleanSelector, Playwright.cleanSelector.
    rewrite (no_double_bracket_no_match target Hno).
    destruct Hurl as [H|H]; rewrite H; [now split|].
    rewrite orb_true_r. now split. }
  destruct Hsel as [Hc Hp].
  assert (Hne : JS.nonempty target = true).
  { destruct target; [|reflexivity]. destruct Hurl; discriminate. }
  split; [|split].
  - unfold Cypress.extractCleanSelector, Playwright.extractCleanSelector.
    cbn [Value.truthy]. rewrite Hne. cbn [negb]. now rewrite Hc, Hp.
  - apply strip_brackets_bracket_free.
  - intros href -> Hfree.
    rewrite !strip_brackets_append, (strip_brackets_id href Hfree).
    cbn. rewrite append_empty_l. apply append_nil_r.
Qed.

(** X3, at a URL between brackets and at a URL with an IPv6 host. *)
Lemma url_target_loses_brackets_witness :
  Cypress.extractCleanSelector (Str "[https://a.test/x]") = Some "https://a.test/x"
  /\ Playwright.extractCleanSelector (Str "http://[::1]:3000/")
     = Some "http://::1:3000/".
Proof.
  pose proof (url_target_loses_brackets "[https://a.test/x]"
                eq_refl (or_intror eq_refl)) as [[Hc _] _].
  pose proof (url_target_loses_brackets "http://[::1]:3000/"
                eq_refl (or_introl eq_refl)) as [[_ Hp] _].
  split; [exact Hc | exact Hp].
Defined.

(** ** The conversion loop *)

Section LoopFacts.
Context {rt : Runtime}.

(** A target that is truthy and not a string makes [convertStep] throw. *)
Lemma Cypress_convertStep_bad_target (event target : value) (language : string)
    (currentOrigin : option string) (history : list (option string)) :
  Value.get event "target" = Some target ->
  Value.truthy target = true ->
  (forall t, target <> Str t) ->
  Cypress.convertStep event language currentOrigin history = None.
Proof.
  intros Ht Htruthy Hstr.
  destruct (get_total _ _ "kind" _ Ht) as [k Hk].
  destruct (get_total _ _ "durationMs" _ Ht) as [d Hd].
  unfold Cypress.convertStep. rewrite Hk, Ht, Hd.
  cbn [mbind option_bind]. unfold Cypress.extractCleanSelector.
  rewrite Htruthy. cbn [negb].
  destruct target; try reflexivity. now destruct (Hstr s).
Qed.

Lemma Playwright_convertStep_bad_target (event target : value) (language : string) :
  Value.get event "target" = Some target ->
  Value.truthy target = true ->
  (forall t, target <> Str t) ->
  Playwright.convertStep event language = None.
Proof.
  intros Ht Htruthy Hstr.
  destruct (get_total _ _ "kind" _ Ht) as [k Hk].
  destruct (get_total _ _ "durationMs" _ Ht) as [d Hd].
  unfold Playwright.convertStep. rewrite Hk, Ht, Hd.
  cbn [mbind option_bind]. unfold Playwright.extractCleanSelector.
  rewrite Htruthy. cbn [negb].
  destruct target; try reflexivity. now destruct (Hstr s).
Qed.

(** What the loops do with a completed step of a supported kind on which
    [convertStep] throws: the step is counted and nothing else happens. *)
Lemma Cypress_thrown_event (language : string) (event : value) (kind : string)
    (s : Cypress.state) :
  Value.get event "evt" = Some (Str "step.ok") ->
  Value.get event "kind" = Some (Str kind) ->
  In kind (Cypress.supportedActions Cypress.new) ->
  Cypress.convertStep event language
    (Cypress.currentOrigin s) (Cypress.navigationHistory s) = None ->
  Cypress.processEvent Cypress.new language event s
  = Cypress.on_stats incr_total (Cypress.on_stats (count_kind kind) s).
Proof.
  intros Hevt Hkind Hin Hstep.
  unfold Cypress.processEvent. rewrite Hevt, Hkind.
  change (Value.is_string (Str "step.ok") "step.ok") with true.
  cbn [from_option id Value.toString Value.is_string].
  assert (Hsup : Value.in_set (Cypress.supportedActions Cypress.new) (Str kind) = true).
  { repeat destruct Hin as [<-|Hin]; try reflexivity. destruct Hin. }
  rewrite Hsup, (supported_not_autoHandled _ Hsup). cbn [negb].
  cbn [Cypress.currentOrigin Cypress.navigationHistory Cypress.on_stats].
  now rewrite Hstep.
Qed.

Lemma Playwright_thrown_event (language : string) (event : value) (kind : string)
    (s : Playwright.state) :
  Value.get event "evt" = Some (Str "step.ok") ->
  Value.get event "kind" = Some (Str kind) ->
  In kind (Playwright.supportedActions Playwright.new) ->
  Playwright.convertStep event language = None ->
  Playwright.processEvent Playwright.new language event s
  = Playwright.on_stats (count_kind kind) (Playwright.on_stats incr_total s).
Proof.
  intros Hevt Hkind Hin Hstep.
  unfold Playwright.processEvent. rewrite Hevt, Hkind.
  change (Value.is_string (Str "step.ok") "step.ok") with true.
  cbn [from_option id Value.toString Value.is_string].
  assert (Hsup : Value.in_set (Playwright.supportedActions Playwright.new) (Str kind) = true).
  { repeat destruct Hin as [<-|Hin]; try reflexivity. destruct Hin. }
  now rewrite Hsup, Hstep.
Qed.

(** One event appends nothing or one fragment. *)
Lemma Cypress_event_appends (this : Cypress.instance) (language : string)
    (event : value) (s : Cypress.state) :
  exists more,
    Cypress.steps (Cypress.processEvent this language event s) = Cypress.steps s ++ more
    /\ (length more <= 1)%nat.
Proof.
  unfold Cypress.processEvent.
  repeat case_match; project_state;
    first [ exists []; split; [now rewrite app_nil_r | simpl; lia]
          | eexists [_]; split; [reflexivity | simpl; lia] ].
Qed.

Lemma Playwright_event_appends (this : Playwright.instance) (language : string)
    (event : value) (s : Playwright.state) :
  exists more,
    Playwright.steps (Playwright.processEvent this language event s)
    = Playwright.steps s ++ more
    /\ (length more <= 1)%nat.
Proof.
  unfold Playwright.processEvent.
  repeat case_match; project_state;
    first [ exists []; split; [now rewrite app_nil_r | simpl; lia]
          | eexists [_]; split; [reflexivity | simpl; lia] ].
Qed.

Lemma Cypress_loop_appends (this : Cypress.instance) (language : string)
    (lines : list string) (s : Cypress.state) :
  exists more,
    Cypress.steps (fold_left (Cypress.processLine this language) lines s)
    = Cypress.steps s ++ more
    /\ (length more <= length lines)%nat.
Proof.
  revert s. induction lines as [|line lines IH]; intros s.
  - exists []. split; [now rewrite app_nil_r | simpl; lia].
  - cbn [fold_left].
    destruct (IH (Cypress.processLine this language s line)) as (more & -> & Hlen).
    unfold Cypress.processLine.
    destruct (JSON_parse line) as [event|].
    + destruct (Cypress_event_appends this language event s) as (one & -> & Hone).
      exists (one ++ more). rewrite app_assoc, length_app. split; [reflexivity|].
      simpl; lia.
    + exists more. split; [reflexivity | simpl; lia].
Qed.

Lemma Playwright_loop_appends (this : Playwright.instance) (language : string)
    (lines : list string) (s : Playwright.state) :
  exists more,
    Playwright.steps (fold_left (Playwright.processLine this language) lines s)
    = Playwright.steps s ++ more
    /\ (length more <= length lines)%nat.
Proof.
  revert s. induction lines as [|line lines IH]; intros s.
  - exists []. split; [now rewrite app_nil_r | simpl; lia].
  - cbn [fold_left].
    destruct (IH (Playwright.processLine this language s line)) as (more & -> & Hlen).
    unfold Playwright.processLine.
    destruct (JSON_parse line) as [event|].
    + destruct (Playwright_event_appends this language event s) as (one & -> & Hone).
      exists (one ++ more). rewrite app_assoc, length_app. split; [reflexivity|].
      simpl; lia.
    + exists more. split; [reflexivity | simpl; lia].
Qed.

Lemma Cypress_event_accounted (this : Cypress.instance) (language : string)
    (event : value) (s : Cypress.state) :
  0 <= skippedActions (Cypress.stats_of s) ->
  accounted (Cypress.steps s) (Cypress.stats_of s) ->
  let s' := Cypress.processEvent this language event s in
  0 <= skippedActions (Cypress.stats_of s')
  /\ accounted (Cypress.steps s') (Cypress.stats_of s').
Proof.
  unfold accounted, Cypress.processEvent. intros H0 H.
  repeat case_match; project_state; rewrite ?length_app; simpl; lia.
Qed.

Lemma Playwright_event_accounted (this : Playwright.instance) (language : string)
    (event : value) (s : Playwright.state) :
  0 <= skippedActions (Playwright.stats_of s) ->
  accounted (Playwright.steps s) (Playwright.stats_of s) ->
  let s' := Playwright.processEvent this language event s in
  0 <= skippedActions (Playwright.stats_of s')
  /\ accounted (Playwright.steps s') (Playwright.stats_of s').
Proof.
  unfold accounted, Playwright.processEvent. intros H0 H.
  repeat case_match; project_state; rewrite ?length_app; simpl; lia.
Qed.

Lemma Cypress_loop_accounted (this : Cypress.instance) (language : string)
    (lines : list string) (s : Cypress.state) :
  0 <= skippedActions (Cypress.stats_of s) ->
  accounted (Cypress.steps s) (Cypress.stats_of s) ->
  let s' := fold_left (Cypress.processLine this language) lines s in
  0 <= skippedActions (Cypress.stats_of s')
  /\ accounted (Cypress.steps s') (Cypress.stats_of s').
Proof.
  revert s. induction lines as [|line lines IH]; intros s H0 H; [now split|].
  cbn [fold_left].
  assert (Hs : 0 <= skippedActions (Cypress.stats_of (Cypress.processLine this language s line))
               /\ accounted (Cypress.steps (Cypress.processLine this language s line))
                    (Cypress.stats_of (Cypress.processLine this language s line))).
  { unfold Cypress.processLine. destruct (JSON_parse line) as [event|]; [|now split].
    now apply Cypress_event_accounted. }
  destruct Hs as [H0' H']. now apply IH.
Qed.

Lemma Playwright_loop_accounted (this : Playwright.instance) (language : string)
    (lines : list string) (s : Playwright.state) :
  0 <= skippedActions (Playwright.stats_of s) ->
  accounted (Playwright.steps s) (Playwright.stats_of s) ->
  let s' := fold_left (Playwright.processLine this language) lines s in
  0 <= skippedActions (Playwright.stats_of s')
  /\ accounted (Playwright.steps s') (Playwright.stats_of s').
Proof.
  revert s. induction lines as [|line lines IH]; intros s H0 H; [now split|].
  cbn [fold_left].
  assert (Hs : 0 <= skippedActions (Playwright.stats_of (Playwright.processLine this language s line))
               /\ accounted (Playwright.steps (Playwright.processLine this language s line))
                    (Playwright.stats_of (Playwright.processLine this language s line))).
  { unfold Playwright.processLine. destruct (JSON_parse line) as [event|]; [|now split].
    now apply Playwright_event_accounted. }
  destruct Hs as [H0' H']. now apply IH.
Qed.

End LoopFacts.

Section LoopCounts.
Context {rt : Runtime}.

Lemma Playwright_line_total (this : Playwright.instance) (language line : string)
    (s : Playwright.state) :
  totalActions (Playwright.stats_of (Playwright.processLine this language s line))
  = totalActions (Playwright.stats_of s) + (if is_completed_step line then 1 else 0).
Proof.
  unfold Playwright.processLine, is_completed_step, Playwright.processEvent.
  repeat case_match; project_state; try discriminate; lia.
Qed.

Lemma Cypress_line_total (this : Cypress.instance) (language line : string)
    (s : Cypress.state) :
  totalActions (Cypress.stats_of s)
  <= totalActions (Cypress.stats_of (Cypress.processLine this language s line))
  <= totalActions (Cypress.stats_of s) + (if is_completed_step line then 1 else 0).
Proof.
  unfold Cypress.processLine, is_completed_step, Cypress.processEvent.
  repeat case_match; project_state; try discriminate; lia.
Qed.

Lemma Server_line_total (line : string) (s : Server.state) :
  Server.totalSteps (Server.analyzeLine s line)
  = Server.totalSteps s + (if is_completed_step line then 1 else 0).
Proof.
  unfold Server.analyzeLine, is_completed_step, Server.analyzeEvent.
  repeat case_match; project_state; try discriminate; lia.
Qed.

(** A line that is not a completed step leaves the loops where they were. *)
Lemma Cypress_line_ignored (this : Cypress.instance) (language line : string)
    (s : Cypress.state) :
  is_completed_step line = false -> Cypress.processLine this language s line = s.
Proof.
  unfold Cypress.processLine, is_completed_step, Cypress.processEvent.
  destruct (JSON_parse line) as [event|]; [|reflexivity].
  destruct (Value.get event "evt") as [evt|]; [|reflexivity].
  now intros ->.
Qed.

Lemma Playwright_line_ignored (this : Playwright.instance) (language line : string)
    (s : Playwright.state) :
  is_completed_step line = false -> Playwright.processLine this language s line = s.
Proof.
  unfold Playwright.processLine, is_completed_step, Playwright.processEvent.
  destruct (JSON_parse line) as [event|]; [|reflexivity].
  destruct (Value.get event "evt") as [evt|]; [|reflexivity].
  now intros ->.
Qed.

Lemma extractOrigin_not_empty (href : string) :
  Cypress.extractOrigin href <> Some EmptyString.
Proof.
  unfold Cypress.extractOrigin.
  destruct (JS.nonempty href); [|discriminate].
  destruct (URL_parse href) as [[protocol host]|]; [|discriminate].
  destruct protocol; discriminate.
Qed.

Lemma Cypress_event_navigation (this : Cypress.instance) (language : string)
    (event : value) (s : Cypress.state) :
  navigation_ok s -> navigation_ok (Cypress.processEvent this language event s).
Proof.
  unfold navigation_ok, Cypress.processEvent. intros (Hcur & Hall & Hlen).
  repeat case_match; project_state;
    rewrite ?last_snoc, ?length_app, ?Forall_app, ?Forall_singleton;
    repeat split; try assumption; try (simpl; lia);
    try reflexivity; apply extractOrigin_not_empty.
Qed.

Lemma Cypress_loop_navigation (this : Cypress.instance) (language : string)
    (lines : list string) (s : Cypress.state) :
  navigation_ok s ->
  navigation_ok (fold_left (Cypress.processLine this language) lines s).
Proof.
  revert s. induction lines as [|line lines IH]; intros s H; [exact H|].
  cbn [fold_left]. apply IH. unfold Cypress.processLine.
  destruct (JSON_parse line); [now apply Cypress_event_navigation | exact H].
Qed.

End LoopCounts.

(** X4. A completed step of a supported kind whose target is truthy and
    not a string (a number, [true], an array, an object) makes [convertStep]
    throw inside the [try] block: both converters count the step in
    [totalActions], leave [convertedActions] and [skippedActions] as they
    were and emit no fragment for it. *)
Theorem non_string_target_is_dropped
    (rt : Runtime) (language : string) (event target : value) (kind : string)
    (sc : Cypress.state) (sp : Playwright.state) :
  Value.get event "evt" = Some (Str "step.ok") ->
  Value.get event "kind" = Some (Str kind) ->
  In kind (Cypress.supportedActions Cypress.new) ->
  Value.get event "target" = Some target ->
  Value.truthy target = true ->
  (forall t, target <> Str t) ->
  (let s' := Cypress.processEvent Cypress.new language event sc in
   Cypress.steps s' = Cypress.steps sc
   /\ totalActions (Cypress.stats_of s') = totalActions (Cypress.stats_of sc) + 1
   /\ convertedActions (Cypress.stats_of s') = convertedActions (Cypress.stats_of sc)
   /\ skippedActions (Cypress.stats_of s') = skippedActions (Cypress.stats_of sc))
  /\ (let s' := Playwright.processEvent Playwright.new language event sp in
      Playwright.steps s' = Playwright.steps sp
      /\ totalActions (Playwright.stats_of s') = totalActions (Playwright.stats_of sp) + 1
      /\ convertedActions (Playwright.stats_of s')
         = convertedActions (Playwright.stats_of sp)
      /\ skippedActions (Playwright.stats_of s')
         = skippedActions (Playwright.stats_of sp)).
Proof.
  intros Hevt Hkind Hin Ht Htruthy Hstr. split; cbv zeta.
  - rewrite (Cypress_thrown_event language event kind sc Hevt Hkind Hin
               (Cypress_convertStep_bad_target event target language _ _
                  Ht Htruthy Hstr)).
    project_state. repeat split.
  - rewrite (Playwright_thrown_event language event kind sp Hevt Hkind).
    + project_state. repeat split.
    + repeat destruct Hin as [<-|Hin]; simpl; auto 12.
    + exact (Playwright_convertStep_bad_target event target language
               Ht Htruthy Hstr).
Qed.

(** X4, at a click whose target is a number. *)
Lemma non_string_target_is_dropped_witness :
  let event := Object [("evt", Str "step.ok"); ("kind", Str "click");
                       ("target", Number "7")] in
  (let s' := Cypress.processEvent (rt := Sample.runtime) Cypress.new "javascript"
               event Cypress.initial in
   Cypress.steps s' = []
   /\ totalActions (Cypress.stats_of s') = 0 + 1
   /\ convertedActions (Cypress.stats_of s') = 0
   /\ skippedActions (Cypress.stats_of s') = 0)
  /\ (let s' := Playwright.processEvent Playwright.new "javascript"
                  event Playwright.initial in
      Playwright.steps s' = []
      /\ totalActions (Playwright.stats_of s') = 0 + 1
      /\ convertedActions (Playwright.stats_of s') = 0
      /\ skippedActions (Playwright.stats_of s') = 0).
Proof.
  intros event.
  apply (non_string_target_is_dropped Sample.runtime "javascript" event
           (Number "7") "click" Cypress.initial Playwright.initial);
    try reflexivity; [simpl; auto | discriminate].
Defined.

(** X6. After any lines, in both converters, no fewer fragments are
    emitted than steps are counted as converted, and no more than are counted
    as converted or skipped. *)
Theorem fragments_are_accounted
    (rt : Runtime) (this_c : Cypress.instance) (this_p : Playwright.instance)
    (language : string) (lines : list string) :
  (let s := Cypress.run this_c language lines in
   convertedActions (Cypress.stats_of s) <= Z.of_nat (length (Cypress.steps s))
   /\ Z.of_nat (length (Cypress.steps s))
      <= convertedActions (Cypress.stats_of s) + skippedActions (Cypress.stats_of s))
  /\ (let s := Playwright.run this_p language lines in
      convertedActions (Playwright.stats_of s) <= Z.of_nat (length (Playwright.steps s))
      /\ Z.of_nat (length (Playwright.steps s))
         <= convertedActions (Playwright.stats_of s)
            + skippedActions (Playwright.stats_of s)).
Proof.
  split; cbv zeta.
  - apply (Cypress_loop_accounted this_c language lines Cypress.initial);
      unfold accounted; simpl; lia.
  - apply (Playwright_loop_accounted this_p language lines Playwright.initial);
      unfold accounted; simpl; lia.
Qed.

(** X7. The Playwright converter's [totalActions] is the number of lines
    that decode to a completed step; the Cypress converter's is at most that
    number and never negative. *)
Theorem completed_steps_are_counted
    (rt : Runtime) (this_c : Cypress.instance) (this_p : Playwright.instance)
    (language : string) (lines : list string) :
  totalActions (Playwright.stats_of (Playwright.run this_p language lines))
  = Z.of_nat (length (List.filter is_completed_step lines))
  /\ 0 <= totalActions (Cypress.stats_of (Cypress.run this_c language lines))
     <= Z.of_nat (length (List.filter is_completed_step lines)).
Proof.
  split.
  - unfold Playwright.run.
    assert (H : forall s,
              totalActions
                (Playwright.stats_of
                   (fold_left (Playwright.processLine this_p language) lines s))
              = totalActions (Playwright.stats_of s)
                + Z.of_nat (length (List.filter is_completed_step lines))).
    { induction lines as [|line lines IH]; intros s; [simpl; lia|].
      cbn [fold_left List.filter]. rewrite IH, Playwright_line_total.
      destruct (is_completed_step line); simpl length; lia. }
    rewrite H. simpl. lia.
  - unfold Cypress.run.
    assert (H : forall s,
              totalActions (Cypress.stats_of s)
              <= totalActions
                   (Cypress.stats_of
                      (fold_left (Cypress.processLine this_c language) lines s))
              <= totalActions (Cypress.stats_of s)
                 + Z.of_nat (length (List.filter is_completed_step lines))).
    { induction lines as [|line lines IH]; intros s; [simpl; lia|].
      cbn [fold_left List.filter].
      pose proof (IH (Cypress.processLine this_c language s line)) as H1.
      pose proof (Cypress_line_total this_c language line s) as H2.
      destruct (is_completed_step line); simpl length; lia. }
    specialize (H Cypress.initial). simpl in H. lia.
Qed.

(** X8. A trace none of whose lines decodes to a completed step, the empty
    trace among them, converts to the document without any fragment and to
    statistics that are all zero, in both converters. *)
Theorem no_completed_step_no_fragment
    (rt : Runtime) (this_c : Cypress.instance) (this_p : Playwright.instance)
    (traceContent language : string) :
  forallb (fun line => negb (is_completed_step line)) (Cypress.lines_of traceContent)
  = true ->
  Cypress.convert this_c traceContent language
  = ({| content := Cypress.generateTestFile [] language;
        filename := Cypress.getFilename language;
        result_stats := new_stats |}, this_c)
  /\ Playwright.convert this_p traceContent language
     = ({| content := Playwright.generateTestFile [] language;
           filename := Playwright.getFilename language;
           result_stats := new_stats |}, this_p).
Proof.
  intros H.
  assert (Hc : forall s,
            fold_left (Cypress.processLine this_c language)
              (Cypress.lines_of traceContent) s = s).
  { revert H. generalize (Cypress.lines_of traceContent) as lines.
    induction lines as [|line lines IH]; intros H s; [reflexivity|].
    cbn [forallb] in H. apply andb_true_iff in H as [Hl H].
    apply negb_true_iff in Hl.
    cbn [fold_left]. rewrite (Cypress_line_ignored this_c language line s Hl).
    now apply IH. }
  assert (Hp : forall s,
            fold_left (Playwright.processLine this_p language)
              (Playwright.lines_of traceContent) s = s).
  { change (Playwright.lines_of traceContent) with (Cypress.lines_of traceContent).
    revert H. generalize (Cypress.lines_of traceContent) as lines.
    induction lines as [|line lines IH]; intros H s; [reflexivity|].
    cbn [forallb] in H. apply andb_true_iff in H as [Hl H].
    apply negb_true_iff in Hl.
    cbn [fold_left]. rewrite (Playwright_line_ignored this_p language line s Hl).
    now apply IH. }
  unfold Cypress.convert, Playwright.convert, Cypress.run, Playwright.run.
  now rewrite Hc, Hp.
Qed.

(** X8, at a trace of a failed step and a line of noise. *)
Lemma no_completed_step_no_fragment_witness :
  let failed := "{" +:+ DQ +:+ "evt" +:+ DQ +:+ ":" +:+ DQ +:+ "step.fail" +:+ DQ +:+ ","
                  +:+ DQ +:+ "kind" +:+ DQ +:+ ":" +:+ DQ +:+ "click" +:+ DQ +:+ "}" in
  let trace := failed +:+ NL +:+ "noise" +:+ NL in
  result_stats (fst (Cypress.convert (rt := Sample.runtime) Cypress.new trace "javascript"))
  = new_stats
  /\ result_stats
       (fst (Playwright.convert (rt := Sample.runtime) Playwright.new trace "python"))
     = new_stats.
Proof.
  intros failed trace.
  pose proof (no_completed_step_no_fragment Sample.runtime Cypress.new Playwright.new
                trace "javascript" eq_refl) as [Hc _].
  pose proof (no_completed_step_no_fragment Sample.runtime Cypress.new Playwright.new
                trace "python" eq_refl) as [_ Hp].
  now rewrite Hc, Hp.
Defined.

(** X9. The fragments follow the trace: in both converters the fragments
    of a trace continued by more lines are the fragments of the trace itself
    followed by at most one fragment for each further line. *)
Theorem fragments_follow_the_trace
    (rt : Runtime) (this_c : Cypress.instance) (this_p : Playwright.instance)
    (language : string) (lines further : list string) :
  (exists more,
     Cypress.steps (Cypress.run this_c language (lines ++ further))
     = Cypress.steps (Cypress.run this_c language lines) ++ more
     /\ (length more <= length further)%nat)
  /\ (exists more,
        Playwright.steps (Playwright.run this_p language (lines ++ further))
        = Playwright.steps (Playwright.run this_p language lines) ++ more
        /\ (length more <= length further)%nat).
Proof.
  unfold Cypress.run, Playwright.run. rewrite !fold_left_app. split.
  - apply Cypress_loop_appends.
  - apply Playwright_loop_appends.
Qed.

(** X10. After any lines the navigation record of the Cypress converter is
    coherent: the current origin is the last entry of the history ([null]
    while the history is empty), no entry is an empty string and there are no
    more entries than converted steps. So the fragment of a later
    [Navigation.back] is the disabled action exactly when the history has two
    entries or more, the one before the last is an origin and the last one
    differs from it. *)
Theorem navigation_record_is_coherent
    (rt : Runtime) (this : Cypress.instance) (language : string) (lines : list string) :
  let s := Cypress.run this language lines in
  navigation_ok s
  /\ forall (event target : value) (selector : string),
       Value.get event "kind" = Some (Str "Navigation.back") ->
       Value.get event "target" = Some target ->
       Cypress.extractCleanSelector target = Some selector ->
       exists f,
         Cypress.convertStep event language
           (Cypress.currentOrigin s) (Cypress.navigationHistory s) = Some f
         /\ (f = Cypress.back_skipped <->
             exists earlier previousOrigin last_entry,
               Cypress.navigationHistory s
               = earlier ++ [Some previousOrigin; last_entry]
               /\ last_entry <> Some previousOrigin).
Proof.
  intros s.
  assert (Hok : navigation_ok s).
  { apply Cypress_loop_navigation. unfold navigation_ok. simpl.
    repeat split; [constructor | lia]. }
  split; [exact Hok|].
  intros event target selector Hk Ht Hs.
  destruct (Cypress_back_fragment event target selector language
              (Cypress.currentOrigin s) (Cypress.navigationHistory s) Hk Ht Hs)
    as (f & Hf & _ & Hiff).
  exists f. split; [exact Hf|]. rewrite Hiff.
  destruct Hok as (Hcur & Hall & _).
  clear Hf Hiff. revert Hcur Hall.
  generalize (Cypress.navigationHistory s) as history.
  generalize (Cypress.currentOrigin s) as current.
  intros current history Hcur Hall. subst current.
  destruct history as [|x history] using rev_ind.
  { split; [simpl; intros [? _]; lia|].
    intros (earlier & p & l & Heq & _). now destruct earlier as [|? [|? ?]]. }
  clear IHhistory.
  destruct history as [|y history] using rev_ind.
  { split; [simpl; intros [? _]; lia|].
    intros (earlier & p & l & Heq & _).
    destruct earlier as [|? [|? ?]]; discriminate. }
  clear IHhistory.
  rewrite last_snoc. cbn [from_option id].
  rewrite !length_app. cbn [length].
  replace (length history + 1 + 1 - 2)%nat with (length history) by lia.
  rewrite <- app_assoc. cbn [app].
  rewrite lookup_app_r by lia. rewrite Nat.sub_diag. cbn [lookup list_lookup].
  split.
  - intros (_ & prev & Hprev & _ & Hdiff).
    injection Hprev as ->.
    exists history, prev, x. split; [reflexivity|]. congruence.
  - intros (earlier & prev & l & Heq & Hdiff).
    change [Some prev; l] with ([Some prev] ++ [l]) in Heq.
    change [y; x] with ([y] ++ [x]) in Heq.
    rewrite !app_assoc in Heq.
    apply app_inj_tail in Heq as [Heq ->].
    apply app_inj_tail in Heq as [_ ->].
    split; [lia|]. exists prev. split; [reflexivity|].
    split; [|congruence].
    rewrite Forall_app in Hall. destruct Hall as [Hall _].
    rewrite Forall_app, Forall_singleton in Hall. destruct Hall as [_ Hy].
    intros ->. now apply Hy.
Qed.

(** X10, after two visits of different origins on the sample runtime. *)
Lemma navigation_record_is_coherent_witness :
  let s := Cypress.run (rt := Sample.runtime) Cypress.new "javascript"
             [Sample.line "get" "https://a.test/x"; Sample.line "get" "https://b.test/y"] in
  navigation_ok s
  /\ exists f,
       Cypress.convertStep (rt := Sample.runtime)
         (step_ok "Navigation.back" EmptyString) "javascript"
         (Cypress.currentOrigin s) (Cypress.navigationHistory s) = Some f
       /\ (f = Cypress.back_skipped <->
           exists earlier previousOrigin last_entry,
             Cypress.navigationHistory s = earlier ++ [Some previousOrigin; last_entry]
             /\ last_entry <> Some previousOrigin).
Proof.
  intros s.
  destruct (navigation_record_is_coherent Sample.runtime Cypress.new "javascript"
              [Sample.line "get" "https://a.test/x"; Sample.line "get" "https://b.test/y"])
    as [Hok Hback].
  split; [exact Hok|].
  apply (Hback (step_ok "Navigation.back" EmptyString) (Str EmptyString) EmptyString);
    reflexivity.
Defined.

(** ** Selection in a dropdown *)

Section Dropdown.

Lemma includes_append_r (u v sub : string) :
  JS.includes v sub = true -> JS.includes (u +:+ v) sub = true.
Proof.
  intros H. induction u as [|c u IH]; [exact H|].
  rewrite append_cons. cbn [JS.includes]. rewrite IH. apply orb_true_r.
Qed.

(** The lazy plus before a literal captures up to the first character the
    literal starts with. *)
Lemma lazy_plus_until (a : ascii) (lit : string) (c : ascii) (w t : string) :
  free_of a (String c w) = true ->
  JS.lazy_plus (JS.exec_here [JS.Lit (String a lit)])
    (String c w +:+ String a lit +:+ t)
  = Some [String c w].
Proof.
  unfold free_of. revert c. induction w as [|d w IH]; intros c H.
  - cbn [all_chars] in H. apply andb_true_iff in H as [H _].
    apply andb_true_iff in H as [_ Hl]. apply negb_true_iff in Hl.
    rewrite append_cons, append_empty_l. cbn [JS.lazy_plus]. rewrite Hl.
    now rewrite exec_here_lit, strip_prefix_append.
  - cbn [all_chars] in H. apply andb_true_iff in H as [Hc Hw].
    apply andb_true_iff in Hc as [_ Hl]. apply negb_true_iff in Hl.
    assert (Hd : Ascii.eqb a d = false).
    { cbn [all_chars] in Hw. apply andb_true_iff in Hw as [Hd _].
      apply andb_true_iff in Hd as [Hd _]. apply negb_true_iff in Hd.
      now rewrite Ascii.eqb_sym. }
    specialize (IH d Hw).
    rewrite append_cons. cbn [JS.lazy_plus]. rewrite Hl, IH.
    rewrite append_cons, exec_here_lit. cbn [JS.strip_prefix]. now rewrite Hd.
Qed.

(** The search for a pattern that starts with a literal passes over text
    without the first character of the literal. *)
Lemma exec_from_skip (a : ascii) (lit : string) (re : list JS.atom) (u s : string) :
  all_chars (fun x => negb (Ascii.eqb x a)) u = true ->
  JS.exec_from (JS.Lit (String a lit) :: re) (u +:+ s)
  = JS.exec_from (JS.Lit (String a lit) :: re) s.
Proof.
  induction u as [|x u IH]; intros H; [reflexivity|].
  cbn [all_chars] in H. apply andb_true_iff in H as [Hx Hu].
  apply negb_true_iff in Hx. rewrite Ascii.eqb_sym in Hx.
  rewrite append_cons. cbn [JS.exec_from].
  rewrite exec_here_lit. cbn [JS.strip_prefix]. rewrite Hx.
  now apply IH.
Qed.

(** A match at the start is the match of the search. *)
Lemma exec_from_found (re : list JS.atom) (s : string) (groups : list string) :
  JS.exec_here re s = Some groups -> JS.exec_from re s = Some groups.
Proof. intros H. destruct s; cbn [JS.exec_from]; now rewrite H. Qed.

Lemma one_word_no_colon (s : string) :
  one_word s = true -> all_chars (fun x => negb (Ascii.eqb x ":")) s = true.
Proof.
  unfold one_word. induction s as [|c s IH]; [reflexivity|].
  cbn [all_chars]. intros H. apply andb_true_iff in H as [Hc Hs].
  apply andb_true_iff in Hc as [Hc _]. apply andb_true_iff in Hc as [_ Hc].
  now rewrite Hc, (IH Hs).
Qed.

Lemma one_word_no_space (s : string) :
  one_word s = true -> free_of " " s = true.
Proof.
  unfold one_word, free_of. induction s as [|c s IH]; [reflexivity|].
  cbn [all_chars]. intros H. apply andb_true_iff in H as [Hc Hs].
  apply andb_true_iff in Hc as [Hc Hl]. apply andb_true_iff in Hc as [Hc _].
  now rewrite Hc, Hl, (IH Hs).
Qed.

(** The two patterns of the dropdown case on a selector made of a parent,
    [option] and a text. *)
Lemma dropdown_patterns (c d : ascii) (parent text : string) :
  one_word (String c parent) = true ->
  free_of JS.dquote (String d text) = true ->
  let selector := String c parent +:+ " option:has-text(" +:+ DQ
                    +:+ String d text +:+ DQ +:+ ")" in
  JS.includes selector "option" = true
  /\ JS.includes selector ":has-text(" = true
  /\ JS.match_ true parent_re selector = Some [String c parent]
  /\ JS.match_ false has_text_re selector = Some [String d text].
Proof.
  intros Hp Ht selector. subst selector.
  split; [apply includes_append_r; reflexivity|].
  split; [apply includes_append_r; reflexivity|].
  split.
  - unfold JS.match_, parent_re. rewrite exec_here_plus.
    exact (lazy_plus_until " " "option" c parent
             (":has-text(" +:+ DQ +:+ String d text +:+ DQ +:+ ")")
             (one_word_no_space _ Hp)).
  - unfold JS.match_, has_text_re.
    change (String c parent +:+ " option:has-text(" +:+ DQ
              +:+ String d text +:+ DQ +:+ ")")
      with (String c parent +:+ " option"
              +:+ (":has-text(" +:+ DQ) +:+ String d text +:+ DQ +:+ ")").
    rewrite <- (append_assoc (String c parent) " option").
    change (":has-text(" +:+ DQ) with (String ":" ("has-text(" +:+ DQ)).
    rewrite exec_from_skip.
    + apply exec_from_found.
      rewrite exec_here_lit, strip_prefix_append, exec_here_plus.
      pose proof (lazy_plus_until JS.dquote ")" d text EmptyString Ht) as E.
      change (String JS.dquote ")" +:+ EmptyString) with (DQ +:+ ")") in E.
      change (JS.Lit (DQ +:+ ")")) with (JS.Lit (String JS.dquote ")")).
      now rewrite E.
    + rewrite all_chars_append, (one_word_no_colon _ Hp). reflexivity.
Qed.

End Dropdown.

(** X11. A click whose selector is a parent (one word), [option] and
    [:has-text] with a text in double quotes becomes, in the Cypress
    converter, a selection of that text on the parent. In the Playwright
    converter [generateSelectOption] throws on the label object it is given,
    whatever the language, so the step yields no fragment. *)
Theorem dropdown_selection
    (rt : Runtime) (event target : value) (language : string)
    (currentOrigin : option string) (history : list (option string))
    (c d : ascii) (parent text : string) :
  one_word (String c parent) = true ->
  free_of JS.dquote (String d text) = true ->
  let selector := String c parent +:+ " option:has-text(" +:+ DQ
                    +:+ String d text +:+ DQ +:+ ")" in
  Value.get event "kind" = Some (Str "click") ->
  Value.get event "target" = Some target ->
  Cypress.extractCleanSelector target = Some selector ->
  Cypress.convertStep event language currentOrigin history
  = Some {| action := "cy.get(" +:+ quoted (String c parent) +:+ ").select("
                        +:+ quoted (String d text) +:+ ")";
            comment := "Select option by text";
            url := None; origin := None |}
  /\ Playwright.convertStep event language = None.
Proof.
  intros Hp Ht selector Hk Htarget Hsel.
  destruct (dropdown_patterns c d parent text Hp Ht) as (H1 & H2 & H3 & H4).
  fold selector in H1, H2, H3, H4.
  destruct (get_total _ _ "durationMs" _ Hk) as [dur Hd].
  split.
  - unfold Cypress.convertStep. rewrite Hk, Htarget, Hd.
    cbn [mbind option_bind]. rewrite Hsel.
    cbn [mbind option_bind Value.is_string].
    change (String.eqb "click" "get") with false.
    change (String.eqb "click" "click") with true. cbv iota.
    rewrite H1, H3, H2, H4. cbn [mbind option_bind group1 lookup list_lookup from_option id].
    unfold quoted. now rewrite !append_assoc.
  - unfold Playwright.convertStep. rewrite Hk, Htarget, Hd.
    cbn [mbind option_bind].
    change (Playwright.extractCleanSelector target)
      with (Cypress.extractCleanSelector target).
    rewrite Hsel. cbn [mbind option_bind Value.is_string].
    change (String.eqb "click" "get") with false.
    change (String.eqb "click" "click") with true. cbv iota.
    rewrite H1, H3, H2, H4. reflexivity.
Qed.

(** X11, at the second option of a select element. *)
Lemma dropdown_selection_witness :
  let event :=
    step_ok "click"
      ("[[drv] -> css selector: select option:has-text(" +:+ DQ +:+ "Two" +:+ DQ +:+ ")]") in
  Cypress.convertStep (rt := Sample.runtime) event "javascript" None []
  = Some {| action := "cy.get(" +:+ quoted "select" +:+ ").select(" +:+ quoted "Two" +:+ ")";
            comment := "Select option by text";
            url := None; origin := None |}
  /\ Playwright.convertStep event "javascript" = None.
Proof.
  intros event.
  apply (dropdown_selection Sample.runtime event
           (Str ("[[drv] -> css selector: select option:has-text("
                   +:+ DQ +:+ "Two" +:+ DQ +:+ ")]"))
           "javascript" None [] "s" "T" "elect" "wo");
    reflexivity.
Defined.

(** ** The code emitter *)

Section Emitter.

Lemma startsWith_append (x t : string) : JS.startsWith (x +:+ t) x = true.
Proof. unfold JS.startsWith. now rewrite strip_prefix_append. Qed.

Lemma includes_here (x t : string) : JS.includes (x +:+ t) x = true.
Proof.
  destruct (x +:+ t) eqn:E; cbn [JS.includes]; rewrite <- E;
    now rewrite startsWith_append.
Qed.

Lemma includes_middle (u x t : string) : JS.includes (u +:+ x +:+ t) x = true.
Proof. apply includes_append_r, includes_here. Qed.

(** A joined list holds each of its pieces. *)
Lemma join_holds_piece {A : Type} (g : A -> string) (sep : string)
    (l : list A) (x : A) :
  In x l -> exists u t, JS.join sep (map g l) = u +:+ g x +:+ t.
Proof.
  induction l as [|a l IH]; intros Hin; [destruct Hin|].
  destruct l as [|b l].
  - destruct Hin as [->|[]]. exists EmptyString, EmptyString.
    cbn. now rewrite append_empty_l, append_nil_r.
  - change (JS.join sep (map g (a :: b :: l)))
      with (g a +:+ sep +:+ JS.join sep (map g (b :: l))).
    destruct Hin as [->|Hin].
    + exists EmptyString, (sep +:+ JS.join sep (map g (b :: l))).
      now rewrite append_empty_l.
    + destruct (IH Hin) as (u & t & ->).
      exists (g a +:+ sep +:+ u), t. now rewrite !append_assoc.
Qed.

Lemma document_holds_piece (head body tail x : string) :
  (exists u t, body = u +:+ x +:+ t) ->
  JS.includes (head +:+ body +:+ tail) x = true.
Proof.
  intros (u & t & ->).
  replace (head +:+ (u +:+ x +:+ t) +:+ tail)
    with ((head +:+ u) +:+ x +:+ (t +:+ tail))
    by now rewrite !append_assoc.
  apply includes_middle.
Qed.

End Emitter.

(** X12. The document holds every fragment: for each fragment of the list
    it is generated from, the comment line and the code line of that fragment
    stand in the document, in the language's comment syntax, in both
    converters and every language. *)
Theorem document_holds_every_fragment
    (steps : list fragment) (language : string) (step : fragment) :
  In step steps ->
  JS.includes (Cypress.generateTestFile steps language) (Cypress_item step) = true
  /\ JS.includes (Playwright.generateTestFile steps language)
       (Playwright_item (if String.eqb language "python" then "#" else "//") step)
     = true.
Proof.
  intros Hin. split.
  - pose proof (join_holds_piece Cypress_item (NL +:+ NL) steps step Hin) as H.
    unfold Cypress.generateTestFile, Cypress.generateTypeScriptTest,
      Cypress.generateJavaScriptTest.
    destruct (String.eqb language "typescript");
      apply document_holds_piece; exact H.
  - unfold Playwright.generateTestFile, Playwright.generatePythonTest,
      Playwright.generateTypeScriptTest, Playwright.generateJavaScriptTest.
    destruct (String.eqb language "python").
    + pose proof (join_holds_piece (Playwright_item "#") (NL +:+ NL) steps step Hin) as H.
      rewrite <- (append_assoc Playwright.Python_imports).
      apply document_holds_piece; exact H.
    + pose proof (join_holds_piece (Playwright_item "//") (NL +:+ NL) steps step Hin) as H.
      destruct (String.eqb language "typescript");
        [rewrite <- (append_assoc Playwright.TypeScript_imports)
        |rewrite <- (append_assoc Playwright.JavaScript_imports)];
        apply document_holds_piece; exact H.
Qed.

(** X12, at the fragment of a click among two. *)
Lemma document_holds_every_fragment_witness :
  let visit := {| action := "cy.visit(" +:+ quoted "https://a.test/x" +:+ ")";
                  comment := "Navigate to https://a.test/x";
                  url := Some "https://a.test/x"; origin := Some "https://a.test" |} in
  let click := {| action := "cy.get(" +:+ quoted "#go" +:+ ").click()";
                  comment := "Click element (12ms)";
                  url := None; origin := None |} in
  JS.includes (Cypress.generateTestFile [visit; click] "typescript") (Cypress_item click)
  = true
  /\ JS.includes (Playwright.generateTestFile [visit; click] "python")
       (Playwright_item "#" click)
     = true.
Proof.
  intros visit click.
  assert (Hin : In click [visit; click]) by (simpl; auto).
  split.
  - exact (proj1 (document_holds_every_fragment [visit; click] "typescript" click Hin)).
  - exact (proj2 (document_holds_every_fragment [visit; click] "python" click Hin)).
Defined.

(** X13. The JavaScript and the TypeScript documents differ in their first
    line only. The Cypress TypeScript document is the JavaScript document
    after the reference directive and an empty line; the two Playwright
    documents are one body after the [require] line and after the [import]
    line. *)
Theorem typescript_differs_in_header (steps : list fragment) :
  Cypress.generateTypeScriptTest steps
  = ("/// <reference types=" +:+ DQ +:+ "cypress" +:+ DQ +:+ " />")
      +:+ NL +:+ NL +:+ Cypress.generateJavaScriptTest steps
  /\ exists body,
       Playwright.generateJavaScriptTest steps
       = "const { test, expect } = require('@playwright/test');" +:+ body
       /\ Playwright.generateTypeScriptTest steps
          = "import { test, expect } from '@playwright/test';" +:+ body.
Proof.
  split.
  - unfold Cypress.generateTypeScriptTest, Cypress.generateJavaScriptTest.
    change Cypress.TypeScript_tail with Cypress.JavaScript_tail.
    change Cypress.TypeScript_head
      with (("/// <reference types=" +:+ DQ +:+ "cypress" +:+ DQ +:+ " />")
              +:+ NL +:+ NL +:+ Cypress.JavaScript_head).
    now rewrite !append_assoc.
  - exists (Playwright.JavaScript_head +:+ Playwright.testBody "//" steps
              +:+ Playwright.JavaScript_tail).
    split; reflexivity.
Qed.

(** ** The upload analysis and the conversion *)

Section Analysis.
Context {rt : Runtime}.

Lemma Playwright_loop_total (this : Playwright.instance) (language : string)
    (lines : list string) (s : Playwright.state) :
  totalActions
    (Playwright.stats_of (fold_left (Playwright.processLine this language) lines s))
  = totalActions (Playwright.stats_of s)
    + Z.of_nat (length (List.filter is_completed_step lines)).
Proof.
  revert s. induction lines as [|line lines IH]; intros s; [simpl; lia|].
  cbn [fold_left List.filter]. rewrite IH, Playwright_line_total.
  destruct (is_completed_step line); simpl length; lia.
Qed.

Lemma Server_loop_total (lines : list string) (s : Server.state) :
  Server.totalSteps (fold_left Server.analyzeLine lines s)
  = Server.totalSteps s + Z.of_nat (length (List.filter is_completed_step lines)).
Proof.
  revert s. induction lines as [|line lines IH]; intros s; [simpl; lia|].
  cbn [fold_left List.filter]. rewrite IH, Server_line_total.
  destruct (is_completed_step line); simpl length; lia.
Qed.

Lemma Server_loop_supported (lines : list string) (s : Server.state) :
  0 <= Server.supportedSteps s <= Server.totalSteps s ->
  0 <= Server.supportedSteps (fold_left Server.analyzeLine lines s)
  <= Server.totalSteps (fold_left Server.analyzeLine lines s).
Proof.
  revert s. induction lines as [|line lines IH]; intros s H; [exact H|].
  cbn [fold_left]. apply IH.
  unfold Server.analyzeLine, Server.analyzeEvent.
  repeat case_match; project_state; lia.
Qed.

(** The Cypress converter converts a step only if the analysis counted it
    as supported. *)
Lemma converted_line_supported (language line : string)
    (sc : Cypress.state) (ss : Server.state) :
  convertedActions (Cypress.stats_of sc) <= Server.supportedSteps ss ->
  convertedActions
    (Cypress.stats_of (Cypress.processLine Cypress.new language sc line))
  <= Server.supportedSteps (Server.analyzeLine ss line).
Proof.
  intros H.
  unfold Cypress.processLine, Server.analyzeLine.
  destruct (JSON_parse line) as [event|]; [|exact H].
  unfold Cypress.processEvent, Server.analyzeEvent.
  destruct (Value.get event "evt") as [evt|]; [|exact H].
  destruct (Value.is_string evt "step.ok"); [|exact H].
  destruct (Value.toString _) as [key|]; [|exact H].
  change Server.supportedActions with (Cypress.supportedActions Cypress.new).
  destruct (Value.in_set (Cypress.supportedActions Cypress.new) _);
    repeat case_match; project_state; lia.
Qed.

Lemma converted_loop_supported (language : string) (lines : list string)
    (sc : Cypress.state) (ss : Server.state) :
  convertedActions (Cypress.stats_of sc) <= Server.supportedSteps ss ->
  convertedActions
    (Cypress.stats_of (fold_left (Cypress.processLine Cypress.new language) lines sc))
  <= Server.supportedSteps (fold_left Server.analyzeLine lines ss).
Proof.
  revert sc ss. induction lines as [|line lines IH]; intros sc ss H; [exact H|].
  cbn [fold_left]. now apply IH, converted_line_supported.
Qed.

Lemma types_ok_empty : types_ok ∅.
Proof. intros kind _. now rewrite lookup_empty. Qed.

(** One count of a kind moves the analysis and a breakdown together. *)
Lemma count_agrees (types : gmap string Server.tally_value)
    (breakdown : gmap string slot) (key : string) :
  tallies_agree types breakdown ->
  tallies_agree (Server.count_type types key) (Breakdown.increment breakdown key).
Proof.
  intros (Ht & Hb & Heq).
  assert (Ht' : types_ok (Server.count_type types key)).
  { intros kind Hfree. specialize (Ht kind Hfree) as Hkind.
    unfold Server.count_type.
    destruct (decide (key = kind)) as [->|Hne].
    - destruct (types !! kind) as [[n|]|] eqn:E.
      + destruct (n =? 0); rewrite lookup_insert_eq; lia.
      + contradiction.
      + rewrite Hfree, lookup_insert_eq. lia.
    - destruct (types !! key) as [[n|]|];
        [destruct (n =? 0)| |destruct (Breakdown.Object_prototype key) as [[?|]|]];
        rewrite ?lookup_insert_ne by assumption; exact Hkind. }
  split; [exact Ht'|]. split; [now apply increment_counts_ok|].
  intros kind Hfree.
  destruct (decide (key = kind)) as [->|Hne].
  - rewrite (increment_tally breakdown kind Hb Hfree), <- (Heq kind Hfree).
    specialize (Ht kind Hfree).
    unfold type_tally, Server.count_type.
    destruct (types !! kind) as [[n|]|] eqn:E.
    + destruct (n =? 0) eqn:E0; rewrite lookup_insert_eq; lia.
    + contradiction.
    + rewrite Hfree, lookup_insert_eq. lia.
  - assert (Hb' : Breakdown.increment breakdown key !! kind = breakdown !! kind).
    { unfold Breakdown.increment, Breakdown.assign.
      destruct (String.eqb key "__proto__"); [reflexivity|].
      now rewrite lookup_insert_ne. }
    assert (Ht'' : Server.count_type types key !! kind = types !! kind).
    { unfold Server.count_type.
      destruct (types !! key) as [[n|]|];
        [destruct (n =? 0)| |destruct (Breakdown.Object_prototype key) as [[?|]|]];
        rewrite ?lookup_insert_ne by assumption; reflexivity. }
    specialize (Heq kind Hfree).
    unfold tally, type_tally in *. now rewrite Hb', Ht''.
Qed.

Lemma analysis_line_agrees_Cypress (this : Cypress.instance) (language line : string)
    (sc : Cypress.state) (ss : Server.state) :
  tallies_agree (Server.actionTypes ss) (actionBreakdown (Cypress.stats_of sc)) ->
  tallies_agree (Server.actionTypes (Server.analyzeLine ss line))
    (actionBreakdown (Cypress.stats_of (Cypress.processLine this language sc line))).
Proof.
  intros H.
  unfold Cypress.processLine, Server.analyzeLine.
  destruct (JSON_parse line) as [event|]; [|exact H].
  unfold Cypress.processEvent, Server.analyzeEvent.
  destruct (Value.get event "evt") as [evt|]; [|exact H].
  destruct (Value.is_string evt "step.ok"); [|exact H].
  destruct (Value.toString _) as [key|]; [|exact H].
  pose proof (count_agrees _ _ key H) as H'.
  repeat case_match; project_state; exact H'.
Qed.

Lemma analysis_line_agrees_Playwright (this : Playwright.instance)
    (language line : string) (sp : Playwright.state) (ss : Server.state) :
  tallies_agree (Server.actionTypes ss) (actionBreakdown (Playwright.stats_of sp)) ->
  tallies_agree (Server.actionTypes (Server.analyzeLine ss line))
    (actionBreakdown
       (Playwright.stats_of (Playwright.processLine this language sp line))).
Proof.
  intros H.
  unfold Playwright.processLine, Server.analyzeLine.
  destruct (JSON_parse line) as [event|]; [|exact H].
  unfold Playwright.processEvent, Server.analyzeEvent.
  destruct (Value.get event "evt") as [evt|]; [|exact H].
  destruct (Value.is_string evt "step.ok"); [|exact H].
  destruct (Value.toString _) as [key|]; [|exact H].
  pose proof (count_agrees _ _ key H) as H'.
  repeat case_match; project_state; exact H'.
Qed.

End Analysis.

(** X14. The upload analysis and the conversions count the same trace
    alike: [totalSteps] is the Playwright converter's [totalActions];
    [supportedSteps] lies between 0 and [totalSteps], so [unsupportedSteps] is
    never negative; and the Cypress converter converts no more steps than the
    analysis reported as supported. *)
Theorem analysis_agrees_with_conversion
    (rt : Runtime) (this_p : Playwright.instance) (fileContent language : string) :
  let analysis := Server.analyze fileContent in
  Server.totalSteps analysis
  = totalActions (result_stats (fst (Playwright.convert this_p fileContent language)))
  /\ 0 <= Server.supportedSteps analysis <= Server.totalSteps analysis
  /\ 0 <= Server.unsupportedSteps analysis
  /\ convertedActions
       (result_stats (fst (Cypress.convert Cypress.new fileContent language)))
     <= Server.supportedSteps analysis.
Proof.
  intros analysis. subst analysis.
  unfold Server.analyze, Server.unsupportedSteps, Playwright.convert, Cypress.convert,
    Playwright.run, Cypress.run.
  cbn [fst result_stats].
  change (Playwright.lines_of fileContent) with (Cypress.lines_of fileContent).
  change (List.filter (fun line => JS.nonempty (JS.trim line)) (JS.split_lines fileContent))
    with (Cypress.lines_of fileContent).
  pose proof (Server_loop_supported (Cypress.lines_of fileContent) Server.initial) as Hs.
  split; [now rewrite Server_loop_total, Playwright_loop_total|].
  split; [apply Hs; simpl; lia|].
  split; [assert (H0 : 0 <= 0 <= 0) by lia; specialize (Hs H0); lia|].
  apply converted_loop_supported. simpl. lia.
Qed.

(** X15. Under every kind whose name [Object.prototype] leaves free, the
    [actionTypes] of the upload analysis and the [actionBreakdown] of both
    conversions of the same trace hold the same count. *)
Theorem analysis_types_match_breakdown
    (rt : Runtime) (this_c : Cypress.instance) (this_p : Playwright.instance)
    (fileContent language kind : string) :
  Breakdown.Object_prototype kind = None ->
  type_tally (Server.actionTypes (Server.analyze fileContent)) kind
  = tally (actionBreakdown
             (result_stats (fst (Cypress.convert this_c fileContent language)))) kind
  /\ type_tally (Server.actionTypes (Server.analyze fileContent)) kind
     = tally (actionBreakdown
                (result_stats (fst (Playwright.convert this_p fileContent language)))) kind.
Proof.
  intros Hfree.
  unfold Server.analyze, Playwright.convert, Cypress.convert, Playwright.run, Cypress.run.
  cbn [fst result_stats].
  change (Playwright.lines_of fileContent) with (Cypress.lines_of fileContent).
  change (List.filter (fun line => JS.nonempty (JS.trim line)) (JS.split_lines fileContent))
    with (Cypress.lines_of fileContent).
  assert (H0 : tallies_agree ∅ ∅).
  { split; [apply types_ok_empty|]. split; [apply counts_ok_empty|].
    intros k _. unfold type_tally, tally. now rewrite !lookup_empty. }
  split.
  - assert (H : forall sc ss,
              tallies_agree (Server.actionTypes ss) (actionBreakdown (Cypress.stats_of sc)) ->
              tallies_agree
                (Server.actionTypes
                   (fold_left Server.analyzeLine (Cypress.lines_of fileContent) ss))
                (actionBreakdown
                   (Cypress.stats_of
                      (fold_left (Cypress.processLine this_c language)
                         (Cypress.lines_of fileContent) sc)))).
    { generalize (Cypress.lines_of fileContent) as lines.
      induction lines as [|line lines IH]; intros sc ss H; [exact H|].
      cbn [fold_left]. now apply IH, analysis_line_agrees_Cypress. }
    destruct (H Cypress.initial Server.initial H0) as (_ & _ & Heq).
    now apply Heq.
  - assert (H : forall sp ss,
              tallies_agree (Server.actionTypes ss)
                (actionBreakdown (Playwright.stats_of sp)) ->
              tallies_agree
                (Server.actionTypes
                   (fold_left Server.analyzeLine (Cypress.lines_of fileContent) ss))
                (actionBreakdown
                   (Playwright.stats_of
                      (fold_left (Playwright.processLine this_p language)
                         (Cypress.lines_of fileContent) sp)))).
    { generalize (Cypress.lines_of fileContent) as lines.
      induction lines as [|line lines IH]; intros sp ss H; [exact H|].
      cbn [fold_left]. now apply IH, analysis_line_agrees_Playwright. }
    destruct (H Playwright.initial Server.initial H0) as (_ & _ & Heq).
    now apply Heq.
Qed.

(** X15, for the kind [click] on a sample trace. *)
Lemma analysis_types_match_breakdown_witness :
  let trace := Sample.line "click" "[[drv] -> id: go]" +:+ NL
               +:+ Sample.line "get" "https://a.test/x" +:+ NL
               +:+ Sample.line "click" "[[drv] -> id: stop]" in
  type_tally (Server.actionTypes (Server.analyze (rt := Sample.runtime) trace)) "click"
  = tally (actionBreakdown
             (result_stats
                (fst (Cypress.convert (rt := Sample.runtime) Cypress.new
                        trace "javascript")))) "click"
  /\ type_tally (Server.actionTypes (Server.analyze (rt := Sample.runtime) trace)) "click"
     = tally (actionBreakdown
                (result_stats
                   (fst (Playwright.convert (rt := Sample.runtime) Playwright.new
                           trace "javascript")))) "click".
Proof.
  intros trace.
  apply (analysis_types_match_breakdown Sample.runtime Cypress.new Playwright.new
           trace "javascript" "click").
  reflexivity.
Defined.

(** ** The code preview *)

Section Preview.

(** Joining the lines of a text with line feeds gives the text back. *)
Lemma join_split_lines (s : string) : JS.join NL (JS.split_lines s) = s.
Proof.
  induction s as [|c s IH]; [reflexivity|].
  cbn [JS.split_lines].
  pose proof (split_lines_nonempty s) as Hne.
  destruct (Ascii.eqb c JS.LF) eqn:E.
  - apply Ascii.eqb_eq in E. subst c.
    destruct (JS.split_lines s) as [|l ls]; [contradiction|].
    change (JS.join NL (EmptyString :: l :: ls))
      with (EmptyString +:+ NL +:+ JS.join NL (l :: ls)).
    now rewrite IH.
  - destruct (JS.split_lines s) as [|l ls]; [contradiction|].
    destruct ls as [|l' ls].
    + cbn in IH. cbn. now rewrite IH.
    + change (JS.join NL (String c l :: l' :: ls))
        with (String c l +:+ NL +:+ JS.join NL (l' :: ls)).
      change (JS.join NL (l :: l' :: ls))
        with (l +:+ NL +:+ JS.join NL (l' :: ls)) in IH.
      now rewrite append_cons, IH.
Qed.

Lemma length_split_lines (s : string) :
  length (JS.split_lines s) = S (line_feeds s).
Proof.
  induction s as [|c s IH]; [reflexivity|].
  cbn [JS.split_lines line_feeds].
  pose proof (split_lines_nonempty s) as Hne.
  destruct (Ascii.eqb c JS.LF).
  - cbn [length]. now rewrite IH.
  - destruct (JS.split_lines s) as [|l ls]; [contradiction|].
    cbn [length] in *. now rewrite IH.
Qed.

Lemma line_feeds_append (a b : string) :
  line_feeds (a +:+ b) = (line_feeds a + line_feeds b)%nat.
Proof.
  induction a as [|c a IH]; [reflexivity|].
  rewrite append_cons. cbn [line_feeds]. rewrite IH. lia.
Qed.

(** A text of more than twenty lines is shown cut, with the mark. *)
Lemma codePreview_long (code : string) :
  (20 <= line_feeds code)%nat ->
  codePreview code
  = JS.join NL (take 20 (JS.split_lines code)) +:+ NL +:+ NL +:+ "... (truncated)".
Proof.
  intros H. unfold codePreview. rewrite length_split_lines.
  replace (20 <? S (line_feeds code))%nat with true; [reflexivity|].
  symmetry. apply Nat.ltb_lt. lia.
Qed.

End Preview.

(** X16. The preview of the page shows a text of at most twenty lines as
    it is. Every document of either converter has more than twenty lines,
    whatever the fragments and the language, so the preview of a conversion
    is always its first twenty lines and the truncation mark. *)
Theorem preview_of_generated_code :
  (forall code : string,
     (length (JS.split_lines code) <= 20)%nat -> codePreview code = code)
  /\ (forall (steps : list fragment) (language : string),
        codePreview (Cypress.generateTestFile steps language)
        = JS.join NL (take 20 (JS.split_lines (Cypress.generateTestFile steps language)))
            +:+ NL +:+ NL +:+ "... (truncated)"
        /\ codePreview (Playwright.generateTestFile steps language)
           = JS.join NL
               (take 20 (JS.split_lines (Playwright.generateTestFile steps language)))
               +:+ NL +:+ NL +:+ "... (truncated)").
Proof.
  split.
  - intros code H. unfold codePreview.
    rewrite take_ge by exact H. rewrite join_split_lines.
    replace (20 <? length (JS.split_lines code))%nat with false.
    + apply append_nil_r.
    + symmetry. apply Nat.ltb_ge. exact H.
  - intros steps language. split; apply codePreview_long.
    + unfold Cypress.generateTestFile, Cypress.generateTypeScriptTest,
        Cypress.generateJavaScriptTest.
      destruct (String.eqb language "typescript"); rewrite !line_feeds_append.
      * change (line_feeds Cypress.TypeScript_tail) with 27%nat. lia.
      * change (line_feeds Cypress.JavaScript_tail) with 27%nat. lia.
    + unfold Playwright.generateTestFile, Playwright.generatePythonTest,
        Playwright.generateTypeScriptTest, Playwright.generateJavaScriptTest.
      destruct (String.eqb language "python");
        [|destruct (String.eqb language "typescript")];
        rewrite !line_feeds_append.
      * change (line_feeds Playwright.Python_tail) with 24%nat. lia.
      * change (line_feeds Playwright.TypeScript_head) with 5%nat.
        change (line_feeds Playwright.TypeScript_tail) with 19%nat. lia.
      * change (line_feeds Playwright.JavaScript_head) with 5%nat.
        change (line_feeds Playwright.JavaScript_tail) with 19%nat. lia.
Qed.

(** X16, at a text of two lines. *)
Lemma preview_of_generated_code_witness :
  codePreview ("cy.reload();" +:+ NL +:+ "cy.go('back');")
  = "cy.reload();" +:+ NL +:+ "cy.go('back');".
Proof.
  apply (proj1 preview_of_generated_code). simpl. lia.
Defined.

(** ** Kinds without a translation *)

(** X17. A completed step of a kind that neither converter supports and
    that is not on the allow-list, with a target that can be printed, adds to
    both converters one fragment, the comment that names the unsupported
    action with the original target ([N/A] for a missing or empty one), and is
    counted in [totalActions] and [skippedActions] and not in
    [convertedActions]. *)
Theorem unsupported_kind_is_skipped
    (rt : Runtime) (language : string) (event : value) (kind text : string)
    (sc : Cypress.state) (sp : Playwright.state) :
  Value.get event "evt" = Some (Str "step.ok") ->
  Value.get event "kind" = Some (Str kind) ->
  existsb (String.eqb kind) (Playwright.supportedActions Playwright.new) = false ->
  existsb (String.eqb kind) Cypress.autoHandledActions = false ->
  (let target := default Undefined (Value.get event "target") in
   Value.toString (if Value.truthy target then target else Str "N/A") = Some text) ->
  (let s' := Cypress.processEvent Cypress.new language event sc in
   Cypress.steps s'
   = Cypress.steps sc
       ++ [{| action := "// Unsupported action: " +:+ kind;
              comment := "Original target: " +:+ text;
              url := None; origin := None |}]
   /\ totalActions (Cypress.stats_of s') = totalActions (Cypress.stats_of sc) + 1
   /\ skippedActions (Cypress.stats_of s') = skippedActions (Cypress.stats_of sc) + 1
   /\ convertedActions (Cypress.stats_of s') = convertedActions (Cypress.stats_of sc))
  /\ (let s' := Playwright.processEvent Playwright.new language event sp in
      Playwright.steps s'
      = Playwright.steps sp
          ++ [{| action := (if String.eqb language "python" then "# " else "// ")
                             +:+ "Unsupported action: " +:+ kind;
                 comment := "Original target: " +:+ text;
                 url := None; origin := None |}]
      /\ totalActions (Playwright.stats_of s') = totalActions (Playwright.stats_of sp) + 1
      /\ skippedActions (Playwright.stats_of s')
         = skippedActions (Playwright.stats_of sp) + 1
      /\ convertedActions (Playwright.stats_of s')
         = convertedActions (Playwright.stats_of sp)).
Proof.
  intros Hevt Hkind Hsup Hauto Htext. cbv zeta in Htext.
  assert (Hsup_c : existsb (String.eqb kind) (Cypress.supportedActions Cypress.new) = false).
  { cbn [existsb Playwright.supportedActions Playwright.new
         Cypress.supportedActions Cypress.new] in *.
    repeat (apply orb_false_iff in Hsup as [? Hsup]).
    repeat (apply orb_false_iff; split); assumption. }
  split; cbv zeta.
  - unfold Cypress.processEvent. rewrite Hevt, Hkind.
    change (Value.is_string (Str "step.ok") "step.ok") with true.
    cbn [from_option id Value.toString Value.in_set].
    rewrite Hsup_c, Hauto. cbn [negb].
    cbn [from_option id] in Htext. rewrite Htext.
    project_state. repeat split.
  - unfold Playwright.processEvent. rewrite Hevt, Hkind.
    change (Value.is_string (Str "step.ok") "step.ok") with true.
    cbn [from_option id Value.toString Value.in_set].
    rewrite Hsup. cbn [from_option id] in Htext. rewrite Htext.
    project_state. unfold Playwright.generateComment.
    destruct (String.eqb language "python"); repeat split.
Qed.

(** X17, at a step that executes a script, without a target. *)
Lemma unsupported_kind_is_skipped_witness :
  let event := Object [("evt", Str "step.ok"); ("kind", Str "executeScript")] in
  (let s' := Cypress.processEvent (rt := Sample.runtime) Cypress.new "python"
               event Cypress.initial in
   Cypress.steps s'
   = [] ++ [{| action := "// Unsupported action: " +:+ "executeScript";
               comment := "Original target: " +:+ "N/A";
               url := None; origin := None |}]
   /\ totalActions (Cypress.stats_of s') = 0 + 1
   /\ skippedActions (Cypress.stats_of s') = 0 + 1
   /\ convertedActions (Cypress.stats_of s') = 0)
  /\ (let s' := Playwright.processEvent Playwright.new "python"
                  event Playwright.initial in
      Playwright.steps s'
      = [] ++ [{| action := "# " +:+ "Unsupported action: " +:+ "executeScript";
                  comment := "Original target: " +:+ "N/A";
                  url := None; origin := None |}]
      /\ totalActions (Playwright.stats_of s') = 0 + 1
      /\ skippedActions (Playwright.stats_of s') = 0 + 1
      /\ convertedActions (Playwright.stats_of s') = 0).
Proof.
  intros event.
  apply (unsupported_kind_is_skipped Sample.runtime "python" event
           "executeScript" "N/A" Cypress.initial Playwright.initial);
    reflexivity.
Defined.

(** X18. A completed [Wait.until] step with a string target is converted
    by the Playwright converter, which counts it in [convertedActions], into
    nothing but a comment that the action is to be implemented; the upload
    analysis does not count the kind as supported. *)
Theorem wait_until_is_a_comment
    (rt : Runtime) (language : string) (event : value) (target : string)
    (sp : Playwright.state) (ss : Server.state) :
  Value.get event "evt" = Some (Str "step.ok") ->
  Value.get event "kind" = Some (Str "Wait.until") ->
  Value.get event "target" = Some (Str target) ->
  (let s' := Playwright.processEvent Playwright.new language event sp in
   Playwright.steps s'
   = Playwright.steps sp
       ++ [{| action := (if String.eqb language "python" then "# " else "// ")
                          +:+ "TODO: Implement Wait.until action";
              comment := "Unsupported action: Wait.until";
              url := None; origin := None |}]
   /\ convertedActions (Playwright.stats_of s')
      = convertedActions (Playwright.stats_of sp) + 1
   /\ skippedActions (Playwright.stats_of s') = skippedActions (Playwright.stats_of sp))
  /\ (let s' := Server.analyzeEvent event ss in
      Server.totalSteps s' = Server.totalSteps ss + 1
      /\ Server.supportedSteps s' = Server.supportedSteps ss).
Proof.
  intros Hevt Hkind Htarget.
  destruct (get_total _ _ "durationMs" _ Hkind) as [d Hd].
  split; cbv zeta.
  - unfold Playwright.processEvent. rewrite Hevt, Hkind.
    change (Value.is_string (Str "step.ok") "step.ok") with true.
    cbn [from_option id Value.toString].
    change (Value.in_set (Playwright.supportedActions Playwright.new) (Str "Wait.until"))
      with true. cbv iota.
    unfold Playwright.convertStep. rewrite Hkind, Htarget, Hd.
    cbn [mbind option_bind].
    assert (Hsel : exists selector,
              Playwright.extractCleanSelector (Str target) = Some selector).
    { unfold Playwright.extractCleanSelector.
      destruct (negb (Value.truthy (Str target))); eauto. }
    destruct Hsel as [selector ->].
    cbn [mbind option_bind Value.is_string Value.toString].
    repeat match goal with
           | |- context [String.eqb ?a ?b] =>
               lazymatch a with
               | language => fail
               | _ => let r := eval vm_compute in (String.eqb a b) in
                      change (String.eqb a b) with r
               end
           end; cbv iota.
    cbn [mbind option_bind]. project_state.
    unfold Playwright.generateComment.
    destruct (String.eqb language "python"); repeat split.
  - unfold Server.analyzeEvent. rewrite Hevt, Hkind.
    change (Value.is_string (Str "step.ok") "step.ok") with true.
    cbn [from_option id Value.toString].
    change (Value.in_set Server.supportedActions (Str "Wait.until")) with false.
    cbv iota. project_state. split; reflexivity.
Qed.

(** X18, at an explicit wait on an element. *)
Lemma wait_until_is_a_comment_witness :
  let event := step_ok "Wait.until" "[[drv] -> id: spinner]" in
  (let s' := Playwright.processEvent Playwright.new "javascript" event Playwright.initial in
   Playwright.steps s'
   = [] ++ [{| action := "// " +:+ "TODO: Implement Wait.until action";
               comment := "Unsupported action: Wait.until";
               url := None; origin := None |}]
   /\ convertedActions (Playwright.stats_of s') = 0 + 1
   /\ skippedActions (Playwright.stats_of s') = 0)
  /\ (let s' := Server.analyzeEvent event Server.initial in
      Server.totalSteps s' = 0 + 1 /\ Server.supportedSteps s' = 0).
Proof.
  intros event.
  apply (wait_until_is_a_comment Sample.runtime "javascript" event
           "[[drv] -> id: spinner]" Playwright.initial Server.initial);
    reflexivity.
Defined.

(** ** Escaping loses nothing *)

Section Escaping.

Lemma escape_quotes_cons (c : ascii) (s : string) :
  escape_quotes (String c s)
  = if Ascii.eqb JS.dquote c
    then String JS.backslash (String JS.dquote (escape_quotes s))
    else String c (escape_quotes s).
Proof.
  unfold escape_quotes. cbn [JS.replace_all].
  destruct (Ascii.eqb JS.dquote c); reflexivity.
Qed.

(** An escaped text never starts with a double quote. *)
Lemma escape_quotes_head (s t : string) :
  escape_quotes s <> String JS.dquote t.
Proof.
  destruct s as [|c s]; [discriminate|].
  rewrite escape_quotes_cons.
  destruct (Ascii.eqb JS.dquote c) eqn:E; [discriminate|].
  intros H. injection H as -> _. now rewrite Ascii.eqb_refl in E.
Qed.

Lemma escape_quotes_injective (a b : string) :
  escape_quotes a = escape_quotes b -> a = b.
Proof.
  revert b. induction a as [|c a IH]; intros b H.
  - destruct b as [|d b]; [reflexivity|].
    rewrite escape_quotes_cons in H.
    destruct (Ascii.eqb JS.dquote d); discriminate.
  - destruct b as [|d b].
    + rewrite escape_quotes_cons in H.
      destruct (Ascii.eqb JS.dquote c); discriminate.
    + rewrite !escape_quotes_cons in H.
      destruct (Ascii.eqb JS.dquote c) eqn:Ec;
        destruct (Ascii.eqb JS.dquote d) eqn:Ed.
      * apply Ascii.eqb_eq in Ec, Ed. subst c d.
        injection H as H. now rewrite (IH b H).
      * injection H as _ H. symmetry in H. now apply escape_quotes_head in H.
      * injection H as _ H. now apply escape_quotes_head in H.
      * injection H as -> H. now rewrite (IH b H).
Qed.

Lemma escape_quotes_plain (s : string) :
  all_chars (fun c => negb (Ascii.eqb c JS.dquote)) s = true ->
  escape_quotes s = s.
Proof.
  induction s as [|c s IH]; [reflexivity|].
  cbn [all_chars]. intros H. apply andb_true_iff in H as [Hc Hs].
  apply negb_true_iff in Hc. rewrite Ascii.eqb_sym in Hc.
  now rewrite escape_quotes_cons, Hc, (IH Hs).
Qed.

End Escaping.

(** X19. The escaping of the double quotes loses nothing: two selectors
    with the same escaped text are the same selector, and a selector without
    a double quote is its own escaped text. *)
Theorem escaping_is_faithful :
  (forall a b : string, escape_quotes a = escape_quotes b -> a = b)
  /\ (forall s : string,
        all_chars (fun c => negb (Ascii.eqb c JS.dquote)) s = true ->
        escape_quotes s = s).
Proof. split; [apply escape_quotes_injective | apply escape_quotes_plain]. Qed.

(** X19, at a selector by id and at an attribute selector. *)
Lemma escaping_is_faithful_witness :
  escape_quotes "#submit" = "#submit"
  /\ ("[name=" +:+ DQ +:+ "q" +:+ DQ +:+ "]") = ("[name=" +:+ DQ +:+ "q" +:+ DQ +:+ "]").
Proof.
  split.
  - apply (proj2 escaping_is_faithful). reflexivity.
  - apply (proj1 escaping_is_faithful). reflexivity.
Defined.

(** ** The history of visits *)

(** X20. Only a [get] touches the navigation record of the Cypress
    converter: an event of any other kind leaves the history and the current
    origin as they were, and every event leaves the history as it was or adds
    one entry, which becomes the current origin. *)
Theorem history_changes_on_get_only
    (rt : Runtime) (this : Cypress.instance) (language : string)
    (event : value) (s : Cypress.state) :
  let s' := Cypress.processEvent this language event s in
  (Value.get event "kind" <> Some (Str "get") ->
   Cypress.navigationHistory s' = Cypress.navigationHistory s
   /\ Cypress.currentOrigin s' = Cypress.currentOrigin s)
  /\ ((Cypress.navigationHistory s' = Cypress.navigationHistory s
       /\ Cypress.currentOrigin s' = Cypress.currentOrigin s)
      \/ Cypress.navigationHistory s'
         = Cypress.navigationHistory s ++ [Cypress.currentOrigin s']).
Proof.
  cbv zeta. unfold Cypress.processEvent. split.
  - intros Hkind.
    destruct (Value.get event "evt") as [evt|] eqn:Ee; [|now split].
    destruct (Value.is_string evt "step.ok"); [|now split].
    destruct (Value.get event "kind") as [kind|] eqn:Ek.
    + cbn [from_option id].
      assert (Hget : Value.is_string kind "get" = false).
      { destruct kind; try reflexivity. cbn [Value.is_string].
        apply String.eqb_neq. intros ->. now destruct Hkind. }
      rewrite Hget. cbn [andb].
      repeat case_match; project_state; now split.
    + destruct event; simpl in Ee, Ek; congruence.
  - repeat case_match; project_state; auto.
Qed.

(** X20, at a click after a visit. *)
Lemma history_changes_on_get_only_witness :
  let s := Cypress.run (rt := Sample.runtime) Cypress.new "javascript"
             [Sample.line "get" "https://a.test/x"] in
  let s' := Cypress.processEvent (rt := Sample.runtime) Cypress.new "javascript"
              (step_ok "click" "[[drv] -> id: go]") s in
  Cypress.navigationHistory s' = Cypress.navigationHistory s
  /\ Cypress.currentOrigin s' = Cypress.currentOrigin s.
Proof.
  intros s s'.
  apply (proj1 (history_changes_on_get_only Sample.runtime Cypress.new "javascript"
                  (step_ok "click" "[[drv] -> id: go]") s)).
  discriminate.
Defined.
